(** * bunElisyaAgent: a shallow embedding of the WhatsApp agent core

    The development follows the TypeScript sources:
    - [services/webhookService.ts]  (module [WebhookService]),
    - [routes/webhookRoutes.ts]     (the GET handshake route),
    - [database/schema.ts], [database/repositories.ts], [database/client.ts]
                                    (modules [Db], [UserRepository], ...),
    - [agents/memory.ts]            (module [AgentMemory]),
    - [agents/tools.ts]             (module [Tools]),
    - [agents/whatsappAgent.ts]     (module [WhatsAppAgent]).

    Conventions.
    - A JavaScript string is a Rocq [string]; the string primitives of the
      engine ([toLowerCase], [trim], [includes], the class [\s]) are given on
      the ASCII range, other bytes are left as they are.
    - [await] is sequential inside one turn, so asynchronous functions are
      functions of the world; an exception is the [Throw] result.
    - Calls to the logger have no effect on any value and are left out; the
      property reads that build their arguments are kept when they can throw. *)

From stdpp Require Import base options strings list gmap pretty.
From Stdlib Require Import Ascii ZArith Lia.

Set Warnings "-register-all".

(** ** Engine string primitives *)

Module JsString.

Definition lower_ascii (c : ascii) : ascii :=
  let n := nat_of_ascii c in
  if (Nat.leb 65 n && Nat.leb n 90)%bool then ascii_of_nat (n + 32) else c.

(** [String.prototype.toLowerCase] *)
Fixpoint toLowerCase (s : string) : string :=
  match s with
  | EmptyString => EmptyString
  | String c r => String (lower_ascii c) (toLowerCase r)
  end.

(** [String.prototype.startsWith] *)
Fixpoint startsWith (s pat : string) : bool :=
  match pat, s with
  | EmptyString, _ => true
  | String _ _, EmptyString => false
  | String p pr, String c r => if decide (p = c) then startsWith r pr else false
  end.

(** [String.prototype.includes] *)
Fixpoint includes (s pat : string) : bool :=
  startsWith s pat ||
  match s with
  | EmptyString => false
  | String _ r => includes r pat
  end.

Fixpoint drop (n : nat) (s : string) : string :=
  match n, s with
  | O, _ => s
  | S _, EmptyString => EmptyString
  | S k, String _ r => drop k r
  end.

Fixpoint trimStart (s : string) : string :=
  match s with
  | EmptyString => EmptyString
  | String c r => if Ascii.is_space c then trimStart r else s
  end.

Definition trimEnd (s : string) : string := String.rev (trimStart (String.rev s)).

(** [String.prototype.trim] *)
Definition trim (s : string) : string := trimEnd (trimStart s).

(** [s.replace(/\s+/g, '')] *)
Fixpoint removeSpaces (s : string) : string :=
  match s with
  | EmptyString => EmptyString
  | String c r => if Ascii.is_space c then removeSpaces r else String c (removeSpaces r)
  end.

Fixpoint forallb (p : ascii -> bool) (s : string) : bool :=
  match s with
  | EmptyString => true
  | String c r => p c && forallb p r
  end.

(** [s.replace(/^(a1|a2|...)/i, '')]: the first alternative, in the order
    written, that is a prefix of [s] up to case is removed. *)
Fixpoint replacePrefixCI (alts : list string) (s : string) : string :=
  match alts with
  | [] => s
  | a :: rest =>
      if startsWith (toLowerCase s) (toLowerCase a)
      then drop (String.length a) s
      else replacePrefixCI rest s
  end.

End JsString.

(** ** Exceptions *)

Inductive Exn : Type :=
| JsError (name message : string)      (* Error, TypeError, ValidationError *)
| PgError (code message : string).     (* error of the PostgreSQL driver *)

Definition exn_message (e : Exn) : string :=
  match e with JsError _ m => m | PgError _ m => m end.

Inductive Res (A : Type) : Type :=
| Ok (a : A)
| Throw (e : Exn).
Arguments Ok {A} a.
Arguments Throw {A} e.

Definition is_ok {A} (r : Res A) : bool :=
  match r with Ok _ => true | Throw _ => false end.

(** The exception monad of synchronous code. *)
Module E.
Definition bind {A B} (m : Res A) (k : A -> Res B) : Res B :=
  match m with Ok a => k a | Throw e => Throw e end.
(** [try { m } catch (error) { h error }] *)
Definition catch {A} (m : Res A) (h : Exn -> Res A) : Res A :=
  match m with Ok a => Ok a | Throw e => h e end.
End E.

Declare Scope exn_scope.
Delimit Scope exn_scope with exn.
Notation "x <- m ;; k" := (E.bind m (fun x => k))
  (at level 100, m at next level, right associativity) : exn_scope.

(** ** JavaScript values (what [JSON.parse] produces, and [undefined]) *)

Module Js.

(** The fields of an object hold one binding for a key: of duplicate keys
    [JSON.parse] keeps one. A number is an integer literal; the code only
    tests numbers for truth and for being positive. *)
Inductive value : Type :=
| Undefined
| Null
| Bool (b : bool)
| Num (n : Z)
| Str (s : string)
| Arr (elems : list value)
| Obj (fields : list (string * value)).

Definition typeError (msg : string) : Exn := JsError "TypeError" msg.

Fixpoint assoc (k : string) (fields : list (string * value)) : value :=
  match fields with
  | [] => Undefined
  | (k', v) :: rest => if decide (k = k') then v else assoc k rest
  end.

(** [v.p] (own data properties, and [length] of strings and arrays) *)
Definition get (v : value) (p : string) : Res value :=
  match v with
  | Undefined => Throw (typeError ("Cannot read properties of undefined (reading '" +:+ p +:+ "')"))
  | Null => Throw (typeError ("Cannot read properties of null (reading '" +:+ p +:+ "')"))
  | Bool _ | Num _ => Ok Undefined
  | Str s => if decide (p = "length") then Ok (Num (Z.of_nat (String.length s))) else Ok Undefined
  | Arr l => if decide (p = "length") then Ok (Num (Z.of_nat (length l))) else Ok Undefined
  | Obj fs => Ok (assoc p fs)
  end.

Definition nullish (v : value) : bool :=
  match v with Undefined | Null => true | _ => false end.

(** [v?.p] *)
Definition getOpt (v : value) (p : string) : Res value :=
  if nullish v then Ok Undefined else get v p.

(** ToBoolean *)
Definition truthy (v : value) : bool :=
  match v with
  | Undefined | Null => false
  | Bool b => b
  | Num n => negb (n =? 0)%Z
  | Str s => negb (bool_decide (s = EmptyString))
  | Arr _ | Obj _ => true
  end.

(** [typeof v === 'object'] *)
Definition typeofObject (v : value) : bool :=
  match v with Null | Arr _ | Obj _ => true | _ => false end.

(** [v === 'lit'] *)
Definition isStr (v : value) (lit : string) : bool :=
  match v with Str s => bool_decide (s = lit) | _ => false end.

(** [Array.isArray(v)] *)
Definition isArray (v : value) : bool :=
  match v with Arr _ => true | _ => false end.

Fixpoint chars (s : string) : list value :=
  match s with
  | EmptyString => []
  | String c r => Str (String c EmptyString) :: chars r
  end.

(** The values a [for (const x of v)] loop visits. *)
Definition iterate (v : value) : Res (list value) :=
  match v with
  | Arr l => Ok l
  | Str s => Ok (chars s)
  | Undefined => Throw (typeError "undefined is not iterable")
  | Null => Throw (typeError "null is not iterable")
  | Bool _ | Num _ | Obj _ => Throw (typeError "object is not iterable")
  end.

(** [v.trim()] for a non-nullish [v] *)
Definition callTrim (v : value) : Res value :=
  match v with
  | Str s => Ok (Str (JsString.trim s))
  | _ => Throw (typeError "trim is not a function")
  end.

Section Coercion.
(** [ToNumber(v) > 0] for strings, arrays and objects is left to the engine. *)
Variable coerceGtZero : value -> bool.

(** [v > 0] *)
Definition gtZero (v : value) : bool :=
  match v with
  | Undefined | Null => false
  | Bool b => b
  | Num n => (0 <? n)%Z
  | Str _ | Arr _ | Obj _ => coerceGtZero v
  end.
End Coercion.

End Js.

(** ** services/webhookService.ts *)

Module WebhookService.
Import Js.
Local Open Scope exn_scope.

Inductive WebhookEventType : Type :=
| EvText | EvImage | EvVideo | EvAudio | EvDocument | EvLocation | EvContact.

Record WebhookProcessingResult : Type := {
  success : bool;
  eventType : option WebhookEventType;
  message : option value;
  error : option string;
  shouldRespond : option bool
}.

Record Validation : Type := { isValid : bool; validationError : option string }.

Definition valid : Validation := {| isValid := true; validationError := None |}.
Definition invalid (msg : string) : Validation :=
  {| isValid := false; validationError := Some msg |}.

(** A [for ... of] loop whose body may [return]: the first returned value
    ends the loop, an exception leaves it. *)
Fixpoint forOf {A B} (body : A -> Res (option B)) (l : list A) : Res (option B) :=
  match l with
  | [] => Ok None
  | x :: rest =>
      r <- body x ;;
      match r with
      | Some b => Ok (Some b)
      | None => forOf body rest
      end
  end.

Section Service.
Variable coerceGtZero : value -> bool.
(** [this.verifyToken = config.metaVerifyToken] *)
Variable verifyToken : string.

Definition verifyWebhook (mode token challenge : string) : Res (option string) :=
  E.catch
    (if negb (bool_decide (mode = "subscribe")) then Ok None
     else if negb (bool_decide (token = verifyToken)) then Ok None
     else if negb (truthy (Str challenge)) || Nat.eqb (String.length challenge) 0
          then Ok None
     else Ok (Some challenge))
    (fun _ => Ok None).

Definition validateChange (change : value) : Res (option Validation) :=
  field <- get change "field" ;;
  if negb (isStr field "messages") then Ok None
  else
    v <- get change "value" ;;
    if negb (truthy v) then Ok (Some (invalid "Valor de cambio inválido"))
    else
      mp <- get v "messaging_product" ;;
      if negb (truthy mp) || negb (isStr mp "whatsapp")
      then Ok (Some (invalid "Valor de cambio inválido"))
      else Ok None.

Definition validateEntry (entry : value) : Res (option Validation) :=
  id <- get entry "id" ;;
  if negb (truthy id)
  then Ok (Some (invalid "Entrada inválida: faltan campos requeridos"))
  else
    changes <- get entry "changes" ;;
    if negb (truthy changes) || negb (isArray changes)
    then Ok (Some (invalid "Entrada inválida: faltan campos requeridos"))
    else
      l <- iterate changes ;;
      forOf validateChange l.

Definition validateWebhookPayload (payload : value) : Res Validation :=
  E.catch
    (if negb (truthy payload) || negb (typeofObject payload)
     then Ok (invalid "Payload inválido o vacío")
     else
       o <- get payload "object" ;;
       if negb (isStr o "whatsapp_business_account")
       then Ok (invalid "Object debe ser whatsapp_business_account")
       else
         entry <- get payload "entry" ;;
         match entry with
         | Arr ((_ :: _) as l) =>
             r <- forOf validateEntry l ;;
             Ok (default valid r)
         | _ => Ok (invalid "Entry debe ser un array no vacío")
         end)
    (fun e => Ok (invalid ("Error de validación: " +:+ exn_message e))).

Definition determineEventType (message : value) : Res WebhookEventType :=
  ty <- get message "type" ;;
  Ok (if isStr ty "text" then EvText
      else if isStr ty "image" then EvImage
      else if isStr ty "video" then EvVideo
      else if isStr ty "audio" then EvAudio
      else if isStr ty "document" then EvDocument
      else if isStr ty "location" then EvLocation
      else if isStr ty "contact" then EvContact
      else EvText).

Definition supportedTypes : list string :=
  ["text"; "image"; "video"; "audio"; "document"; "location"; "contact"].

Definition isProcessableMessage (message : value) : Res bool :=
  from <- get message "from" ;;
  if negb (truthy from) then Ok false
  else
    ty <- get message "type" ;;
    Ok (existsb (isStr ty) supportedTypes).

Definition shouldAutoRespond (message : value) : Res bool :=
  ty <- get message "type" ;;
  if isStr ty "text" then Ok true
  else if isStr ty "audio" then Ok true
  else Ok false.

Definition processIncomingMessage (message : value)
  : Res (option WebhookProcessingResult) :=
  E.catch
    (_ <- get message "id" ;;
     _ <- get message "from" ;;
     _ <- get message "type" ;;
     _ <- get message "timestamp" ;;
     ev <- determineEventType message ;;
     ok <- isProcessableMessage message ;;
     if negb ok then Ok None
     else
       ty <- get message "type" ;;
       blank <-
         (if isStr ty "text" then
            text <- get message "text" ;;
            body <- getOpt text "body" ;;
            trimmed <- (if nullish body then Ok Undefined else callTrim body) ;;
            Ok (negb (truthy trimmed))
          else Ok false) ;;
       if (blank : bool) then Ok None
       else
         respond <- shouldAutoRespond message ;;
         Ok (Some {| success := true; eventType := Some ev;
                     message := Some message; error := None;
                     shouldRespond := Some respond |}))
    (fun _ =>
       _ <- get message "id" ;;
       _ <- get message "type" ;;
       Ok None).

Definition processChange (change : value) : Res (option WebhookProcessingResult) :=
  field <- get change "field" ;;
  if negb (isStr field "messages") then Ok None
  else
    v <- get change "value" ;;
    messages <- get v "messages" ;;
    statuses <- get v "statuses" ;;
    if truthy messages then
      len <- get messages "length" ;;
      if gtZero coerceGtZero len then
        l <- iterate messages ;;
        forOf processIncomingMessage l
      else Ok None
    else Ok None.

Definition processWebhookEntry (entry : value) : Res (option WebhookProcessingResult) :=
  E.catch
    (changes <- get entry "changes" ;;
     l <- iterate changes ;;
     forOf processChange l)
    (fun _ =>
       _ <- get entry "id" ;;
       Ok None).

(** [JSON.stringify(payload).substring(0, 500)] in the handler of
    [processWebhookPayload]: [JSON.stringify(undefined)] is [undefined]. *)
Definition stringifyForLog (payload : value) : Res unit :=
  match payload with
  | Undefined => Throw (typeError "Cannot read properties of undefined (reading 'substring')")
  | _ => Ok tt
  end.

Definition processWebhookPayload (payload : value) : Res WebhookProcessingResult :=
  E.catch
    (validationResult <- validateWebhookPayload payload ;;
     if negb (isValid validationResult)
     then Ok {| success := false; eventType := None; message := None;
                error := validationError validationResult; shouldRespond := None |}
     else
       entry <- get payload "entry" ;;
       l <- iterate entry ;;
       r <- forOf processWebhookEntry l ;;
       match r with
       | Some result => Ok result
       | None => Ok {| success := true; eventType := None; message := None;
                       error := None; shouldRespond := Some false |}
       end)
    (fun e =>
       _ <- stringifyForLog payload ;;
       Ok {| success := false; eventType := None; message := None;
             error := Some ("Error procesando webhook: " +:+ exn_message e);
             shouldRespond := None |}).

End Service.
End WebhookService.

(** ** routes/webhookRoutes.ts: GET /webhook *)

Module WebhookRoutes.

Inductive Body : Type :=
| BodyText (s : string)
| BodyError (msg : string).

Record Response : Type := { status : Z; body : Body }.

Section Routes.
Variable verifyToken : string.

(** [x || ''] for a query parameter *)
Definition orEmpty (x : option string) : string := default EmptyString x.

Definition getWebhook (query : string -> option string) : Response :=
  let mode := query "hub.mode" in
  let token := query "hub.verify_token" in
  let challenge := query "hub.challenge" in
  match WebhookService.verifyWebhook verifyToken
          (orEmpty mode) (orEmpty token) (orEmpty challenge) with
  | Ok None => {| status := 403; body := BodyError "Verificación fallida" |}
  | Ok (Some result) => {| status := 200; body := BodyText result |}
  | Throw _ => {| status := 500; body := BodyError "Error interno" |}
  end.
End Routes.
End WebhookRoutes.

(** ** types/index.ts: the agent state *)

Module Types.

Inductive CourtesyType : Type := greeting | thanks | goodbye | apology | help.

(** The objects [extractToolInput] builds, by shape. *)
Inductive ToolInput : Type :=
| InputEmpty                                   (* {} *)
| InputQuery (query : string)                  (* { query } *)
| InputExpression (expression : string)        (* { expression } *)
| InputRemember (key value userId : string)    (* { key, value, userId } *)
| InputCourtesy (type : CourtesyType).         (* { type } *)

Inductive Role : Type := user | assistant | system.

#[global] Instance Role_eq_dec : EqDecision Role.
Proof. solve_decision. Defined.

Record ChatMessage : Type := {
  role : Role;
  content : string;
  timestamp : Z
}.

(** [context: Record<string, any>], by the keys the code writes; [None] is
    an absent or [undefined] key. [preferences] and [metadata] are always
    the empty object and are left out. *)
Record Context : Type := {
  user_id : string;
  created_at : Z;
  conversation_type : string;
  selected_tool : option string;
  tool_input : option ToolInput;
  tool_result : option string;
  updated_at : option Z;
  cleared_at : option Z
}.

Record AgentState : Type := {
  messages : list ChatMessage;
  session_id : string;
  context : Context;
  current_node : option string
}.

Definition withMessages (s : AgentState) (m : list ChatMessage) : AgentState :=
  {| messages := m; session_id := session_id s; context := context s;
     current_node := current_node s |}.

Definition withNode (s : AgentState) (n : string) : AgentState :=
  {| messages := messages s; session_id := session_id s; context := context s;
     current_node := Some n |}.

Definition withContext (s : AgentState) (c : Context) : AgentState :=
  {| messages := messages s; session_id := session_id s; context := c;
     current_node := current_node s |}.

(** An optional string argument of a TypeScript function. *)
Inductive OptStr : Type :=
| OUndefined
| ONull
| OStr (s : string).

(** The driver binds [undefined] and [null] to SQL NULL. *)
Definition toSqlParam (x : OptStr) : option string :=
  match x with OUndefined | ONull => None | OStr s => Some s end.

End Types.

(** ** database/schema.ts: tables and their constraints *)

Module Db.
Import Types.

Record User : Type := {
  u_id : string;
  u_wa_id : string;
  u_phone_number : string;
  u_profile_name : option string;
  u_created_at : Z;
  u_updated_at : Z
}.

Record Conversation : Type := {
  c_id : string;
  c_user_id : string;
  c_title : option string;
  c_created_at : Z;
  c_updated_at : Z
}.

Inductive Direction : Type := incoming | outgoing.

Record Message : Type := {
  m_id : string;
  m_conversation_id : string;
  m_direction : Direction;
  m_message_type : string;
  m_content : string;
  m_whatsapp_message_id : option string;
  m_timestamp : Z
}.

Record Session : Type := {
  s_id : string;
  s_user_id : string;
  s_agent_state : AgentState;
  s_updated_at : Z;
  s_expires_at : option Z
}.

(** [users.wa_id] and [sessions.user_id] are UNIQUE: those tables are maps
    from that column. [messages] and [conversations] are kept in insertion
    order. [next_uuid] stands for [gen_random_uuid()]. *)
Record Database : Type := {
  users : gmap string User;
  conversations : list Conversation;
  messages : list Message;
  sessions : gmap string Session;
  next_uuid : nat
}.

Definition empty : Database :=
  {| users := ∅; conversations := []; messages := []; sessions := ∅; next_uuid := 0 |}.

Definition gen_random_uuid (d : Database) : string := "uuid-" +:+ pretty (next_uuid d).

Definition unique_violation : Exn :=
  PgError "23505" "duplicate key value violates unique constraint".
Definition foreign_key_violation : Exn :=
  PgError "23503" "insert or update on table violates foreign key constraint".

Definition userIdExists (d : Database) (id : string) : bool :=
  existsb (fun kv => bool_decide (u_id kv.2 = id)) (map_to_list (users d)).

Definition conversationExists (d : Database) (id : string) : bool :=
  existsb (fun c => bool_decide (c_id c = id)) (conversations d).

Definition hasWhatsappId (id : string) (m : Message) : bool :=
  bool_decide (m_whatsapp_message_id m = Some id).

(** Rows of [messages] with a given [whatsapp_message_id]. *)
Definition rowsWithWhatsappId (d : Database) (id : string) : list Message :=
  filter (fun m => m_whatsapp_message_id m = Some id) (messages d).

(** A statement: its result (the rows, or the error of the server) and the
    database after it. A failed statement leaves the database as it was. *)
Definition Statement (A : Type) : Type := Database -> Res A * Database.

(** INSERT INTO users ... ON CONFLICT (wa_id) DO UPDATE SET
      phone_number = EXCLUDED.phone_number,
      profile_name = COALESCE(EXCLUDED.profile_name, users.profile_name),
      updated_at = NOW()  RETURNING * *)
Definition upsertUser (now : Z) (waId phoneNumber : string) (profileName : option string)
  : Statement (list User) := fun d =>
  match users d !! waId with
  | Some u =>
      let row := {| u_id := u_id u; u_wa_id := waId; u_phone_number := phoneNumber;
                    u_profile_name :=
                      match profileName with
                      | Some p => Some p
                      | None => u_profile_name u
                      end;
                    u_created_at := u_created_at u; u_updated_at := now |} in
      (Ok [row],
       {| users := <[waId := row]> (users d); conversations := conversations d;
          messages := messages d; sessions := sessions d; next_uuid := next_uuid d |})
  | None =>
      let row := {| u_id := gen_random_uuid d; u_wa_id := waId;
                    u_phone_number := phoneNumber; u_profile_name := profileName;
                    u_created_at := now; u_updated_at := now |} in
      (Ok [row],
       {| users := <[waId := row]> (users d); conversations := conversations d;
          messages := messages d; sessions := sessions d;
          next_uuid := S (next_uuid d) |})
  end.

(** SELECT * FROM users WHERE wa_id = $1 *)
Definition selectUserByWaId (waId : string) : Statement (list User) := fun d =>
  (Ok (option_list (users d !! waId)), d).

(** INSERT INTO conversations (user_id, title) VALUES ($1, $2) RETURNING id *)
Definition insertConversation (now : Z) (userId : string) (title : option string)
  : Statement (list string) := fun d =>
  if negb (userIdExists d userId) then (Throw foreign_key_violation, d)
  else
    let row := {| c_id := gen_random_uuid d; c_user_id := userId; c_title := title;
                  c_created_at := now; c_updated_at := now |} in
    (Ok [c_id row],
     {| users := users d; conversations := conversations d ++ [row];
        messages := messages d; sessions := sessions d; next_uuid := S (next_uuid d) |}).

(** The row of [l] with the greatest [updated_at] (the first of them). *)
Fixpoint mostRecent (l : list Conversation) : option Conversation :=
  match l with
  | [] => None
  | c :: rest =>
      match mostRecent rest with
      | Some c' => if (c_updated_at c <? c_updated_at c')%Z then Some c' else Some c
      | None => Some c
      end
  end.

(** SELECT c.*, COUNT(m.id) ... WHERE c.user_id = $1 GROUP BY c.id
    ORDER BY c.updated_at DESC LIMIT 1 *)
Definition selectLatestConversation (userId : string) : Statement (list Conversation) :=
  fun d =>
  (Ok (option_list
         (mostRecent (filter (fun c => c_user_id c = userId) (conversations d)))), d).

(** UPDATE conversations SET updated_at = NOW() WHERE id = $1 *)
Definition touchConversation (now : Z) (conversationId : string) : Statement unit :=
  fun d =>
  (Ok tt,
   {| users := users d;
      conversations :=
        (fun c => if bool_decide (c_id c = conversationId)
                  then {| c_id := c_id c; c_user_id := c_user_id c; c_title := c_title c;
                          c_created_at := c_created_at c; c_updated_at := now |}
                  else c) <$> conversations d;
      messages := messages d; sessions := sessions d; next_uuid := next_uuid d |}).

(** INSERT INTO messages (conversation_id, direction, message_type, content,
    whatsapp_message_id, timestamp) VALUES (...) RETURNING id,
    under [whatsapp_message_id VARCHAR(255) UNIQUE] and
    [conversation_id ... REFERENCES conversations(id)]. *)
Definition insertMessage (conversationId : string) (direction : Direction)
    (messageType content : string) (whatsappMessageId : option string) (ts : Z)
  : Statement (list string) := fun d =>
  if match whatsappMessageId with
     | Some id => existsb (hasWhatsappId id) (messages d)
     | None => false
     end
  then (Throw unique_violation, d)
  else if negb (conversationExists d conversationId) then (Throw foreign_key_violation, d)
  else
    let row := {| m_id := gen_random_uuid d; m_conversation_id := conversationId;
                  m_direction := direction; m_message_type := messageType;
                  m_content := content; m_whatsapp_message_id := whatsappMessageId;
                  m_timestamp := ts |} in
    (Ok [m_id row],
     {| users := users d; conversations := conversations d;
        messages := messages d ++ [row]; sessions := sessions d;
        next_uuid := S (next_uuid d) |}).

(** INSERT INTO sessions (user_id, agent_state, updated_at) VALUES (...)
    ON CONFLICT (user_id) DO UPDATE SET agent_state = EXCLUDED.agent_state,
    updated_at = NOW() RETURNING id *)
Definition upsertSession (now : Z) (userId : string) (state : AgentState)
  : Statement (list string) := fun d =>
  match sessions d !! userId with
  | Some s =>
      let row := {| s_id := s_id s; s_user_id := userId; s_agent_state := state;
                    s_updated_at := now; s_expires_at := s_expires_at s |} in
      (Ok [s_id row],
       {| users := users d; conversations := conversations d; messages := messages d;
          sessions := <[userId := row]> (sessions d); next_uuid := next_uuid d |})
  | None =>
      if negb (userIdExists d userId) then (Throw foreign_key_violation, d)
      else
        let row := {| s_id := gen_random_uuid d; s_user_id := userId;
                      s_agent_state := state; s_updated_at := now;
                      s_expires_at := None |} in
        (Ok [s_id row],
         {| users := users d; conversations := conversations d; messages := messages d;
            sessions := <[userId := row]> (sessions d); next_uuid := S (next_uuid d) |})
  end.

(** SELECT agent_state FROM sessions WHERE user_id = $1
    AND (expires_at IS NULL OR expires_at > NOW()) ORDER BY updated_at DESC LIMIT 1 *)
Definition selectAgentState (now : Z) (userId : string) : Statement (list AgentState) :=
  fun d =>
  (Ok match sessions d !! userId with
      | Some s =>
          match s_expires_at s with
          | None => [s_agent_state s]
          | Some e => if (now <? e)%Z then [s_agent_state s] else []
          end
      | None => []
      end, d).

End Db.

(** ** The world of one turn *)

(** What the process did outside itself, newest first. Nothing in the code
    reads it: it records the calls for the statements below. *)
Inductive Event : Type :=
| EvQuery                       (* pool.query *)
| EvToolExecute (name : string) (* tool.execute *)
| EvModelInvoke (prompt : string). (* ChatOpenAI.invoke *)

Record MemoryItem : Type := {
  mi_value : string;
  mi_timestamp : Z;
  mi_userId : string
}.

Record World : Type := {
  isDatabaseAvailable : bool;           (* agents/memory.ts: the module flag *)
  db : Db.Database;                     (* the PostgreSQL server *)
  trace : list Event;
  now : Z;                              (* new Date(), Date.now() *)
  entropy : list nat;                   (* Math.random() *)
  toolMemory : gmap string MemoryItem   (* MemoryTool.memory *)
}.

(** Collaborators that are not part of the repository. *)
Record Env : Type := {
  (** the failure, if any, of a query issued after [n] events: connection
      refused, timeout, a rejection the tables below do not show *)
  poolFault : nat -> option Exn;
  (** [config.apiKeyOpenAI] is set *)
  apiKeyConfigured : bool;
  (** the content of [ChatOpenAI.invoke] for a prompt, or its failure *)
  modelInvoke : string -> Res string;
  (** [Date.prototype.toLocaleString('es-ES', ...)] *)
  toLocaleString : Z -> Res string;
  (** the engine on an arithmetic text outside the integer fragment of
      [Calculator.evalInteger]: the printed finite number, if there is one *)
  engineEval : string -> option string
}.

Definition M (A : Type) : Type := World -> Res A * World.

Module M.
Definition ret {A} (a : A) : M A := fun w => (Ok a, w).
Definition throw {A} (e : Exn) : M A := fun w => (Throw e, w).
Definition bind {A B} (m : M A) (k : A -> M B) : M B := fun w =>
  match m w with
  | (Ok a, w') => k a w'
  | (Throw e, w') => (Throw e, w')
  end.
(** [try { m } catch (error) { h error }] *)
Definition catch {A} (m : M A) (h : Exn -> M A) : M A := fun w =>
  match m w with
  | (Ok a, w') => (Ok a, w')
  | (Throw e, w') => h e w'
  end.
Definition getNow : M Z := fun w => (Ok (now w), w).
Definition getFlag : M bool := fun w => (Ok (isDatabaseAvailable w), w).
Definition log (ev : Event) : M unit := fun w =>
  (Ok tt, {| isDatabaseAvailable := isDatabaseAvailable w; db := db w;
             trace := ev :: trace w; now := now w; entropy := entropy w;
             toolMemory := toolMemory w |}).
End M.

Declare Scope world_scope.
Delimit Scope world_scope with world.
Notation "x <- m ;; k" := (M.bind m (fun x => k))
  (at level 100, m at next level, right associativity) : world_scope.
Notation "m ;;; k" := (M.bind m (fun _ => k))
  (at level 100, right associativity) : world_scope.

Definition newError (msg : string) : Exn := JsError "Error" msg.
Definition newValidationError (msg : string) : Exn := JsError "ValidationError" msg.

(** ** database/client.ts *)

Module Client.
Section Client.
Variable env : Env.

(** [executeQuery]: [pool.query] either fails, and the error is logged and
    thrown again, or the statement runs on the server. *)
Definition executeQuery {A} (q : Db.Statement A) : M A := fun w =>
  let w1 := {| isDatabaseAvailable := isDatabaseAvailable w; db := db w;
               trace := EvQuery :: trace w; now := now w; entropy := entropy w;
               toolMemory := toolMemory w |} in
  match poolFault env (length (trace w)) with
  | Some e => (Throw e, w1)
  | None =>
      let '(r, d) := q (db w) in
      (r, {| isDatabaseAvailable := isDatabaseAvailable w; db := d;
             trace := EvQuery :: trace w; now := now w; entropy := entropy w;
             toolMemory := toolMemory w |})
  end.
End Client.
End Client.

(** ** database/repositories.ts *)

Module UserRepository.
Import Types.
Local Open Scope world_scope.
Section Repo.
Variable env : Env.

(** [result[0]] of a RETURNING statement that succeeded *)
Definition first {A} (rows : list A) : M A :=
  match rows with
  | r :: _ => M.ret r
  | [] => M.throw (Js.typeError "Cannot read properties of undefined")
  end.

Definition upsertUser (waId phoneNumber : string) (profileName : OptStr) : M Db.User :=
  M.catch
    (t <- M.getNow ;;
     result <- Client.executeQuery env
                 (Db.upsertUser t waId phoneNumber (toSqlParam profileName)) ;;
     first result)
    (fun error => M.throw error).

Definition getUserByWaId (waId : string) : M (option Db.User) :=
  M.catch
    (result <- Client.executeQuery env (Db.selectUserByWaId waId) ;;
     M.ret (head result))
    (fun error => M.throw error).
End Repo.
End UserRepository.

Module ConversationRepository.
Local Open Scope world_scope.
Section Repo.
Variable env : Env.

Definition createConversation (userId : string) (title : option string) : M string :=
  M.catch
    (t <- M.getNow ;;
     result <- Client.executeQuery env (Db.insertConversation t userId title) ;;
     UserRepository.first result)
    (fun error => M.throw error).

(** [getUserConversations(userId, 1)] *)
Definition getUserConversations (userId : string) : M (list Db.Conversation) :=
  M.catch
    (Client.executeQuery env (Db.selectLatestConversation userId))
    (fun error => M.throw error).

Definition updateConversationTimestamp (conversationId : string) : M unit :=
  M.catch
    (t <- M.getNow ;;
     Client.executeQuery env (Db.touchConversation t conversationId))
    (fun error => M.throw error).
End Repo.
End ConversationRepository.

Module MessageRepository.
Local Open Scope world_scope.
Section Repo.
Variable env : Env.

Definition saveMessage (conversationId : string) (direction : Db.Direction)
    (messageType content : string) (whatsappMessageId : option string)
    (timestamp : option Z) : M string :=
  M.catch
    (if bool_decide (conversationId = EmptyString) || bool_decide (messageType = EmptyString)
        || bool_decide (content = EmptyString)
     then M.throw (newError "Datos requeridos faltantes para guardar mensaje")
     else
       t <- M.getNow ;;
       let messageTimestamp := default t timestamp in
       result <- Client.executeQuery env
                   (Db.insertMessage conversationId direction messageType content
                      whatsappMessageId messageTimestamp) ;;
       messageId <- UserRepository.first result ;;
       ConversationRepository.updateConversationTimestamp env conversationId ;;;
       M.ret messageId)
    (fun error => M.throw error).
End Repo.
End MessageRepository.

Module SessionRepository.
Import Types.
Local Open Scope world_scope.
Section Repo.
Variable env : Env.

(** [validateAgentState]: of its four tests only the one on [session_id]
    can fail on a value of type [AgentState]. *)
Definition validateAgentState (agentState : AgentState) : M unit :=
  if bool_decide (JsString.trim (session_id agentState) = EmptyString)
  then M.throw (newValidationError "AgentState.session_id debe ser un string no vacío")
  else M.ret tt.

Definition saveAgentState (userId : string) (agentState : AgentState) : M string :=
  M.catch
    (if bool_decide (userId = EmptyString) || bool_decide (JsString.trim userId = EmptyString)
     then M.throw (newValidationError "userId es requerido y no puede estar vacío")
     else
       validateAgentState agentState ;;;
       t <- M.getNow ;;
       result <- Client.executeQuery env (Db.upsertSession t userId agentState) ;;
       UserRepository.first result)
    (fun error => M.throw error).

Definition getAgentState (userId : string) : M (option AgentState) :=
  M.catch
    (t <- M.getNow ;;
     result <- Client.executeQuery env (Db.selectAgentState t userId) ;;
     M.ret (head result))
    (fun error => M.throw error).
End Repo.
End SessionRepository.

Section GetOrCreate.
Local Open Scope world_scope.
Variable env : Env.

(** repositories.ts: [getOrCreateConversation] *)
Definition getOrCreateConversation (userId : string) (title : option string) : M string :=
  M.catch
    (conversations <- ConversationRepository.getUserConversations env userId ;;
     match conversations with
     | c :: _ => M.ret (Db.c_id c)
     | [] => ConversationRepository.createConversation env userId title
     end)
    (fun error => M.throw error).
End GetOrCreate.

(** ** agents/memory.ts *)

Definition setDatabaseAvailability (available : bool) : M unit := fun w =>
  (Ok tt, {| isDatabaseAvailable := available; db := db w; trace := trace w;
             now := now w; entropy := entropy w; toolMemory := toolMemory w |}).

Module AgentMemory.
Import Types.
Local Open Scope world_scope.
Section Memory.
Variable env : Env.

Definition saveAgentState (userId : string) (agentState : AgentState) : M unit :=
  available <- M.getFlag ;;
  if negb available then M.ret tt
  else
    M.catch
      (SessionRepository.saveAgentState env userId agentState ;;; M.ret tt)
      (fun error => M.throw error).

Definition loadAgentState (userId : string) : M (option AgentState) :=
  available <- M.getFlag ;;
  if negb available then M.ret None
  else
    M.catch
      (SessionRepository.getAgentState env userId)
      (fun error => M.throw error).

Definition getOrCreateConversation (userId : string) (title : option string) : M string :=
  available <- M.getFlag ;;
  if negb available then
    t <- M.getNow ;;
    M.ret ("mem_" +:+ userId +:+ "_" +:+ pretty t)
  else
    M.catch
      (getOrCreateConversation env userId title)
      (fun error => M.throw error).

Definition saveMessage (conversationId : string) (direction : Db.Direction)
    (messageType content : string) (whatsappMessageId : option string)
    (timestamp : option Z) : M string :=
  available <- M.getFlag ;;
  if negb available then
    t <- M.getNow ;;
    M.ret ("msg_" +:+ conversationId +:+ "_" +:+ pretty t)
  else
    M.catch
      (MessageRepository.saveMessage env conversationId direction messageType content
         whatsappMessageId timestamp)
      (fun error => M.throw error).

Definition createInitialAgentState (t : Z) (sessionId userId : string) : AgentState :=
  {| messages := [];
     session_id := sessionId;
     context := {| user_id := userId; created_at := t; conversation_type := "whatsapp";
                   selected_tool := None; tool_input := None; tool_result := None;
                   updated_at := None; cleared_at := None |};
     current_node := Some "start" |}.

Definition addMessageToState (t : Z) (agentState : AgentState) (r : Role)
    (c : string) : AgentState :=
  withMessages agentState
    (messages agentState ++ [{| role := r; content := c; timestamp := t |}]).
End Memory.
End AgentMemory.

(** ** agents/tools.ts *)

(** The integer fragment of the arithmetic the calculator hands to the engine
    ([new Function('return ' + sanitized)()]): decimal literals without a
    leading zero, unary and binary [+] and [-], [*], parentheses, and every
    value a safe integer. On it the engine computes exactly. *)
Module Calculator.

Inductive token : Type :=
| TNum (n : Z) | TPlus | TMinus | TStar | TLParen | TRParen.

Definition digit (c : ascii) : option Z :=
  Z.of_nat <$> Ascii.is_nat c.

Definition maxSafeInteger : Z := 9007199254740991.

Definition safe (z : Z) : option Z :=
  if (Z.abs z <=? maxSafeInteger)%Z then Some z else None.

(** Digits of a literal after its first one. *)
Fixpoint literal (acc : Z) (s : string) : Z * string :=
  match s with
  | String c r =>
      match digit c with
      | Some d => literal (10 * acc + d) r
      | None => (acc, s)
      end
  | EmptyString => (acc, s)
  end.

Fixpoint tokenize (fuel : nat) (s : string) : option (list token) :=
  match fuel with
  | O => None
  | S fuel' =>
      match s with
      | EmptyString => Some []
      | String c r =>
          match digit c with
          | Some d =>
              let '(n, rest) := literal d r in
              if bool_decide (d = 0%Z) && negb (bool_decide (rest = r)) then None
              else n' ← safe n; (TNum n' ::.) <$> tokenize fuel' rest
          | None =>
              t ← (if decide (c = "+"%char) then Some TPlus
                   else if decide (c = "-"%char) then Some TMinus
                   else if decide (c = "*"%char) then Some TStar
                   else if decide (c = "("%char) then Some TLParen
                   else if decide (c = ")"%char) then Some TRParen
                   else None);
              (t ::.) <$> tokenize fuel' r
          end
      end
  end.

(** Level 0: additive; level 1: multiplicative; level 2 and more: unary. *)
Fixpoint parse (fuel : nat) (level : nat) (ts : list token) : option (Z * list token) :=
  match fuel with
  | O => None
  | S fuel' =>
      match level with
      | 0 => '(v, r) ← parse fuel' 1 ts; addLoop fuel' v r
      | 1 => '(v, r) ← parse fuel' 2 ts; mulLoop fuel' v r
      | _ =>
          match ts with
          | TPlus :: r => parse fuel' 2 r
          | TMinus :: r => '(v, r') ← parse fuel' 2 r; Some (- v, r')%Z
          | TNum n :: r => Some (n, r)
          | TLParen :: r =>
              '(v, r') ← parse fuel' 0 r;
              match r' with
              | TRParen :: r'' => Some (v, r'')
              | _ => None
              end
          | _ => None
          end
      end
  end
with addLoop (fuel : nat) (acc : Z) (ts : list token) : option (Z * list token) :=
  match fuel with
  | O => None
  | S fuel' =>
      match ts with
      | TPlus :: r =>
          '(v, r') ← parse fuel' 1 r; acc' ← safe (acc + v); addLoop fuel' acc' r'
      | TMinus :: r =>
          '(v, r') ← parse fuel' 1 r; acc' ← safe (acc - v); addLoop fuel' acc' r'
      | _ => Some (acc, ts)
      end
  end
with mulLoop (fuel : nat) (acc : Z) (ts : list token) : option (Z * list token) :=
  match fuel with
  | O => None
  | S fuel' =>
      match ts with
      | TStar :: r =>
          '(v, r') ← parse fuel' 2 r; acc' ← safe (acc * v); mulLoop fuel' acc' r'
      | _ => Some (acc, ts)
      end
  end.

(** The value of a text of the fragment; [None] outside it. The engine reads
    [++] and [--] as one token, so a text with either is outside. *)
Definition evalInteger (s : string) : option Z :=
  if JsString.includes s "++" || JsString.includes s "--" then None
  else
    ts ← tokenize (S (String.length s)) s;
    match parse (4 * length ts + 8) 0 ts with
    | Some (v, []) => Some v
    | _ => None
    end.

End Calculator.

Module Tools.
Import Types.
Local Open Scope world_scope.

Record AgentTool : Type := {
  name : string;
  description : string;
  (** [None] is the call [execute(undefined)] *)
  execute : option ToolInput -> M string
}.

Definition lift {A} (r : Res A) : M A := fun w => (r, w).

(** [Math.floor(Math.random() * n)] *)
Definition randomIndex (n : nat) : M nat := fun w =>
  (Ok (hd 0 (entropy w) `mod` n),
   {| isDatabaseAvailable := isDatabaseAvailable w; db := db w; trace := trace w;
      now := now w; entropy := tl (entropy w); toolMemory := toolMemory w |}).

Definition memorySet (k : string) (item : MemoryItem) : M unit := fun w =>
  (Ok tt,
   {| isDatabaseAvailable := isDatabaseAvailable w; db := db w; trace := trace w;
      now := now w; entropy := entropy w; toolMemory := <[k := item]> (toolMemory w) |}).

(** The double quote character (code 34) *)
Definition dquote : string := String (ascii_of_nat 34) EmptyString.

Definition destructureError : Exn :=
  Js.typeError "Cannot destructure property of undefined".

Section Registry.
Variable env : Env.

Definition TimeTool : AgentTool :=
  {| name := "get_current_time";
     description := "Obtiene la hora y fecha actual en formato legible";
     execute := fun _ =>
       M.catch
         (t <- M.getNow ;;
          timeString <- lift (toLocaleString env t) ;;
          M.ret ("La hora actual es: " +:+ timeString))
         (fun _ => M.ret "Lo siento, no pude obtener la hora actual.") |}.

Definition searchResponses : list (string * string) :=
  [("clima", "El clima actual en Bogotá es de 18°C con cielo parcialmente nublado.");
   ("noticias", "Las principales noticias del día incluyen avances en tecnología y economía.");
   ("tiempo", "El pronóstico del tiempo para hoy indica condiciones estables.");
   ("ayuda", "Estoy aquí para ayudarte. ¿En qué puedo asistirte?");
   ("saludo", "¡Hola! ¿Cómo puedo ayudarte hoy?")].

Definition WebSearchTool : AgentTool :=
  {| name := "web_search";
     description := "Realiza una búsqueda básica en la web sobre un tema específico";
     execute := fun input =>
       M.catch
         (match input with
          | None => M.throw destructureError
          | Some (InputQuery query) =>
              if bool_decide (query = EmptyString)
              then M.ret "Por favor, proporciona un término de búsqueda válido."
              else
                let lowerQuery := JsString.toLowerCase query in
                match find (fun kv => JsString.includes lowerQuery kv.1) searchResponses with
                | Some (_, response) => M.ret response
                | None =>
                    M.ret ("He realizado una búsqueda sobre " +:+ dquote +:+ query +:+
                           dquote +:+ ". Encontré información relevante que podría ser útil para tu consulta. ¿Te gustaría que profundice en algún aspecto específico?")
                end
          | Some _ => M.ret "Por favor, proporciona un término de búsqueda válido."
          end)
         (fun _ => M.ret "Lo siento, no pude realizar la búsqueda en este momento.") |}.

(** [/^[0-9+\-*/().\s]+$/] *)
Definition allowedChar (c : ascii) : bool :=
  bool_decide (is_Some (Ascii.is_nat c))
  || bool_decide (c ∈ ["+"; "-"; "*"; "/"; "("; ")"; "."]%char)
  || Ascii.is_space c.

Definition allowedChars (s : string) : bool :=
  negb (bool_decide (s = EmptyString)) && JsString.forallb allowedChar s.

(** [safeEval]: the printed number, or [None] for [null]. *)
Definition safeEval (expression : string) : option string :=
  let sanitized := JsString.removeSpaces expression in
  match Calculator.evalInteger sanitized with
  | Some z => Some (pretty z)
  | None => engineEval env sanitized
  end.

Definition CalculatorTool : AgentTool :=
  {| name := "calculator";
     description := "Realiza operaciones matemáticas básicas (suma, resta, multiplicación, división)";
     execute := fun input =>
       M.catch
         (match input with
          | None => M.throw destructureError
          | Some (InputExpression expression) =>
              if bool_decide (expression = EmptyString)
              then M.ret "Por favor, proporciona una expresión matemática válida."
              else if negb (allowedChars expression)
              then M.ret "La expresión contiene caracteres no permitidos. Solo se permiten números y operadores básicos (+, -, *, /, .)."
              else
                match safeEval expression with
                | None => M.ret "No pude calcular esa expresión. Verifica que esté correctamente escrita."
                | Some result =>
                    M.ret ("El resultado de " +:+ expression +:+ " es: " +:+ result)
                end
          | Some _ => M.ret "Por favor, proporciona una expresión matemática válida."
          end)
         (fun _ => M.ret "Lo siento, no pude realizar el cálculo.") |}.

Definition hexDigit (n : nat) : ascii :=
  match n with
  | 10 => "a" | 11 => "b" | 12 => "c" | 13 => "d" | 14 => "e" | 15 => "f"
  | _ => ascii_of_nat (48 + n)
  end%char.

Fixpoint escape (s : string) : string :=
  match s with
  | EmptyString => EmptyString
  | String c r =>
      let n := nat_of_ascii c in
      (if decide (n = 34) then "\" +:+ dquote
       else if decide (n = 92) then "\\"
       else if decide (n = 8) then "\b"
       else if decide (n = 9) then "\t"
       else if decide (n = 10) then "\n"
       else if decide (n = 12) then "\f"
       else if decide (n = 13) then "\r"
       else if decide (n < 32)
            then "\u00" +:+ String (hexDigit (n / 16)) (String (hexDigit (n `mod` 16)) EmptyString)
       else String c EmptyString) +:+ escape r
  end.

(** [JSON.stringify] of a string *)
Definition jsonStringify (s : string) : string := dquote +:+ escape s +:+ dquote.

Definition MemoryTool : AgentTool :=
  {| name := "remember_info";
     description := "Guarda información importante sobre el usuario para recordar en futuras conversaciones";
     execute := fun input =>
       M.catch
         (match input with
          | None => M.throw destructureError
          | Some (InputRemember key value userId) =>
              if bool_decide (key = EmptyString) || bool_decide (userId = EmptyString)
              then M.ret "Se requiere una clave y ID de usuario para guardar información."
              else
                t <- M.getNow ;;
                memorySet (userId +:+ "_" +:+ key)
                  {| mi_value := value; mi_timestamp := t; mi_userId := userId |} ;;;
                M.ret ("He guardado " +:+ dquote +:+ key +:+ dquote +:+ ": " +:+
                       jsonStringify value +:+
                       " para recordar en futuras conversaciones.")
          | Some _ => M.ret "Se requiere una clave y ID de usuario para guardar información."
          end)
         (fun _ => M.ret "Lo siento, no pude guardar esa información.") |}.

Definition courtesyResponses (t : CourtesyType) : list string :=
  match t with
  | greeting => ["¡Hola! ¿En qué puedo ayudarte hoy?";
                 "¡Buen día! ¿Cómo estás?";
                 "¡Hola! Estoy aquí para asistirte."]
  | thanks => ["¡De nada! ¿Hay algo más en lo que pueda ayudarte?";
               "Es un placer ayudarte.";
               "¡Con gusto! ¿Necesitas algo más?"]
  | goodbye => ["¡Hasta luego! Que tengas un excelente día.";
                "¡Adiós! Nos vemos pronto.";
                "¡Hasta la próxima! Cuídate."]
  | apology => ["Disculpa si no pude ayudarte como esperabas.";
                "Lamento cualquier inconveniente.";
                "Perdón, intentaré mejorar mi respuesta."]
  | help => ["Estoy aquí para ayudarte. ¿Qué necesitas?";
             "¿En qué puedo asistirte hoy?";
             "Cuéntame, ¿cómo puedo ayudarte?"]
  end.

Definition CourtesyTool : AgentTool :=
  {| name := "courtesy_response";
     description := "Genera respuestas de cortesía apropiadas para diferentes situaciones";
     execute := fun input =>
       M.catch
         (match input with
          | None => M.throw destructureError
          | Some (InputCourtesy type) =>
              let typeResponses := courtesyResponses type in
              i <- randomIndex (length typeResponses) ;;
              M.ret (default EmptyString (typeResponses !! i))
          | Some _ => M.ret "¿En qué puedo ayudarte?"
          end)
         (fun _ => M.ret "¿En qué puedo ayudarte?") |}.

Definition AVAILABLE_TOOLS : list AgentTool :=
  [TimeTool; WebSearchTool; CalculatorTool; MemoryTool; CourtesyTool].

End Registry.

Definition getToolByName (registry : list AgentTool) (n : option string) : option AgentTool :=
  match n with
  | Some n' => find (fun tool => bool_decide (name tool = n')) registry
  | None => None
  end.

End Tools.

(** ** services/openaiService.ts *)

Module OpenAIService.
Local Open Scope world_scope.
Section Service.
Variable env : Env.

(** [getOpenAIService]: the constructor throws without an API key. *)
Definition getOpenAIService : M unit :=
  if apiKeyConfigured env then M.ret tt
  else M.throw (newError "API_KEY_OPENAI no está configurada").

Definition getFallbackResponse (prompt : string) : string :=
  let lowerPrompt := JsString.toLowerCase prompt in
  if JsString.includes lowerPrompt "hola" || JsString.includes lowerPrompt "hello"
  then "¡Hola! ¿En qué puedo ayudarte hoy?"
  else if JsString.includes lowerPrompt "ayuda" || JsString.includes lowerPrompt "help"
  then "Estoy aquí para ayudarte. ¿Qué necesitas?"
  else if JsString.includes lowerPrompt "gracias" || JsString.includes lowerPrompt "thank"
  then "¡De nada! ¿Hay algo más en lo que pueda asistirte?"
  else "Lo siento, no pude procesar tu mensaje correctamente. ¿Puedes intentarlo de nuevo?".

Definition generateResponse (prompt : string) : M string :=
  M.catch
    (M.log (EvModelInvoke prompt) ;;;
     Tools.lift (modelInvoke env prompt))
    (fun _ => M.ret (getFallbackResponse prompt)).
End Service.
End OpenAIService.

(** ** agents/whatsappAgent.ts *)

Module WhatsAppAgent.
Import Types Tools.
Local Open Scope world_scope.

(** [END] of the graph library *)
Definition END : string := "__end__".

(** [toolPatterns] of [analyzeIntent], in the order of its keys *)
Definition analyzePatterns : list (string * list string) :=
  [("get_current_time", ["hora"; "tiempo"; "fecha"]);
   ("web_search", ["buscar"; "busca"; "investigar"; "noticias"]);
   ("calculator", ["calcular"; "suma"; "resta"; "multiplica"; "divide"; "+"; "-"; "*"; "/"]);
   ("remember_info", ["recuerda"; "guarda"; "memoria"]);
   ("courtesy_response", ["hola"; "gracias"; "adiós"; "ayuda"; "disculpa"])].

(** [toolPatterns] of [processMessageWithLogic] *)
Definition logicPatterns : list (string * list string) :=
  [("get_current_time", ["hora"; "tiempo"; "fecha"]);
   ("web_search", ["buscar"; "busca"; "investigar"; "noticias"]);
   ("calculator", ["calcular"; "suma"; "resta"; "multiplica"; "divide"; "+"; "-"; "*"; "/"]);
   ("courtesy_response", ["hola"; "gracias"; "adiós"; "ayuda"; "disculpa"])].

(** [patterns.some(pattern => content.includes(pattern))] *)
Definition somePattern (content : string) (patterns : list string) : bool :=
  existsb (JsString.includes content) patterns.

Definition mapContentToCourtesyType (content : string) : CourtesyType :=
  let lowerContent := JsString.toLowerCase content in
  if JsString.includes lowerContent "hola" || JsString.includes lowerContent "buenos"
  then greeting
  else if JsString.includes lowerContent "gracias" then thanks
  else if JsString.includes lowerContent "adiós" || JsString.includes lowerContent "chau"
  then goodbye
  else if JsString.includes lowerContent "disculpa" then apology
  else if JsString.includes lowerContent "ayuda" then help
  else help.

Definition extractToolInput (content toolName userId : string) : ToolInput :=
  if bool_decide (toolName = "web_search") then
    InputQuery (JsString.trim
                  (JsString.replacePrefixCI ["busca"; "buscar"; "investiga"] content))
  else if bool_decide (toolName = "calculator") then
    InputExpression (JsString.trim
                       (JsString.replacePrefixCI ["calcula"; "calcular"] content))
  else if bool_decide (toolName = "remember_info") then
    InputRemember "info" content userId
  else if bool_decide (toolName = "courtesy_response") then
    InputCourtesy (mapContentToCourtesyType content)
  else InputEmpty.

(** [state.messages.filter(m => m.role === 'user').pop()] *)
Definition lastUserMessage (state : AgentState) : option ChatMessage :=
  last (filter (fun m => role m = user) (messages state)).

Definition systemPrompt : string :=
  "Eres un asistente conversacional útil para WhatsApp. Usa las herramientas disponibles cuando sea necesario.".
Definition toolApology : string :=
  "Lo siento, tuve un problema al procesar tu solicitud.".
Definition toolApologyLogic : string :=
  "Lo siento, tuve un problema al procesar tu solicitud con esa herramienta.".
Definition genericReply : string :=
  "Entiendo tu mensaje. ¿En qué más puedo ayudarte?".
Definition internalErrorReply : string :=
  "Lo siento, ocurrió un error interno. Por favor, intenta de nuevo.".
Definition turnErrorReply : string :=
  "Lo siento, ocurrió un error al procesar tu mensaje.".

(** The canned replies of the two fallback branches *)
Definition staticFallback (lowerContent : string) : string :=
  if JsString.includes lowerContent "hola" || JsString.includes lowerContent "buenos"
  then "¡Hola! ¿Cómo estás? Estoy aquí para ayudarte."
  else if JsString.includes lowerContent "gracias"
  then "¡De nada! ¿Hay algo más en lo que pueda asistirte?"
  else if JsString.includes lowerContent "adiós" || JsString.includes lowerContent "chau"
  then "¡Hasta luego! Que tengas un excelente día."
  else genericReply.

(** [x || fallback] for a string *)
Definition orElse (x fallback : string) : string :=
  if bool_decide (x = EmptyString) then fallback else x.

Section Agent.
Variable env : Env.
(** the list [getToolByName] searches; the program runs with
    [Tools.AVAILABLE_TOOLS] *)
Variable registry : list AgentTool.

(** *** The nodes of the graph *)

Definition processInput (state : AgentState) : M AgentState :=
  M.catch
    (match last (messages state) with
     | Some lastMessage =>
         if bool_decide (role lastMessage = user) then
           t <- M.getNow ;;
           M.ret (withNode
                    (withMessages state
                       (messages state ++
                        [{| role := system; content := systemPrompt; timestamp := t |}]))
                    "analyze")
         else M.throw (newError "No se encontró mensaje de usuario para procesar")
     | None => M.throw (newError "No se encontró mensaje de usuario para procesar")
     end)
    (fun _ => M.ret (withNode state "error")).

Definition analyzeIntent (state : AgentState) : M AgentState :=
  M.catch
    (match lastUserMessage state with
     | None => M.ret (withNode state "respond")
     | Some m =>
         let content := JsString.toLowerCase (content m) in
         match find (fun entry => somePattern content entry.2) analyzePatterns with
         | Some (toolName, _) =>
             let ctx := context state in
             M.ret (withNode
                      (withContext state
                         {| user_id := user_id ctx; created_at := created_at ctx;
                            conversation_type := conversation_type ctx;
                            selected_tool := Some toolName;
                            tool_input :=
                              Some (extractToolInput content toolName (user_id ctx));
                            tool_result := tool_result ctx;
                            updated_at := updated_at ctx;
                            cleared_at := cleared_at ctx |})
                      "use_tool")
         | None => M.ret (withNode state "respond")
         end
     end)
    (fun _ => M.ret (withNode state "error")).

Definition useTool (state : AgentState) : M AgentState :=
  M.catch
    (let selectedTool := selected_tool (context state) in
     let toolInput := tool_input (context state) in
     match getToolByName registry selectedTool with
     | None => M.throw (newError ("Herramienta no encontrada: " +:+
                                  default "undefined" selectedTool))
     | Some tool =>
         M.log (EvToolExecute (name tool)) ;;;
         toolResult <- execute tool toolInput ;;
         t <- M.getNow ;;
         let ctx := context state in
         M.ret (withNode
                  (withContext
                     (withMessages state
                        (messages state ++
                         [{| role := assistant; content := toolResult; timestamp := t |}]))
                     {| user_id := user_id ctx; created_at := created_at ctx;
                        conversation_type := conversation_type ctx;
                        selected_tool := None; tool_input := None;
                        tool_result := Some toolResult;
                        updated_at := updated_at ctx; cleared_at := cleared_at ctx |})
                  "finalize")
     end)
    (fun _ =>
       t <- M.getNow ;;
       M.ret (withNode
                (withMessages state
                   (messages state ++
                    [{| role := assistant; content := toolApology; timestamp := t |}]))
                "finalize")).

Definition generateResponse (state : AgentState) : M AgentState :=
  let userContent := default EmptyString (content <$> lastUserMessage state) in
  M.catch
    (OpenAIService.getOpenAIService env ;;;
     aiResponse <- OpenAIService.generateResponse env userContent ;;
     let response := orElse aiResponse genericReply in
     t <- M.getNow ;;
     M.ret (withNode
              (withMessages state
                 (messages state ++
                  [{| role := assistant; content := response; timestamp := t |}]))
              "finalize"))
    (fun _ =>
       let response := staticFallback (JsString.toLowerCase userContent) in
       t <- M.getNow ;;
       M.ret (withNode
                (withMessages state
                   (messages state ++
                    [{| role := assistant; content := response; timestamp := t |}]))
                "finalize")).

Definition finalizeResponse (state : AgentState) : M AgentState :=
  M.catch
    (AgentMemory.saveAgentState env (user_id (context state)) state ;;;
     M.ret (withNode state END))
    (fun _ => M.ret (withNode state "error")).

Definition handleError (state : AgentState) : M AgentState :=
  M.catch
    (t <- M.getNow ;;
     M.ret (withNode
              (withMessages state
                 (messages state ++
                  [{| role := assistant; content := internalErrorReply; timestamp := t |}]))
              END))
    (fun _ => M.ret state).

(** *** The methods of the class *)

(** The loop of [processMessageWithLogic] over the entries of its table:
    [Some] is the value it returns from inside the loop. *)
Fixpoint tryTools (entries : list (string * list string)) (content userId : string)
  : M (option string) :=
  match entries with
  | [] => M.ret None
  | (toolName, patterns) :: rest =>
      if somePattern content patterns then
        match getToolByName registry (Some toolName) with
        | Some tool =>
            M.catch
              (let toolInput := extractToolInput content toolName userId in
               M.log (EvToolExecute (name tool)) ;;;
               result <- execute tool (Some toolInput) ;;
               M.ret (Some result))
              (fun _ => M.ret (Some toolApologyLogic))
        | None => tryTools rest content userId
        end
      else tryTools rest content userId
  end.

Definition processMessageWithLogic (agentState : AgentState) (messageContent : string)
  : M string :=
  let content := JsString.toLowerCase messageContent in
  r <- tryTools logicPatterns content (user_id (context agentState)) ;;
  match r with
  | Some result => M.ret result
  | None =>
      M.catch
        (OpenAIService.getOpenAIService env ;;;
         aiResponse <- OpenAIService.generateResponse env messageContent ;;
         M.ret (orElse aiResponse genericReply))
        (fun _ => M.ret (staticFallback content))
  end.

Definition processTextMessage (waId messageContent : string)
    (waMessageId : option string) (profileName : OptStr) : M string :=
  M.catch
    (if bool_decide (waId = EmptyString) || bool_decide (JsString.trim waId = EmptyString)
     then M.throw (newError "waId es requerido y debe ser una cadena no vacía")
     else if bool_decide (messageContent = EmptyString)
             || bool_decide (JsString.trim messageContent = EmptyString)
     then M.throw (newError "messageContent es requerido y debe ser una cadena no vacía")
     else
       found <- UserRepository.getUserByWaId env waId ;;
       usr <- match found with
              | Some u => M.ret u
              | None => UserRepository.upsertUser env waId waId profileName
              end ;;
       let userId := Db.u_id usr in
       loaded <- AgentMemory.loadAgentState env userId ;;
       agentState <- match loaded with
                     | Some s => M.ret s
                     | None =>
                         conversationId <-
                           AgentMemory.getOrCreateConversation env userId
                             (Some "WhatsApp Conversation") ;;
                         t <- M.getNow ;;
                         M.ret (AgentMemory.createInitialAgentState t conversationId userId)
                     end ;;
       t <- M.getNow ;;
       let agentState := AgentMemory.addMessageToState t agentState user messageContent in
       if JsString.includes (JsString.toLowerCase messageContent) "ping"
       then M.ret "pong"
       else
         response <-
           M.catch
             (r <- processMessageWithLogic agentState messageContent ;;
              M.ret (orElse r "No te entiendo. ¿Puedes intentar de nuevo?"))
             (fun _ => M.ret "Lo siento, tuve un problema interno al procesar tu mensaje.") ;;
         t' <- M.getNow ;;
         let agentState := AgentMemory.addMessageToState t' agentState assistant response in
         M.catch (AgentMemory.saveAgentState env userId agentState)
                 (fun _ => M.ret tt) ;;;
         M.catch (AgentMemory.saveMessage env (session_id agentState) Db.incoming "text"
                    messageContent waMessageId None ;;; M.ret tt)
                 (fun _ => M.ret tt) ;;;
         M.catch (AgentMemory.saveMessage env (session_id agentState) Db.outgoing "text"
                    response None None ;;; M.ret tt)
                 (fun _ => M.ret tt) ;;;
         M.ret response)
    (fun _ => M.ret turnErrorReply).

(** *** The graph *)

(** Modelled from the spec: the wiring of the nodes. The class builds no
    graph ([this.graph = null]); the spec gives
    [start -> analyze -> {use_tool | respond} -> finalize -> done] with an
    [error] state, and each node names its successor in [current_node]. *)
Definition step (state : AgentState) : option (M AgentState) :=
  match current_node state with
  | Some node =>
      if bool_decide (node = "start") then Some (processInput state)
      else if bool_decide (node = "analyze") then Some (analyzeIntent state)
      else if bool_decide (node = "use_tool") then Some (useTool state)
      else if bool_decide (node = "respond") then Some (generateResponse state)
      else if bool_decide (node = "finalize") then Some (finalizeResponse state)
      else if bool_decide (node = "error") then Some (handleError state)
      else None
  | None => None
  end.

(** Modelled from the spec: a run follows [step] until no node is named
    ([END]); [None] when the fuel does not reach that point. *)
Fixpoint run (fuel : nat) (state : AgentState) : M (option AgentState) :=
  match step state with
  | None => M.ret (Some state)
  | Some node =>
      match fuel with
      | O => M.ret None
      | S fuel' => state' <- node ;; run fuel' state'
      end
  end.

End Agent.
End WhatsAppAgent.


(** ** database/repositories.ts: lookups and maintenance *)

Module DbMore.
Import Types Db.

(** SELECT * FROM messages WHERE whatsapp_message_id = $1 *)
Definition selectMessageByWhatsAppId (whatsappMessageId : string)
  : Statement (list Message) := fun d =>
  (Ok (rowsWithWhatsappId d whatsappMessageId), d).

(** [expires_at IS NOT NULL AND expires_at <= NOW()] *)
Definition expired (t : Z) (s : Session) : Prop :=
  match s_expires_at s with
  | Some e => (e <= t)%Z
  | None => False
  end.

#[global] Instance expired_dec t s : Decision (expired t s).
Proof. unfold expired. destruct (s_expires_at s); apply _. Defined.

(** DELETE FROM sessions WHERE expires_at IS NOT NULL AND expires_at <= NOW().
    The statement has no RETURNING clause: the driver reports no row. *)
Definition deleteExpiredSessions (t : Z) : Statement (list unit) := fun d =>
  (Ok [],
   {| users := users d; conversations := conversations d; messages := messages d;
      sessions := filter (λ kv, ¬ expired t kv.2) (sessions d);
      next_uuid := next_uuid d |}).

(** UPDATE sessions SET expires_at = $1 WHERE id = $2 *)
Definition updateSessionExpiry (expiresAt : Z) (sessionId : string)
  : Statement (list unit) := fun d =>
  (Ok [],
   {| users := users d; conversations := conversations d; messages := messages d;
      sessions :=
        (λ s, if bool_decide (s_id s = sessionId)
              then {| s_id := s_id s; s_user_id := s_user_id s;
                      s_agent_state := s_agent_state s;
                      s_updated_at := s_updated_at s;
                      s_expires_at := Some expiresAt |}
              else s) <$> sessions d;
      next_uuid := next_uuid d |}).

End DbMore.

Module RepositoryMore.
Import Types.
Local Open Scope world_scope.
Section Repo.
Variable env : Env.

(** [MessageRepository.getMessageByWhatsAppId] *)
Definition getMessageByWhatsAppId (whatsappMessageId : string)
  : M (option Db.Message) :=
  M.catch
    (result <- Client.executeQuery env
                 (DbMore.selectMessageByWhatsAppId whatsappMessageId) ;;
     M.ret (head result))
    (fun error => M.throw error).

(** [SessionRepository.cleanupExpiredSessions]: [result.length] *)
Definition cleanupExpiredSessions : M nat :=
  M.catch
    (t <- M.getNow ;;
     result <- Client.executeQuery env (DbMore.deleteExpiredSessions t) ;;
     M.ret (length result))
    (fun error => M.throw error).

(** [SessionRepository.setSessionExpiry] *)
Definition setSessionExpiry (sessionId : string) (expiresAt : Z) : M unit :=
  M.catch
    (Client.executeQuery env (DbMore.updateSessionExpiry expiresAt sessionId) ;;;
     M.ret tt)
    (fun error => M.throw error).
End Repo.
End RepositoryMore.

(** ** agents/memory.ts: the other operations *)

Module AgentMemoryMore.
Import Types.
Local Open Scope world_scope.
Section Memory.
Variable env : Env.

Definition cleanupExpiredSessions : M nat :=
  available <- M.getFlag ;;
  if negb available then M.ret 0
  else
    M.catch
      (RepositoryMore.cleanupExpiredSessions env)
      (fun error => M.throw error).

(** [array.slice(start)]: the index the copy starts at *)
Definition sliceStart (len start : Z) : Z :=
  if (start <? 0)%Z then Z.max (len + start) 0 else Z.min start len.

(** [getRecentMessages(agentState, limit)]: [messages.slice(-limit)] *)
Definition getRecentMessages (agentState : AgentState) (limit : Z)
  : list (Role * string) :=
  let msgs := messages agentState in
  (λ msg, (role msg, content msg))
    <$> drop (Z.to_nat (sliceStart (Z.of_nat (length msgs)) (- limit))) msgs.

Definition clearAgentState (t : Z) (agentState : AgentState) : AgentState :=
  let ctx := context agentState in
  {| messages := [];
     session_id := session_id agentState;
     context := {| user_id := user_id ctx; created_at := created_at ctx;
                   conversation_type := conversation_type ctx;
                   selected_tool := selected_tool ctx; tool_input := tool_input ctx;
                   tool_result := tool_result ctx; updated_at := updated_at ctx;
                   cleared_at := Some t |};
     current_node := Some "start" |}.
End Memory.
End AgentMemoryMore.

(** ** agents/tools.ts: reading the memory of the memory tool *)

Module MemoryToolMore.

(** [MemoryTool.getMemory]: [None] is [null] *)
Definition getMemory (userId key : string) (w : World) : option string :=
  mi_value <$> (toolMemory w !! (userId +:+ "_" +:+ key)).



End MemoryToolMore.

(** ** services/openaiService.ts: the availability probe *)

Module OpenAIServiceMore.
Local Open Scope world_scope.
Section Service.
Variable env : Env.

(** [isAvailable] *)
Definition isAvailable : M bool :=
  M.catch
    (OpenAIService.generateResponse env "test" ;;; M.ret true)
    (fun _ => M.ret false).
End Service.
End OpenAIServiceMore.

(** ** agents/whatsappAgent.ts: the other methods *)

Module WhatsAppAgentMore.
Import Types Tools.
Local Open Scope world_scope.
Section Agent.
Variable env : Env.
Variable registry : list AgentTool.

Definition processVoiceMessage (waId transcription : string)
    (waMessageId : option string) (profileName : OptStr) : M string :=
  M.catch
    (M.catch
       (WhatsAppAgent.processTextMessage env registry waId transcription
          waMessageId profileName)
       (fun _ => M.ret "Lo siento, tuve un problema interno al procesar tu mensaje de voz."))
    (fun _ => M.ret "Lo siento, no pude procesar tu mensaje de voz.").

Definition clearMemory (waId : string) : M unit :=
  M.catch
    (found <- UserRepository.getUserByWaId env waId ;;
     match found with
     | None => M.ret tt
     | Some usr =>
         let userId := Db.u_id usr in
         loaded <- AgentMemory.loadAgentState env userId ;;
         match loaded with
         | Some agentState =>
             t <- M.getNow ;;
             AgentMemory.saveAgentState env userId
               (AgentMemoryMore.clearAgentState t agentState)
         | None => M.ret tt
         end
     end)
    (fun error => M.throw error).

Definition cleanupExpiredSessions : M nat :=
  M.catch
    (AgentMemoryMore.cleanupExpiredSessions env)
    (fun _ => M.ret 0).
End Agent.
End WhatsAppAgentMore.

(** ** routes/webhookRoutes.ts: POST /webhook *)

Module WebhookPost.
Import Js WebhookService.
Local Open Scope exn_scope.

Inductive PostBody : Type :=
| PostOk                              (* { status: 'ok' } *)
| PostError (msg : option string).    (* { error: ... } *)

Record PostResponse : Type := { status : Z; body : PostBody }.

Section Route.
Variable coerceGtZero : value -> bool.

(** The handler up to its answer. The second component is the message the
    handler hands to [setImmediate] for the agent, if it does. The call
    [markMessageAsRead] sits in a [try] of its own and changes nothing
    here. *)
Definition postWebhook (payload : value) : PostResponse * option value :=
  match
    (_ <- get payload "object" ;;
     entry <- get payload "entry" ;;
     _ <- getOpt entry "length" ;;
     processingResult <- processWebhookPayload coerceGtZero payload ;;
     _ <- getOpt (default Undefined (message processingResult)) "type" ;;
     _ <- getOpt (default Undefined (message processingResult)) "id" ;;
     if negb (success processingResult)
     then Ok ({| status := 400; body := PostError (error processingResult) |}, None)
     else
       match message processingResult, shouldRespond processingResult with
       | Some m, Some true =>
           if truthy m then
             _ <- get m "id" ;;
             _ <- get m "type" ;;
             _ <- get m "from" ;;
             Ok ({| status := 200; body := PostOk |}, Some m)
           else Ok ({| status := 200; body := PostOk |}, None)
       | _, _ => Ok ({| status := 200; body := PostOk |}, None)
       end)
  with
  | Ok r => r
  | Throw _ =>
      ({| status := 500; body := PostError (Some "Error interno del servidor") |}, None)
  end.
End Route.
End WebhookPost.
(** * Vocabulary of the statements, and scenarios *)

(** ** Webhook: payloads as the specification describes them *)

Module WebhookSpec.
Import Js WebhookService.

(** The payload carries the expected top-level tag. *)
Definition taggedWhatsApp (payload : value) : Prop :=
  get payload "object" = Ok (Str "whatsapp_business_account").

(** The payload has an entry list: an array with at least one element. *)
Definition hasEntries (payload : value) : Prop :=
  ∃ e l, get payload "entry" = Ok (Arr (e :: l)).

Definition arrayElems (r : Res value) : list value :=
  match r with Ok (Arr l) => l | _ => [] end.

(** The messages of a change on the field [messages]. *)
Definition changeMessages (change : value) : list value :=
  match get change "field" with
  | Ok f =>
      if isStr f "messages"
      then arrayElems (E.bind (get change "value") (fun v => get v "messages"))
      else []
  | Throw _ => []
  end.

Definition entryMessages (entry : value) : list value :=
  flat_map changeMessages (arrayElems (get entry "changes")).

(** Every message a payload carries. *)
Definition payloadMessages (payload : value) : list value :=
  flat_map entryMessages (arrayElems (get payload "entry")).



Definition rejected (diagnostic : string) : WebhookProcessingResult :=
  {| success := false; eventType := None; message := None; error := Some diagnostic;
     shouldRespond := None |}.

End WebhookSpec.



(** Collaborators that never fail the pool and have no model to call. *)
Definition quietEnv : Env :=
  {| poolFault := λ _, None; apiKeyConfigured := false;
     modelInvoke := λ _, Throw (newError "unavailable");
     toLocaleString := λ _, Ok "1 de enero de 2025, 10:00:00";
     engineEval := λ _, None |}.

Definition ana : Db.User :=
  {| Db.u_id := "uuid-0"; Db.u_wa_id := "573001112233";
     Db.u_phone_number := "573001112233"; Db.u_profile_name := Some "Ana";
     Db.u_created_at := 1; Db.u_updated_at := 1 |}.

(** One user, Ana, with one conversation and no message yet. *)
Definition anaDb : Db.Database :=
  {| Db.users := {[ "573001112233" := ana ]};
     Db.conversations :=
       [{| Db.c_id := "uuid-1"; Db.c_user_id := "uuid-0"; Db.c_title := None;
           Db.c_created_at := 1; Db.c_updated_at := 1 |}];
     Db.messages := []; Db.sessions := ∅; Db.next_uuid := 2 |}.

Definition anaWorld : World :=
  {| isDatabaseAvailable := true; db := anaDb; trace := []; now := 2; entropy := [];
     toolMemory := ∅ |}.

(** The stored profile name of the user with a WhatsApp id. *)
Definition storedProfileName (w : World) (waId : string) : option (option string) :=
  Db.u_profile_name <$> (Db.users (db w) !! waId).

(** The number of stored rows with a provider message id. *)
Definition storedRows (w : World) (whatsappMessageId : string) : nat :=
  length (Db.rowsWithWhatsappId (db w) whatsappMessageId).


(** A computation moves the world along [R], whatever its result. *)
Definition keeps (R : relation World) {A} (m : M A) : Prop :=
  ∀ w, R w (m w).2.

(** From [w] to [w'] the process only issued queries: no tool was executed
    and the model was not invoked. *)
Definition onlyQueries (w w' : World) : Prop :=
  ∃ k, trace w' = replicate k EvQuery ++ trace w.

(** A step that leaves the stored sessions, the message log, the tool memory
    and the random source as they were, and calls nothing but the pool. *)
Definition quietStep (w w' : World) : Prop :=
  Db.sessions (db w') = Db.sessions (db w) ∧
  Db.messages (db w') = Db.messages (db w) ∧
  toolMemory w' = toolMemory w ∧
  entropy w' = entropy w ∧
  isDatabaseAvailable w' = isDatabaseAvailable w ∧
  onlyQueries w w'.

(** A step that touches nothing: no query, no write. *)
Definition untouched (w w' : World) : Prop := w' = w.



Definition degradedWorld : World :=
  {| isDatabaseAvailable := false; db := Db.empty; trace := []; now := 2; entropy := [];
     toolMemory := ∅ |}.

(** The calculator scenario: the first turn of a conversation. *)
Definition calcText : string := "calcula 2+2*3".
Definition calcAnswer : string := "El resultado de 2+2*3 es: 8".

Definition calcState (t : Z) (sessionId userId : string) : Types.AgentState :=
  AgentMemory.addMessageToState t
    (AgentMemory.createInitialAgentState t sessionId userId) Types.user calcText.

(** The stored state of a user. *)
Definition storedState (w : World) (userId : string) : option Types.AgentState :=
  Db.s_agent_state <$> (Db.sessions (db w) !! userId).

(** The last turn of a state. *)
Definition lastTurn (state : Types.AgentState) : option (Types.Role * string) :=
  (λ m, (Types.role m, Types.content m)) <$> last (Types.messages state).

(** A tool whose [execute] throws on every input, in every world. *)
Definition alwaysThrows (tool : Tools.AgentTool) : Prop :=
  ∀ input w, ∃ e w', Tools.execute tool input w = (Throw e, w').

(** A calculator that is broken, and a registry that holds it. *)
Definition brokenCalculator : Tools.AgentTool :=
  {| Tools.name := "calculator"; Tools.description := "broken";
     Tools.execute := λ _, M.throw (newError "division unit on fire") |}.

Definition brokenRegistry : list Tools.AgentTool := [brokenCalculator].

(** The states the calculator scenario goes through. *)
Definition calcContext (t : Z) (userId : string) (selected : option string)
    (input : option Types.ToolInput) (result : option string) : Types.Context :=
  {| Types.user_id := userId; Types.created_at := t;
     Types.conversation_type := "whatsapp"; Types.selected_tool := selected;
     Types.tool_input := input; Types.tool_result := result;
     Types.updated_at := None; Types.cleared_at := None |}.

Definition calcTurns (t : Z) : list Types.ChatMessage :=
  [{| Types.role := Types.user; Types.content := calcText; Types.timestamp := t |};
   {| Types.role := Types.system; Types.content := WhatsAppAgent.systemPrompt;
      Types.timestamp := t |}].

Definition calcStarted (t : Z) (sessionId userId : string) : Types.AgentState :=
  {| Types.messages := calcTurns t; Types.session_id := sessionId;
     Types.context := calcContext t userId None None None;
     Types.current_node := Some "analyze" |}.

Definition calcAnalyzed (t : Z) (sessionId userId : string) : Types.AgentState :=
  {| Types.messages := calcTurns t; Types.session_id := sessionId;
     Types.context :=
       calcContext t userId (Some "calculator")
         (Some (Types.InputExpression "2+2*3")) None;
     Types.current_node := Some "use_tool" |}.

Definition calcAnswered (t : Z) (sessionId userId : string) (node : string)
  : Types.AgentState :=
  {| Types.messages :=
       calcTurns t ++
       [{| Types.role := Types.assistant; Types.content := calcAnswer;
           Types.timestamp := t |}];
     Types.session_id := sessionId;
     Types.context := calcContext t userId None None (Some calcAnswer);
     Types.current_node := Some node |}.

(** The world after [event]. *)
Definition logged (event : Event) (w : World) : World :=
  {| isDatabaseAvailable := isDatabaseAvailable w; db := db w;
     trace := event :: trace w; now := now w; entropy := entropy w;
     toolMemory := toolMemory w |}.

(** A state after the apology of [useTool], appended at time [t]. *)
Definition apologized (t : Z) (state : Types.AgentState) : Types.AgentState :=
  Types.withNode
    (Types.withMessages state
       (Types.messages state ++
        [{| Types.role := Types.assistant; Types.content := WhatsAppAgent.toolApology;
            Types.timestamp := t |}]))
    "finalize".

(** A state that selected the calculator. *)
Definition selectedCalculator : Types.AgentState :=
  calcAnalyzed 2 "uuid-1" "uuid-0".

(** ** Webhook: the shape of payloads and of extracted messages *)

Module WebhookShape.
Import Js WebhookService.

(** A change on a field other than [messages], or a [messages] change whose
    value carries the product tag [whatsapp]. *)
Definition wellFormedChange (change : value) : Prop :=
  ∃ field, get change "field" = Ok field ∧
    (isStr field "messages" = true →
     ∃ v, get change "value" = Ok v ∧ get v "messaging_product" = Ok (Str "whatsapp")).

(** An entry with a truthy id and an array of well-formed changes. *)
Definition wellFormedEntry (entry : value) : Prop :=
  ∃ id changes, get entry "id" = Ok id ∧ truthy id = true ∧
    get entry "changes" = Ok (Arr changes) ∧ Forall wellFormedChange changes.

Definition wellFormedPayload (payload : value) : Prop :=
  get payload "object" = Ok (Str "whatsapp_business_account") ∧
  ∃ e l, get payload "entry" = Ok (Arr (e :: l)) ∧ Forall wellFormedEntry (e :: l).

Definition eventOf (ty : string) : WebhookEventType :=
  if bool_decide (ty = "text") then EvText
  else if bool_decide (ty = "image") then EvImage
  else if bool_decide (ty = "video") then EvVideo
  else if bool_decide (ty = "audio") then EvAudio
  else if bool_decide (ty = "document") then EvDocument
  else if bool_decide (ty = "location") then EvLocation
  else EvContact.

(** A message with a sender and a supported type [ty]; a text message has a
    body that is not blank. *)
Definition processable (message : value) (ty : string) : Prop :=
  (∃ from, get message "from" = Ok from ∧ truthy from = true) ∧
  get message "type" = Ok (Str ty) ∧
  ty ∈ supportedTypes ∧
  (ty = "text" →
   ∃ text body, get message "text" = Ok text ∧ get text "body" = Ok (Str body) ∧
                JsString.trim body ≠ EmptyString).

(** The result that hands on [message] of type [ty]. *)
Definition handedOn (message : value) (ty : string) : WebhookProcessingResult :=
  {| success := true; eventType := Some (eventOf ty); message := Some message;
     error := None;
     shouldRespond := Some (bool_decide (ty = "text") || bool_decide (ty = "audio")) |}.

(** A delivery with one text message. *)
Definition helloDelivery : value :=
  Obj [("object", Str "whatsapp_business_account");
       ("entry", Arr [Obj [
          ("id", Str "1029");
          ("changes", Arr [Obj [
             ("field", Str "messages");
             ("value", Obj [
                ("messaging_product", Str "whatsapp");
                ("messages", Arr [Obj [
                   ("id", Str "wamid.H1");
                   ("from", Str "573001112233");
                   ("timestamp", Str "1700000000");
                   ("type", Str "text");
                   ("text", Obj [("body", Str "hola")])]])])]])]])].

End WebhookShape.

(** ** The store: invariants and scenarios *)

(** One of the required arguments of [MessageRepository.saveMessage] is the
    empty string. *)
Definition missingFields (conversationId messageType content : string) : Prop :=
  conversationId = EmptyString ∨ messageType = EmptyString ∨ content = EmptyString.

(** No two stored messages share a provider id. *)
Definition uniqueProviderIds (d : Db.Database) : Prop :=
  ∀ id, length (Db.rowsWithWhatsappId d id) ≤ 1.

(** From [d] to [d'] nothing was deleted: every user is still there under the
    same id, conversations and messages were only appended, and provider ids
    are unique if they were. *)
Definition dbGrows (d d' : Db.Database) : Prop :=
  (∀ waId u, Db.users d !! waId = Some u →
     ∃ u', Db.users d' !! waId = Some u' ∧ Db.u_id u' = Db.u_id u) ∧
  (Db.c_id <$> Db.conversations d) `prefix_of` (Db.c_id <$> Db.conversations d') ∧
  Db.messages d `prefix_of` Db.messages d' ∧
  (uniqueProviderIds d → uniqueProviderIds d').

Definition storeGrows (w w' : World) : Prop := dbGrows (db w) (db w').

(** A step inside the process: the database, the list of calls, the flag and
    the clock are as they were. *)
Definition insideProcess (w w' : World) : Prop :=
  db w' = db w ∧ trace w' = trace w ∧
  isDatabaseAvailable w' = isDatabaseAvailable w ∧ now w' = now w.

(** A pool that fails the query issued after [n] events, and no other. *)
Definition failingAt (n : nat) : Env :=
  {| poolFault := λ k, if decide (k = n)
                       then Some (PgError "57P01" "terminating connection")
                       else None;
     apiKeyConfigured := false;
     modelInvoke := λ _, Throw (newError "unavailable");
     toLocaleString := λ _, Ok "1 de enero de 2025, 10:00:00";
     engineEval := λ _, None |}.

(** The stored session of a user has an expiry that has passed. *)
Definition sessionExpired (w : World) (userId : string) : bool :=
  match Db.sessions (db w) !! userId with
  | Some s => bool_decide (DbMore.expired (now w) s)
  | None => false
  end.

(** Ana's database with a session of hers that expired at time 1. *)
Definition staleDb : Db.Database :=
  {| Db.users := Db.users anaDb; Db.conversations := Db.conversations anaDb;
     Db.messages := [];
     Db.sessions :=
       {[ "uuid-0" := {| Db.s_id := "uuid-2"; Db.s_user_id := "uuid-0";
                         Db.s_agent_state := calcState 1 "uuid-1" "uuid-0";
                         Db.s_updated_at := 1; Db.s_expires_at := Some 1%Z |} ]};
     Db.next_uuid := 3 |}.

Definition staleWorld : World :=
  {| isDatabaseAvailable := true; db := staleDb; trace := []; now := 2; entropy := [];
     toolMemory := ∅ |}.

(** Ana's database with a session of hers that does not expire. *)
Definition sessionDb : Db.Database :=
  {| Db.users := Db.users anaDb; Db.conversations := Db.conversations anaDb;
     Db.messages := [];
     Db.sessions :=
       {[ "uuid-0" := {| Db.s_id := "uuid-2"; Db.s_user_id := "uuid-0";
                         Db.s_agent_state := calcState 1 "uuid-1" "uuid-0";
                         Db.s_updated_at := 1; Db.s_expires_at := None |} ]};
     Db.next_uuid := 3 |}.

Definition sessionWorld : World :=
  {| isDatabaseAvailable := true; db := sessionDb; trace := []; now := 2; entropy := [];
     toolMemory := ∅ |}.

(** The answer of the calculator to a text with a character it does not allow. *)
Definition notAllowedAnswer : string :=
  "La expresión contiene caracteres no permitidos. Solo se permiten números y operadores básicos (+, -, *, /, .).".

(** ** The nodes of the agent *)

(** A node that never throws, keeps the session and the user of the state,
    appends at most one turn to it, and names one of [successors] as the next
    node. *)
Definition stepsTo (node : Types.AgentState → M Types.AgentState)
    (successors : list string) : Prop :=
  ∀ state w, ∃ state' w',
    node state w = (Ok state', w') ∧
    Types.session_id state' = Types.session_id state ∧
    Types.user_id (Types.context state') = Types.user_id (Types.context state) ∧
    Types.messages state `prefix_of` Types.messages state' ∧
    length (Types.messages state') ≤ S (length (Types.messages state)) ∧
    ∃ next, Types.current_node state' = Some next ∧ next ∈ successors.

(** * Theorems *)

Section WebhookFacts.
Import Js WebhookService WebhookSpec.
Variable coerceGtZero : value → bool.

Lemma isStr_true v lit : isStr v lit = true ↔ v = Str lit.
Proof.
  destruct v; simpl; try (split; [discriminate | congruence]).
  rewrite bool_decide_eq_true. split; congruence.
Qed.

Lemma validateWebhookPayload_total payload :
  ∃ v, validateWebhookPayload payload = Ok v.
Proof.
  unfold validateWebhookPayload, E.catch.
  match goal with |- ∃ v, match ?b with _ => _ end = _ => destruct b end; eauto.
Qed.

Lemma processWebhookPayload_invalid payload msg :
  validateWebhookPayload payload = Ok (invalid msg) →
  processWebhookPayload coerceGtZero payload = Ok (rejected msg).
Proof. intros H. unfold processWebhookPayload. rewrite H. reflexivity. Qed.

Lemma validate_rejects payload :
  ¬ (taggedWhatsApp payload ∧ hasEntries payload) →
  ∃ msg, validateWebhookPayload payload = Ok (invalid msg).
Proof.
  intros Hbad. unfold validateWebhookPayload.
  destruct payload as [| |b|n|s|l|fs]; simpl; eauto.
  - destruct b; simpl; eauto.
  - destruct (n =? 0)%Z; simpl; eauto.
  - destruct (bool_decide (s = EmptyString)); simpl; eauto.
  - destruct (isStr (assoc "object" fs) "whatsapp_business_account") eqn:Htag;
      simpl; eauto.
    apply isStr_true in Htag.
    destruct (assoc "entry" fs) as [| | | | |[|e l]|] eqn:Hentry; simpl; eauto.
    exfalso. apply Hbad. split.
    + unfold taggedWhatsApp. simpl. by rewrite Htag.
    + exists e, l. simpl. by rewrite Hentry.
Qed.

End WebhookFacts.

(** C3. For a handshake with mode [subscribe], the configured token and a
    non-empty challenge, [verifyWebhook] returns exactly the challenge; when
    one of the three conditions fails it returns [null]; the GET route answers
    200 with the challenge in the first case and 403 in the second, and never
    500. *)
Theorem C3_verifyWebhook_handshake (verifyToken mode token challenge : string) :
  (mode = "subscribe" ∧ token = verifyToken ∧ challenge ≠ EmptyString →
   WebhookService.verifyWebhook verifyToken mode token challenge = Ok (Some challenge)) ∧
  (¬ (mode = "subscribe" ∧ token = verifyToken ∧ challenge ≠ EmptyString) →
   WebhookService.verifyWebhook verifyToken mode token challenge = Ok None) ∧
  (∀ query : string → option string,
     let answer := WebhookRoutes.getWebhook verifyToken query in
     let m := WebhookRoutes.orEmpty (query "hub.mode") in
     let t := WebhookRoutes.orEmpty (query "hub.verify_token") in
     let c := WebhookRoutes.orEmpty (query "hub.challenge") in
     (m = "subscribe" ∧ t = verifyToken ∧ c ≠ EmptyString →
      answer = {| WebhookRoutes.status := 200; WebhookRoutes.body := WebhookRoutes.BodyText c |}) ∧
     (¬ (m = "subscribe" ∧ t = verifyToken ∧ c ≠ EmptyString) →
      WebhookRoutes.status answer = 403%Z) ∧
     WebhookRoutes.status answer ≠ 500%Z).
Proof.
  assert (Hyes : ∀ m t c, m = "subscribe" ∧ t = verifyToken ∧ c ≠ EmptyString →
            WebhookService.verifyWebhook verifyToken m t c = Ok (Some c)).
  { intros m t c (-> & -> & Hc). unfold WebhookService.verifyWebhook.
    rewrite !bool_decide_eq_true_2 by done. simpl.
    destruct c as [|a c]; [done|]. reflexivity. }
  assert (Hno : ∀ m t c, ¬ (m = "subscribe" ∧ t = verifyToken ∧ c ≠ EmptyString) →
            WebhookService.verifyWebhook verifyToken m t c = Ok None).
  { intros m t c Hn. unfold WebhookService.verifyWebhook.
    destruct (bool_decide (m = "subscribe")) eqn:Hm; [|done].
    destruct (bool_decide (t = verifyToken)) eqn:Ht; [|done].
    apply bool_decide_eq_true in Hm, Ht.
    destruct c as [|a c]; [done|]. exfalso. apply Hn. done. }
  split; [apply Hyes|]. split; [apply Hno|].
  intros query. cbv zeta. unfold WebhookRoutes.getWebhook.
  split; [|split].
  - intros H. by rewrite (Hyes _ _ _ H).
  - intros H. by rewrite (Hno _ _ _ H).
  - destruct (decide (WebhookRoutes.orEmpty (query "hub.mode") = "subscribe"
                      ∧ WebhookRoutes.orEmpty (query "hub.verify_token") = verifyToken
                      ∧ WebhookRoutes.orEmpty (query "hub.challenge") ≠ EmptyString))
      as [H|H].
    + by rewrite (Hyes _ _ _ H).
    + by rewrite (Hno _ _ _ H).
Qed.

(** C4. [processWebhookPayload] never throws, whatever the payload; when the
    top-level tag is not [whatsapp_business_account], or the entry list is
    missing, not an array or empty, it returns [success = false] with a
    diagnostic string (and no message, event type or [shouldRespond]). *)
Theorem C4_invalid_payload_rejected (coerceGtZero : Js.value → bool) (payload : Js.value) :
  (∃ result, WebhookService.processWebhookPayload coerceGtZero payload = Ok result) ∧
  (¬ (WebhookSpec.taggedWhatsApp payload ∧ WebhookSpec.hasEntries payload) →
   ∃ diagnostic,
     WebhookService.processWebhookPayload coerceGtZero payload
     = Ok (WebhookSpec.rejected diagnostic)).
Proof.
  split.
  - destruct payload;
      try (unfold WebhookService.processWebhookPayload, E.catch;
           match goal with |- ∃ r, match ?b with _ => _ end = _ => destruct b end;
           simpl; eauto; fail).
    eexists. reflexivity.
  - intros Hbad. destruct (validate_rejects payload Hbad) as [msg Hmsg].
    exists msg. by apply processWebhookPayload_invalid.
Qed.

Section WebhookBlank.
Import Js WebhookService WebhookSpec.
Variable coerceGtZero : value → bool.

Lemma forOf_all_none {A B} (f : A → Res (option B)) l :
  (∀ x, x ∈ l → f x = Ok None) → forOf f l = Ok None.
Proof.
  induction l as [|x l IH]; intros H; [done|]. simpl.
  rewrite (H x) by left. simpl. apply IH. intros y Hy. apply H. by right.
Qed.


Lemma forOf_none_inv {A B} (f : A → Res (option B)) l :
  forOf f l = Ok None → ∀ x, x ∈ l → f x = Ok None.
Proof.
  induction l as [|x l IH]; intros H y Hy; [by apply elem_of_nil in Hy|].
  simpl in H. destruct (f x) as [[b'|]|e] eqn:Hx; simpl in H; try done.
  apply elem_of_cons in Hy as [->|Hy]; [done|]. by apply IH.
Qed.

Lemma forOf_some_inv {A B} (f : A → Res (option B)) l b :
  forOf f l = Ok (Some b) → ∃ x, x ∈ l ∧ f x = Ok (Some b).
Proof.
  induction l as [|x l IH]; intros H; [done|].
  simpl in H. destruct (f x) as [[b'|]|e] eqn:Hx; simpl in H; try done.
  - exists x. split; [left|congruence].
  - destruct (IH H) as (y & Hy & Hfy). exists y. split; [by right|done].
Qed.



(** What is not an object has no sender and is never handed on. *)
Lemma processIncomingMessage_not_object m b :
  (∀ fs, m ≠ Obj fs) → processIncomingMessage m ≠ Ok (Some b).
Proof.
  intros Hm. destruct m; try done; try (by exfalso; eapply Hm).
  all: unfold processIncomingMessage, determineEventType, isProcessableMessage, E.catch;
    simpl; repeat case_decide; simpl; done.
Qed.

Lemma elem_of_chars x s : x ∈ chars s → ∃ c, x = Str c.
Proof.
  induction s as [|a s IH]; simpl; intros H; [by apply elem_of_nil in H|].
  apply elem_of_cons in H as [->|H]; eauto.
Qed.



Lemma validateChange_result change v :
  validateChange change = Ok (Some v) → isValid v = false.
Proof.
  unfold validateChange.
  destruct (get change "field") as [f|e]; simpl; [|done].
  destruct (isStr f "messages"); simpl; [|done].
  destruct (get change "value") as [cv|e]; simpl; [|done].
  destruct (truthy cv); simpl; [|by intros [= <-]].
  destruct (get cv "messaging_product") as [mp|e]; simpl; [|done].
  destruct (negb (truthy mp) || negb (isStr mp "whatsapp")); [by intros [= <-]|done].
Qed.

Lemma validateEntry_result entry v :
  validateEntry entry = Ok (Some v) → isValid v = false.
Proof.
  unfold validateEntry.
  destruct (get entry "id") as [i|e]; simpl; [|done].
  destruct (truthy i); simpl; [|by intros [= <-]].
  destruct (get entry "changes") as [cv|e]; simpl; [|done].
  destruct (negb (truthy cv) || negb (isArray cv)); [by intros [= <-]|].
  destruct (iterate cv) as [l|e]; simpl; [|done].
  intros H. apply forOf_some_inv in H as (x & _ & Hx).
  by eapply validateChange_result.
Qed.

Lemma validateEntry_ok_not_nullish entry r :
  validateEntry entry = Ok r → nullish entry = false.
Proof. destruct entry; simpl; done. Qed.

(** What a payload that passes the validation looks like. *)
Lemma validateWebhookPayload_valid payload v :
  validateWebhookPayload payload = Ok v → isValid v = true →
  ∃ l, get payload "entry" = Ok (Arr l) ∧ Forall (λ e, nullish e = false) l.
Proof.
  unfold validateWebhookPayload. intros H Hv.
  destruct payload as [| |b|n|s|l|fs]; simpl in H;
    try (injection H as <-; done).
  - destruct b; simpl in H; injection H as <-; done.
  - destruct (n =? 0)%Z; simpl in H; injection H as <-; done.
  - destruct (bool_decide (s = EmptyString)); simpl in H; injection H as <-; done.
  - destruct (isStr (assoc "object" fs) "whatsapp_business_account");
      simpl in H; [|injection H as <-; done].
    destruct (assoc "entry" fs) as [| | | | |[|e l]|] eqn:Hentry; cbn -[forOf] in H;
      try (injection H as <-; done).
    exists (e :: l). split; [simpl; by rewrite Hentry|].
    destruct (forOf validateEntry (e :: l)) as [[v'|]|err] eqn:Hfor; simpl in H.
    + injection H as <-. apply forOf_some_inv in Hfor as (x & _ & Hx).
      apply validateEntry_result in Hx. congruence.
    + apply Forall_forall. intros x Hx.
      eapply validateEntry_ok_not_nullish. by eapply forOf_none_inv.
    + injection H as <-. done.
Qed.

End WebhookBlank.



(** ** The store *)

Ltac unfold_monad :=
  unfold M.bind, M.catch, M.ret, M.throw, M.getNow, M.getFlag, M.log, Tools.lift in *.

Section StoreFacts.
Variable env : Env.

Lemma executeQuery_cases {A} (q : Db.Statement A) w :
  (∃ e, poolFault env (length (trace w)) = Some e ∧
        Client.executeQuery env q w =
          (Throw e, {| isDatabaseAvailable := isDatabaseAvailable w; db := db w;
                       trace := EvQuery :: trace w; now := now w;
                       entropy := entropy w; toolMemory := toolMemory w |})) ∨
  (poolFault env (length (trace w)) = None ∧
   Client.executeQuery env q w =
     ((q (db w)).1, {| isDatabaseAvailable := isDatabaseAvailable w; db := (q (db w)).2;
                       trace := EvQuery :: trace w; now := now w;
                       entropy := entropy w; toolMemory := toolMemory w |})).
Proof.
  unfold Client.executeQuery.
  destruct (poolFault env (length (trace w))) as [e|]; [left; eauto|right].
  split; [done|]. by destruct (q (db w)).
Qed.

(** [upsertUser] with a NULL profile name keeps the stored one. *)
Lemma upsertUser_null_keeps t waId phone d u :
  Db.users d !! waId = Some u →
  Db.u_profile_name <$> (Db.users (Db.upsertUser t waId phone None d).2 !! waId)
  = Some (Db.u_profile_name u).
Proof.
  intros Hu. unfold Db.upsertUser. rewrite Hu. simpl.
  by rewrite lookup_insert_eq.
Qed.

End StoreFacts.

(** C9, counterexample: Ana has the profile name [Ana]; an upsert with the
    empty string as profile name stores the empty string. *)
Lemma C9_empty_string_overwrites :
  storedProfileName anaWorld "573001112233" = Some (Some "Ana") ∧
  storedProfileName
    (UserRepository.upsertUser quietEnv "573001112233" "573001112233"
       (Types.OStr EmptyString) anaWorld).2 "573001112233"
  = Some (Some EmptyString).
Proof. split; vm_compute; reflexivity. Qed.

(** C9, as amended. For a user with a stored profile name, an upsert whose
    profile-name argument is absent ([undefined]) or [null] leaves the stored
    profile name as it was, whether the statement runs or the pool fails. *)
Theorem C9_upsert_keeps_profile_name (env : Env) (w : World)
    (waId phoneNumber name : string) (profileName : Types.OptStr) :
  storedProfileName w waId = Some (Some name) →
  profileName = Types.OUndefined ∨ profileName = Types.ONull →
  storedProfileName
    (UserRepository.upsertUser env waId phoneNumber profileName w).2 waId
  = Some (Some name).
Proof.
  intros Hname Hp. unfold storedProfileName in *.
  destruct (Db.users (db w) !! waId) as [u|] eqn:Hu; [|done].
  simpl in Hname. injection Hname as Hname.
  assert (Types.toSqlParam profileName = None) as Hnull by (by destruct Hp as [-> | ->]).
  unfold UserRepository.upsertUser. unfold_monad. rewrite Hnull.
  destruct (executeQuery_cases env
              (Db.upsertUser (now w) waId phoneNumber None) w) as [(e & _ & ->)|[_ ->]].
  - simpl. by rewrite Hu, <- Hname.
  - pose proof (upsertUser_null_keeps (now w) waId phoneNumber (db w) u Hu) as Hkeep.
    destruct (Db.upsertUser (now w) waId phoneNumber None (db w)) as [[rows|e] d'] eqn:Hq;
      simpl in *.
    + destruct rows; simpl; by rewrite Hkeep, Hname.
    + by rewrite Hkeep, Hname.
Qed.

Lemma C9_upsert_keeps_witness :
  storedProfileName
    (UserRepository.upsertUser quietEnv "573001112233" "573001112233"
       Types.ONull anaWorld).2 "573001112233"
  = Some (Some "Ana").
Proof.
  apply (C9_upsert_keeps_profile_name quietEnv anaWorld "573001112233" "573001112233" "Ana").
  - vm_compute. reflexivity.
  - right. reflexivity.
Defined.

Section MessageLog.
Variable env : Env.

Lemma filter_whatsapp_none id (l : list Db.Message) :
  existsb (Db.hasWhatsappId id) l = false →
  filter (λ m, Db.m_whatsapp_message_id m = Some id) l = [].
Proof.
  induction l as [|m l IH]; [done|]. simpl.
  intros [Hm Hl]%orb_false_iff. unfold Db.hasWhatsappId in Hm.
  apply bool_decide_eq_false in Hm.
  rewrite filter_cons_False by done. by apply IH.
Qed.

Lemma existsb_whatsapp_app id (l : list Db.Message) row :
  Db.m_whatsapp_message_id row = Some id →
  existsb (Db.hasWhatsappId id) (l ++ [row]) = true.
Proof.
  intros Hrow. rewrite existsb_app. simpl. unfold Db.hasWhatsappId at 2.
  rewrite bool_decide_eq_true_2 by done. by rewrite orb_true_r.
Qed.

(** A successful insert adds one row, the only one with its provider id. *)
Lemma insertMessage_ok conv dir ty content id ts d rows d' :
  Db.insertMessage conv dir ty content (Some id) ts d = (Ok rows, d') →
  ∃ row, Db.messages d' = Db.messages d ++ [row] ∧
         Db.m_whatsapp_message_id row = Some id ∧
         existsb (Db.hasWhatsappId id) (Db.messages d) = false ∧
         rows ≠ [].
Proof.
  unfold Db.insertMessage.
  destruct (existsb (Db.hasWhatsappId id) (Db.messages d)) eqn:Hex; [done|].
  destruct (negb (Db.conversationExists d conv)); [done|].
  intros [= <- <-]. simpl. eauto.
Qed.

(** An insert with a provider id that is already stored is refused with the
    uniqueness violation and changes nothing. *)
Lemma insertMessage_duplicate conv dir ty content id ts d :
  existsb (Db.hasWhatsappId id) (Db.messages d) = true →
  Db.insertMessage conv dir ty content (Some id) ts d = (Throw Db.unique_violation, d).
Proof. intros H. unfold Db.insertMessage. by rewrite H. Qed.

(** What a successful [MessageRepository.saveMessage] did. *)
Lemma saveMessage_ok conv dir ty content id ts w m w' :
  MessageRepository.saveMessage env conv dir ty content (Some id) ts w = (Ok m, w') →
  (bool_decide (conv = EmptyString) || bool_decide (ty = EmptyString)
   || bool_decide (content = EmptyString)) = false ∧
  isDatabaseAvailable w' = isDatabaseAvailable w ∧
  ∃ row, Db.messages (db w') = Db.messages (db w) ++ [row] ∧
         Db.m_whatsapp_message_id row = Some id ∧
         existsb (Db.hasWhatsappId id) (Db.messages (db w)) = false.
Proof.
  unfold MessageRepository.saveMessage,
    ConversationRepository.updateConversationTimestamp, UserRepository.first.
  unfold_monad.
  destruct (bool_decide (conv = EmptyString) || bool_decide (ty = EmptyString)
            || bool_decide (content = EmptyString)); [done|].
  destruct (executeQuery_cases env
              (Db.insertMessage conv dir ty content (Some id) (default (now w) ts)) w)
    as [(e & _ & ->)|[_ ->]]; [done|].
  destruct (Db.insertMessage conv dir ty content (Some id) (default (now w) ts) (db w))
    as [[rows|e] d1] eqn:Hins; simpl; [|done].
  apply insertMessage_ok in Hins as (row & Hmsgs & Hrow & Hfresh & Hrows).
  destruct rows as [|r rows]; [done|].
  match goal with
  | |- context [Client.executeQuery env ?q ?w1] =>
      destruct (executeQuery_cases env q w1) as [(e & _ & ->)|[_ ->]]
  end; [done|].
  simpl. intros [= <- <-]. simpl. split; [done|]. split; [done|]. eauto.
Qed.

(** A second [MessageRepository.saveMessage] with a stored provider id
    throws and leaves the log as it is. *)
Lemma saveMessage_duplicate conv dir ty content id ts w :
  (bool_decide (conv = EmptyString) || bool_decide (ty = EmptyString)
   || bool_decide (content = EmptyString)) = false →
  existsb (Db.hasWhatsappId id) (Db.messages (db w)) = true →
  ∃ e w', MessageRepository.saveMessage env conv dir ty content (Some id) ts w
          = (Throw e, w') ∧
          Db.messages (db w') = Db.messages (db w) ∧
          (poolFault env (length (trace w)) = None → e = Db.unique_violation).
Proof.
  intros Hvalid Hdup.
  unfold MessageRepository.saveMessage. unfold_monad. rewrite Hvalid.
  destruct (executeQuery_cases env
              (Db.insertMessage conv dir ty content (Some id) (default (now w) ts)) w)
    as [(e & He & ->)|[He ->]].
  - exists e. eexists. split; [reflexivity|]. split; [done|]. congruence.
  - rewrite insertMessage_duplicate by done. simpl.
    eexists _, _. split; [reflexivity|]. done.
Qed.

End MessageLog.

(** C1, counterexample: with the store available, the second delivery of the
    provider id [wamid.X] to Ana's conversation is not absorbed: [saveMessage]
    throws the uniqueness violation to its caller. With the store unavailable,
    both deliveries return an id and no row is stored. *)
Lemma C1_second_delivery_throws :
  let first := AgentMemory.saveMessage quietEnv "uuid-1" Db.incoming "text" "hola"
                 (Some "wamid.X") None anaWorld in
  let second := AgentMemory.saveMessage quietEnv "uuid-1" Db.incoming "text" "hola"
                  (Some "wamid.X") None first.2 in
  let first' := AgentMemory.saveMessage quietEnv "mem_uuid-0_2" Db.incoming "text" "hola"
                  (Some "wamid.X") None degradedWorld in
  let second' := AgentMemory.saveMessage quietEnv "mem_uuid-0_2" Db.incoming "text" "hola"
                   (Some "wamid.X") None first'.2 in
  (first.1 = Ok "uuid-2" ∧ second.1 = Throw Db.unique_violation ∧
   storedRows second.2 "wamid.X" = 1) ∧
  (is_ok first'.1 = true ∧ is_ok second'.1 = true ∧ storedRows second'.2 "wamid.X" = 0).
Proof. vm_compute. done. Qed.

(** C1, as amended. With the store available, once a delivery of a provider
    message id has been stored, a second delivery of the same id through
    [AgentMemory.saveMessage] leaves exactly one row with that id in the log;
    the error of the second insert (the uniqueness violation, unless the pool
    fails first) is thrown again to the caller. *)
Theorem C1_duplicate_delivery (env : Env) (w w1 : World) (conversationId : string)
    (direction : Db.Direction) (messageType content whatsappMessageId : string)
    (timestamp : option Z) (messageId : string) :
  isDatabaseAvailable w = true →
  AgentMemory.saveMessage env conversationId direction messageType content
    (Some whatsappMessageId) timestamp w = (Ok messageId, w1) →
  storedRows w1 whatsappMessageId = 1 ∧
  ∃ e w2,
    AgentMemory.saveMessage env conversationId direction messageType content
      (Some whatsappMessageId) timestamp w1 = (Throw e, w2) ∧
    storedRows w2 whatsappMessageId = 1 ∧
    Db.messages (db w2) = Db.messages (db w1) ∧
    (poolFault env (length (trace w1)) = None → e = Db.unique_violation).
Proof.
  intros Hflag Hfirst.
  unfold AgentMemory.saveMessage in Hfirst. unfold_monad. rewrite Hflag in Hfirst.
  simpl in Hfirst.
  destruct (MessageRepository.saveMessage env conversationId direction messageType content
              (Some whatsappMessageId) timestamp w) as [[m|e] w'] eqn:Hsave; [|done].
  injection Hfirst as <- <-.
  apply saveMessage_ok in Hsave as (Hvalid & Hflag' & row & Hmsgs & Hrow & Hfresh).
  assert (Hone : storedRows w' whatsappMessageId = 1).
  { unfold storedRows, Db.rowsWithWhatsappId. rewrite Hmsgs, filter_app.
    rewrite filter_whatsapp_none by done.
    rewrite filter_cons_True by done. reflexivity. }
  split; [done|].
  destruct (saveMessage_duplicate env conversationId direction messageType content
              whatsappMessageId timestamp w' Hvalid) as (e & w2 & Hsecond & Hsame & Herr).
  { rewrite Hmsgs. by apply existsb_whatsapp_app. }
  exists e, w2. unfold AgentMemory.saveMessage. unfold_monad.
  rewrite Hflag', Hflag. simpl. rewrite Hsecond.
  split; [done|]. split; [|done].
  unfold storedRows, Db.rowsWithWhatsappId in *. by rewrite Hsame.
Qed.

Lemma C1_duplicate_delivery_witness :
  storedRows
    (AgentMemory.saveMessage quietEnv "uuid-1" Db.incoming "text" "hola"
       (Some "wamid.X") None anaWorld).2 "wamid.X" = 1.
Proof.
  eapply (C1_duplicate_delivery quietEnv anaWorld _ "uuid-1" Db.incoming "text" "hola"
            "wamid.X" None "uuid-2").
  - reflexivity.
  - vm_compute. reflexivity.
Defined.

(** ** Rules for computations in the world *)

Section Rules.
Context {A B : Type}.






Context (R : relation World) `{!PreOrder R}.

Lemma keeps_ret (a : A) : keeps R (M.ret a).
Proof using Type*. intros w. simpl. reflexivity. Qed.

Lemma keeps_throw e : keeps R (M.throw (A:=A) e).
Proof using Type*. intros w. simpl. reflexivity. Qed.

Lemma keeps_bind (m : M A) (k : A → M B) :
  keeps R m → (∀ a, keeps R (k a)) → keeps R (M.bind m k).
Proof using Type*.
  intros Hm Hk w. unfold M.bind. specialize (Hm w).
  destruct (m w) as [[a|e] w1]; simpl in *; [|done].
  etrans; [exact Hm|apply Hk].
Qed.

Lemma keeps_catch (m : M A) (h : Exn → M A) :
  keeps R m → (∀ e, keeps R (h e)) → keeps R (M.catch m h).
Proof using Type*.
  intros Hm Hh w. unfold M.catch. specialize (Hm w).
  destruct (m w) as [[a|e] w1]; simpl in *; [done|].
  etrans; [exact Hm|apply Hh].
Qed.

Lemma keeps_if (b : bool) (m1 m2 : M A) :
  keeps R m1 → keeps R m2 → keeps R (if b then m1 else m2).
Proof using Type*. by destruct b. Qed.

End Rules.

Lemma keeps_getNow (R : relation World) `{!PreOrder R} : keeps R M.getNow.
Proof. intros w. simpl. reflexivity. Qed.

Lemma keeps_getFlag (R : relation World) `{!PreOrder R} : keeps R M.getFlag.
Proof. intros w. simpl. reflexivity. Qed.

#[local] Instance onlyQueries_preorder : PreOrder onlyQueries.
Proof.
  split.
  - intros w. by exists 0.
  - intros w1 w2 w3 [k1 H1] [k2 H2]. exists (k2 + k1).
    by rewrite H2, H1, replicate_add, app_assoc.
Qed.

#[local] Instance quietStep_preorder : PreOrder quietStep.
Proof.
  split.
  - intros w. unfold quietStep. repeat split; reflexivity.
  - intros w1 w2 w3 (Hs1 & Hm1 & Ht1 & He1 & Hf1 & Hq1) (Hs2 & Hm2 & Ht2 & He2 & Hf2 & Hq2).
    unfold quietStep. repeat split; try congruence. by etrans.
Qed.

Ltac keeps_rules :=
  repeat first
    [ apply keeps_ret | apply keeps_throw | apply keeps_getNow | apply keeps_getFlag
    | apply keeps_catch | apply keeps_bind | apply keeps_if
    | match goal with
      | |- PreOrder _ => apply _
      | |- ∀ _, keeps _ _ => intros ?
      end ].

Section QuietStore.
Variable env : Env.







End QuietStore.

(** ** The turn *)



Section Turn.
Variable env : Env.
Variable registry : list Tools.AgentTool.


(** [processTextMessage] never throws. *)
Lemma processTextMessage_total waId content waMessageId profileName w :
  ∃ response w',
    WhatsAppAgent.processTextMessage env registry waId content waMessageId profileName w
    = (Ok response, w').
Proof.
  unfold WhatsAppAgent.processTextMessage, M.catch.
  match goal with |- ∃ r w', match ?b with _ => _ end = _ => destruct b as [[r|e] w'] end;
    eauto.
Qed.

End Turn.



(** ** The ping short cut *)

Section Blank.
Import JsString.









End Blank.

Ltac kbind := apply keeps_bind; try (match goal with |- PreOrder _ => apply _ end).
Ltac kcatch := apply keeps_catch; try (match goal with |- PreOrder _ => apply _ end).

Ltac kif := apply keeps_if; try (match goal with |- PreOrder _ => apply _ end).

Section Ping.
Variable env : Env.
Variable registry : list Tools.AgentTool.




Hypothesis Hnofault : ∀ n, poolFault env n = None.

Lemma executeQuery_run {A} (q : Db.Statement A) w :
  Client.executeQuery env q w =
    ((q (db w)).1, {| isDatabaseAvailable := isDatabaseAvailable w; db := (q (db w)).2;
                      trace := EvQuery :: trace w; now := now w;
                      entropy := entropy w; toolMemory := toolMemory w |}).
Proof using Hnofault.
  destruct (executeQuery_cases env q w) as [(e & He & _)|[_ ->]]; [|done].
  rewrite Hnofault in He. done.
Qed.





End Ping.




(** ** The analyze step *)





(** ** Runs of the graph *)

Section Runs.
Variable env : Env.
Variable registry : list Tools.AgentTool.

Lemma run_step fuel state node w state' w' :
  WhatsAppAgent.step env registry state = Some node →
  node w = (Ok state', w') →
  WhatsAppAgent.run env registry (S fuel) state w
  = WhatsAppAgent.run env registry fuel state' w'.
Proof.
  intros Hstep Hnode. simpl. rewrite Hstep. unfold M.bind. by rewrite Hnode.
Qed.

Lemma run_done fuel state w :
  WhatsAppAgent.step env registry state = None →
  WhatsAppAgent.run env registry fuel state w = (Ok (Some state), w).
Proof. intros Hstep. destruct fuel; simpl; by rewrite Hstep. Qed.

(** With the store available and answering, [saveAgentState] stores the
    state under the user. *)
Lemma saveAgentState_run userId state w :
  isDatabaseAvailable w = true →
  (∀ n, poolFault env n = None) →
  JsString.trim userId ≠ EmptyString →
  JsString.trim (Types.session_id state) ≠ EmptyString →
  Db.userIdExists (db w) userId = true →
  ∃ w', AgentMemory.saveAgentState env userId state w = (Ok tt, w') ∧
        storedState w' userId = Some state.
Proof.
  intros Hflag Hnofault Huser Hsession Hfk.
  unfold AgentMemory.saveAgentState, SessionRepository.saveAgentState,
    SessionRepository.validateAgentState. unfold_monad.
  rewrite Hflag. simpl.
  assert (bool_decide (userId = EmptyString) || bool_decide (JsString.trim userId = EmptyString)
          = false) as ->.
  { apply orb_false_iff. split; apply bool_decide_eq_false; [|done].
    intros ->. by apply Huser. }
  rewrite bool_decide_eq_false_2 by done.
  rewrite executeQuery_run by done.
  unfold Db.upsertSession, storedState.
  destruct (Db.sessions (db w) !! userId) as [s|]; simpl.
  - eexists. split; [reflexivity|]. simpl. by rewrite lookup_insert_eq.
  - rewrite Hfk. simpl. eexists. split; [reflexivity|]. simpl.
    by rewrite lookup_insert_eq.
Qed.
End Runs.

Section Calc.
Variable env : Env.
Variable w : World.
Variables sessionId userId : string.

Lemma calc_processInput :
  WhatsAppAgent.processInput (calcState (now w) sessionId userId) w
  = (Ok (calcStarted (now w) sessionId userId), w).
Proof. reflexivity. Qed.

Lemma calc_analyzeIntent :
  WhatsAppAgent.analyzeIntent (calcStarted (now w) sessionId userId) w
  = (Ok (calcAnalyzed (now w) sessionId userId), w).
Proof. reflexivity. Qed.

Lemma calc_useTool :
  WhatsAppAgent.useTool (Tools.AVAILABLE_TOOLS env) (calcAnalyzed (now w) sessionId userId) w
  = (Ok (calcAnswered (now w) sessionId userId "finalize"),
     logged (EvToolExecute "calculator") w).
Proof. reflexivity. Qed.
End Calc.

(** C7. On the text [calcula 2+2*3]: the analyze step selects the calculator
    with the expression [2+2*3]; the tool evaluates it to 8 (multiplication
    before addition) and its text, which contains [8], becomes the assistant
    turn; the finalize step stores the state and the run ends in the done
    state [END]. The store is available and answers, and the user exists. The
    same text through [processMessageWithLogic] returns the same answer. *)
Theorem C7_calculator_scenario (env : Env) (w : World) (sessionId userId : string) :
  isDatabaseAvailable w = true →
  (∀ n, poolFault env n = None) →
  JsString.trim userId ≠ EmptyString →
  JsString.trim sessionId ≠ EmptyString →
  Db.userIdExists (db w) userId = true →
  let registry := Tools.AVAILABLE_TOOLS env in
  let t := now w in
  WhatsAppAgent.processInput (calcState t sessionId userId) w
    = (Ok (calcStarted t sessionId userId), w) ∧
  WhatsAppAgent.analyzeIntent (calcStarted t sessionId userId) w
    = (Ok (calcAnalyzed t sessionId userId), w) ∧
  WhatsAppAgent.useTool registry (calcAnalyzed t sessionId userId) w
    = (Ok (calcAnswered t sessionId userId "finalize"),
       logged (EvToolExecute "calculator") w) ∧
  Calculator.evalInteger "2+2*3" = Some 8%Z ∧
  JsString.includes calcAnswer "8" = true ∧
  (∃ w',
     WhatsAppAgent.finalizeResponse env (calcAnswered t sessionId userId "finalize")
       (logged (EvToolExecute "calculator") w)
     = (Ok (calcAnswered t sessionId userId WhatsAppAgent.END), w') ∧
     storedState w' userId = Some (calcAnswered t sessionId userId "finalize") ∧
     WhatsAppAgent.run env registry 4 (calcState t sessionId userId) w
     = (Ok (Some (calcAnswered t sessionId userId WhatsAppAgent.END)), w')) ∧
  WhatsAppAgent.step env registry (calcAnswered t sessionId userId WhatsAppAgent.END) = None ∧
  (∀ agentState,
     WhatsAppAgent.processMessageWithLogic env registry agentState calcText w
     = (Ok calcAnswer, logged (EvToolExecute "calculator") w)).
Proof.
  intros Hflag Hnofault Huser Hsession Hfk registry t.
  split; [reflexivity|]. split; [reflexivity|]. split; [reflexivity|].
  split; [reflexivity|]. split; [reflexivity|]. split; [|split; [reflexivity|]].
  - destruct (saveAgentState_run env userId (calcAnswered t sessionId userId "finalize")
                (logged (EvToolExecute "calculator") w))
      as (w' & Hsave & Hstored); try done.
    assert (WhatsAppAgent.finalizeResponse env (calcAnswered t sessionId userId "finalize")
              (logged (EvToolExecute "calculator") w)
            = (Ok (calcAnswered t sessionId userId WhatsAppAgent.END), w')) as Hfinal.
    { unfold WhatsAppAgent.finalizeResponse. unfold_monad.
      cbn [Types.context calcAnswered calcContext Types.user_id]. by rewrite Hsave. }
    exists w'. split; [done|]. split; [done|].
    erewrite run_step; [|reflexivity|apply calc_processInput].
    erewrite run_step; [|reflexivity|apply calc_analyzeIntent].
    erewrite run_step; [|reflexivity|apply calc_useTool].
    erewrite run_step; [|reflexivity|exact Hfinal].
    by apply run_done.
  - intros agentState. reflexivity.
Qed.

Lemma C7_calculator_witness :
  ∃ w',
    WhatsAppAgent.run quietEnv (Tools.AVAILABLE_TOOLS quietEnv) 4
      (calcState 2 "uuid-1" "uuid-0") anaWorld
    = (Ok (Some (calcAnswered 2 "uuid-1" "uuid-0" WhatsAppAgent.END)), w') ∧
    storedState w' "uuid-0" = Some (calcAnswered 2 "uuid-1" "uuid-0" "finalize").
Proof.
  destruct (C7_calculator_scenario quietEnv anaWorld "uuid-1" "uuid-0")
    as (_ & _ & _ & _ & _ & (w' & _ & Hstored & Hrun) & _).
  - reflexivity.
  - reflexivity.
  - vm_compute. discriminate.
  - vm_compute. discriminate.
  - vm_compute. reflexivity.
  - exists w'. split; [exact Hrun|exact Hstored].
Defined.

Section Containment.
Variable env : Env.
Variable registry : list Tools.AgentTool.

Lemma useTool_throwing tool state w :
  Tools.getToolByName registry (Types.selected_tool (Types.context state)) = Some tool →
  alwaysThrows tool →
  ∃ w', WhatsAppAgent.useTool registry state w = (Ok (apologized (now w') state), w').
Proof.
  intros Hget Hthrows. unfold WhatsAppAgent.useTool. unfold_monad. rewrite Hget.
  cbn beta iota.
  destruct (Hthrows (Types.tool_input (Types.context state))
              (logged (EvToolExecute (Tools.name tool)) w)) as (e & w' & Hexec).
  unfold logged in Hexec. rewrite Hexec. eauto.
Qed.

Lemma finalizeResponse_total state w :
  ∃ w', WhatsAppAgent.finalizeResponse env state w
          = (Ok (Types.withNode state WhatsAppAgent.END), w') ∨
        WhatsAppAgent.finalizeResponse env state w
          = (Ok (Types.withNode state "error"), w').
Proof.
  unfold WhatsAppAgent.finalizeResponse. unfold_monad.
  destruct (AgentMemory.saveAgentState env _ state w) as [[[]|e] w']; eauto.
Qed.

Lemma tryTools_throwing entries content userId i toolName patterns tool w :
  entries !! i = Some (toolName, patterns) →
  WhatsAppAgent.somePattern content patterns = true →
  (∀ j entry, j < i → entries !! j = Some entry →
              WhatsAppAgent.somePattern content entry.2 = false) →
  Tools.getToolByName registry (Some toolName) = Some tool →
  alwaysThrows tool →
  ∃ w', WhatsAppAgent.tryTools registry entries content userId w
        = (Ok (Some WhatsAppAgent.toolApologyLogic), w').
Proof.
  intros Hi Hmatch Hbefore Hget Hthrows. revert i Hi Hbefore.
  induction entries as [|[n ps] entries IH]; intros i Hi Hbefore; [done|].
  destruct i as [|i]; simpl in Hi.
  - injection Hi as -> ->. cbn [WhatsAppAgent.tryTools].
    rewrite Hmatch, Hget. unfold_monad.
    destruct (Hthrows
                (Some (WhatsAppAgent.extractToolInput content toolName userId))
                (logged (EvToolExecute (Tools.name tool)) w)) as (e & w' & Hexec).
    unfold logged in Hexec. rewrite Hexec. eauto.
  - cbn [WhatsAppAgent.tryTools].
    pose proof (Hbefore 0 (n, ps) ltac:(lia) eq_refl) as Hn. simpl in Hn. rewrite Hn.
    apply (IH i); [done|]. intros j entry Hj. apply (Hbefore (S j)). lia.
Qed.
End Containment.

(** C8. When the tool a run selects throws on every call, [useTool] does not
    throw: it appends the apology as the assistant turn and names [finalize]
    as the next node; the run goes through [finalizeResponse] and ends in
    [END] with the apology among its turns. In [processMessageWithLogic], the
    first mapping that matches selects the tool, and its failure is answered
    with the apology of that method. [finalizeResponse] stores the state with
    the apology when the store is available and answers. *)
Theorem C8_throwing_tool_contained (env : Env) (registry : list Tools.AgentTool)
    (tool : Tools.AgentTool) (state : Types.AgentState) (w : World) :
  Tools.getToolByName registry (Types.selected_tool (Types.context state)) = Some tool →
  alwaysThrows tool →
  (∃ w1,
     WhatsAppAgent.useTool registry state w = (Ok (apologized (now w1) state), w1) ∧
     lastTurn (apologized (now w1) state) = Some (Types.assistant, WhatsAppAgent.toolApology) ∧
     WhatsAppAgent.step env registry (apologized (now w1) state)
     = Some (WhatsAppAgent.finalizeResponse env (apologized (now w1) state))) ∧
  (Types.current_node state = Some "use_tool" →
   ∃ final w2,
     WhatsAppAgent.run env registry 3 state w = (Ok (Some final), w2) ∧
     Types.current_node final = Some WhatsAppAgent.END ∧
     (Types.assistant, WhatsAppAgent.toolApology)
       ∈ (λ m, (Types.role m, Types.content m)) <$> Types.messages final) ∧
  (∀ agentState text i toolName patterns,
     WhatsAppAgent.logicPatterns !! i = Some (toolName, patterns) →
     WhatsAppAgent.somePattern (JsString.toLowerCase text) patterns = true →
     (∀ j entry, j < i → WhatsAppAgent.logicPatterns !! j = Some entry →
                 WhatsAppAgent.somePattern (JsString.toLowerCase text) entry.2 = false) →
     Tools.getToolByName registry (Some toolName) = Some tool →
     ∃ w',
       WhatsAppAgent.processMessageWithLogic env registry agentState text w
       = (Ok WhatsAppAgent.toolApologyLogic, w')) ∧
  (∀ t w1,
     isDatabaseAvailable w1 = true →
     (∀ n, poolFault env n = None) →
     JsString.trim (Types.user_id (Types.context state)) ≠ EmptyString →
     JsString.trim (Types.session_id state) ≠ EmptyString →
     Db.userIdExists (db w1) (Types.user_id (Types.context state)) = true →
     ∃ w2,
       WhatsAppAgent.finalizeResponse env (apologized t state) w1
       = (Ok (Types.withNode (apologized t state) WhatsAppAgent.END), w2) ∧
       storedState w2 (Types.user_id (Types.context state)) = Some (apologized t state)).
Proof.
  intros Hget Hthrows.
  destruct (useTool_throwing registry tool state w Hget Hthrows) as (w1 & Huse).
  assert (Hlast : lastTurn (apologized (now w1) state)
                  = Some (Types.assistant, WhatsAppAgent.toolApology)).
  { unfold lastTurn, apologized. simpl. by rewrite last_snoc. }
  split; [|split; [|split]].
  - exists w1. split; [done|]. split; [done|]. reflexivity.
  - intros Hnode.
    assert (WhatsAppAgent.step env registry state
            = Some (WhatsAppAgent.useTool registry state)) as Hstep.
    { unfold WhatsAppAgent.step. rewrite Hnode. reflexivity. }
    rewrite (run_step env registry 2 state _ w _ w1 Hstep Huse).
    assert (Hin : (Types.assistant, WhatsAppAgent.toolApology)
                    ∈ (λ m, (Types.role m, Types.content m))
                      <$> Types.messages (apologized (now w1) state)).
    { unfold apologized. simpl. rewrite fmap_app. apply elem_of_app. right. by left. }
    destruct (finalizeResponse_total env (apologized (now w1) state) w1)
      as (w2 & [Hfin|Hfin]).
    + erewrite run_step; [|reflexivity|exact Hfin].
      rewrite run_done by reflexivity. eexists _, _. split; [reflexivity|]. done.
    + erewrite run_step; [|reflexivity|exact Hfin].
      erewrite run_step; [|reflexivity|reflexivity].
      rewrite run_done by reflexivity. eexists _, _. split; [reflexivity|].
      split; [reflexivity|]. simpl. rewrite fmap_app. apply elem_of_app. by left.
  - intros agentState text i toolName patterns Hi Hmatch Hbefore Hget'.
    unfold WhatsAppAgent.processMessageWithLogic. unfold M.bind.
    destruct (tryTools_throwing registry WhatsAppAgent.logicPatterns
                (JsString.toLowerCase text) (Types.user_id (Types.context agentState))
                i toolName patterns tool w Hi Hmatch Hbefore Hget' Hthrows) as (w' & ->).
    eauto.
  - intros t wf Hflag Hnofault Huser Hsession Hfk.
    destruct (saveAgentState_run env (Types.user_id (Types.context state))
                (apologized t state) wf Hflag Hnofault Huser Hsession Hfk)
      as (w2 & Hsave & Hstored).
    exists w2. split; [|done].
    unfold WhatsAppAgent.finalizeResponse. unfold_monad.
    change (Types.context (apologized t state)) with (Types.context state).
    by rewrite Hsave.
Qed.

Lemma C8_throwing_tool_witness :
  ∃ final w2,
    WhatsAppAgent.run quietEnv brokenRegistry 3 selectedCalculator anaWorld
    = (Ok (Some final), w2) ∧
    Types.current_node final = Some WhatsAppAgent.END ∧
    (Types.assistant, WhatsAppAgent.toolApology)
      ∈ (λ m, (Types.role m, Types.content m)) <$> Types.messages final.
Proof.
  refine (proj1 (proj2 (C8_throwing_tool_contained quietEnv brokenRegistry brokenCalculator
                          selectedCalculator anaWorld eq_refl _)) eq_refl).
  intros input w. by eexists _, _.
Defined.


(** ** The same scenarios through [processTextMessage] *)

(** The table of [processMessageWithLogic] has no mapping for the memory
    tool: a text that [analyzeIntent] routes to it goes to the generation
    path there. *)
Lemma logicPatterns_tools :
  (WhatsAppAgent.logicPatterns).*1
  = ["get_current_time"; "web_search"; "calculator"; "courtesy_response"].
Proof. reflexivity. Qed.

(** Ana sends [calcula 2+2*3]: the answer is returned, the state with both
    turns is stored, and the log holds the incoming and the outgoing row. *)
Lemma calculator_turn :
  let turn := WhatsAppAgent.processTextMessage quietEnv (Tools.AVAILABLE_TOOLS quietEnv)
                "573001112233" calcText (Some "wamid.C") Types.OUndefined anaWorld in
  turn.1 = Ok calcAnswer ∧
  (lastTurn <$> storedState turn.2 "uuid-0") = Some (Some (Types.assistant, calcAnswer)) ∧
  Db.m_content <$> Db.messages (db turn.2) = [calcText; calcAnswer].
Proof. vm_compute. done. Qed.

(** The provider delivers that message a second time: the turn still
    returns its answer, and the log holds one incoming row for the id. *)
Lemma redelivered_turn :
  let first := WhatsAppAgent.processTextMessage quietEnv (Tools.AVAILABLE_TOOLS quietEnv)
                 "573001112233" calcText (Some "wamid.C") Types.OUndefined anaWorld in
  let second := WhatsAppAgent.processTextMessage quietEnv (Tools.AVAILABLE_TOOLS quietEnv)
                  "573001112233" calcText (Some "wamid.C") Types.OUndefined first.2 in
  second.1 = Ok calcAnswer ∧ storedRows second.2 "wamid.C" = 1.
Proof. vm_compute. done. Qed.

(** With the broken calculator the turn returns the apology and stores it. *)
Lemma broken_tool_turn :
  let turn := WhatsAppAgent.processTextMessage quietEnv brokenRegistry
                "573001112233" calcText (Some "wamid.C") Types.OUndefined anaWorld in
  turn.1 = Ok WhatsAppAgent.toolApologyLogic ∧
  (lastTurn <$> storedState turn.2 "uuid-0")
  = Some (Some (Types.assistant, WhatsAppAgent.toolApologyLogic)).
Proof. vm_compute. done. Qed.

(** * Further properties *)

(** ** Webhook: validation and extraction *)

Section WebhookMore.
Import Js WebhookService WebhookSpec WebhookShape.
Variable coerceGtZero : value → bool.

Lemma get_str_is_object v p s : get v p = Ok (Str s) → ∃ fs, v = Obj fs.
Proof.
  destruct v; simpl; try done; try (case_decide; done). eauto.
Qed.

Lemma validateChange_wellFormed change :
  validateChange change = Ok None ↔ wellFormedChange change.
Proof.
  unfold validateChange, wellFormedChange. split.
  - destruct (get change "field") as [f|e] eqn:Hf; simpl; [|done].
    intros H. exists f. split; [done|]. intros Hmsg. rewrite Hmsg in H. simpl in H.
    destruct (get change "value") as [v|e] eqn:Hv; simpl in H; [|done].
    destruct (truthy v); simpl in H; [|done].
    destruct (get v "messaging_product") as [mp|e] eqn:Hmp; simpl in H; [|done].
    destruct (truthy mp); simpl in H; [|done].
    destruct (isStr mp "whatsapp") eqn:Hw; simpl in H; [|done].
    apply isStr_true in Hw as ->. eauto.
  - intros (f & -> & Hf). simpl.
    destruct (isStr f "messages") eqn:Hmsg; simpl; [|done].
    destruct (Hf eq_refl) as (v & -> & Hmp). simpl.
    destruct (get_str_is_object _ _ _ Hmp) as [fs ->]. simpl in *.
    by injection Hmp as ->.
Qed.

Lemma validateEntry_wellFormed entry :
  validateEntry entry = Ok None ↔ wellFormedEntry entry.
Proof.
  unfold validateEntry, wellFormedEntry. split.
  - destruct (get entry "id") as [i|e] eqn:Hi; simpl; [|done].
    destruct (truthy i) eqn:Hti; simpl; [|done].
    destruct (get entry "changes") as [cv|e] eqn:Hc; simpl; [|done].
    destruct cv as [| | | | |l|]; simpl; try done;
      try (match goal with |- context [negb ?b] => destruct b; simpl; done end).
    intros H. exists i, l. repeat split; try done.
    apply Forall_forall. intros c Hin. apply validateChange_wellFormed.
    by eapply forOf_none_inv.
  - intros (i & l & -> & Hti & -> & Hall). simpl. rewrite Hti. simpl.
    apply forOf_all_none. intros c Hin. apply validateChange_wellFormed.
    by eapply Forall_forall in Hall.
Qed.

Lemma validateWebhookPayload_shape payload v :
  validateWebhookPayload payload = Ok v → v = valid ∨ ∃ msg, v = invalid msg.
Proof.
  unfold validateWebhookPayload, E.catch.
  match goal with |- match ?b with _ => _ end = _ → _ => destruct b as [v'|e] eqn:Hbody end;
    [|intros [= <-]; eauto].
  intros [= <-].
  destruct payload as [| |b|n|s|l|fs]; simpl in Hbody;
    try (injection Hbody as <-; eauto; fail).
  - destruct b; simpl in Hbody; injection Hbody as <-; eauto.
  - destruct (n =? 0)%Z; simpl in Hbody; injection Hbody as <-; eauto.
  - destruct (bool_decide (s = EmptyString)); simpl in Hbody; injection Hbody as <-; eauto.
  - destruct (isStr (assoc "object" fs) "whatsapp_business_account");
      simpl in Hbody; [|injection Hbody as <-; eauto].
    destruct (assoc "entry" fs) as [| | | | |[|e l]|]; cbn -[forOf] in Hbody;
      try (injection Hbody as <-; eauto; fail).
    destruct (forOf validateEntry (e :: l)) as [[v''|]|err] eqn:Hfor; simpl in Hbody;
      [|injection Hbody as <-; eauto|done].
    injection Hbody as <-.
    apply forOf_some_inv in Hfor as (x & _ & Hx).
    right. revert Hx. clear. unfold validateEntry.
    destruct (get x "id") as [i|e]; simpl; [|done].
    destruct (truthy i); simpl; [|intros [= <-]; eauto].
    destruct (get x "changes") as [cv|e]; simpl; [|done].
    destruct (negb (truthy cv) || negb (isArray cv)); [intros [= <-]; eauto|].
    destruct (iterate cv) as [l|e]; simpl; [|done].
    intros H. apply forOf_some_inv in H as (c & _ & Hc). revert Hc.
    unfold validateChange.
    destruct (get c "field") as [f|e]; simpl; [|done].
    destruct (isStr f "messages"); simpl; [|done].
    destruct (get c "value") as [cv'|e]; simpl; [|done].
    destruct (truthy cv'); simpl; [|intros [= <-]; eauto].
    destruct (get cv' "messaging_product") as [mp|e]; simpl; [|done].
    destruct (negb (truthy mp) || negb (isStr mp "whatsapp")); [intros [= <-]; eauto|done].
Qed.

Lemma validateWebhookPayload_wellFormed payload :
  validateWebhookPayload payload = Ok valid ↔ wellFormedPayload payload.
Proof.
  split.
  - intros H. unfold wellFormedPayload.
    unfold validateWebhookPayload in H.
    destruct payload as [| |b|n|s|l|fs]; simpl in H; try done.
    + destruct b; simpl in H; done.
    + destruct (n =? 0)%Z; simpl in H; done.
    + destruct (bool_decide (s = EmptyString)); simpl in H; done.
    + destruct (isStr (assoc "object" fs) "whatsapp_business_account") eqn:Htag;
        simpl in H; [|done].
      apply isStr_true in Htag.
      destruct (assoc "entry" fs) as [| | | | |[|e l]|] eqn:Hentry; cbn -[forOf] in H;
        try done.
      split; [simpl; by rewrite Htag|]. exists e, l. split; [simpl; by rewrite Hentry|].
      destruct (forOf validateEntry (e :: l)) as [[v'|]|err] eqn:Hfor; simpl in H;
        [|clear H|done].
      * injection H as ->. apply forOf_some_inv in Hfor as (x & _ & Hx).
        by apply validateEntry_result in Hx.
      * apply Forall_forall. intros x Hx. apply validateEntry_wellFormed.
        by eapply forOf_none_inv.
  - intros (Htag & e & l & Hentry & Hall).
    destruct (get_str_is_object _ _ _ Htag) as [fs ->]. simpl in *.
    injection Htag as Htag. injection Hentry as Hentry.
    unfold validateWebhookPayload. simpl. rewrite Htag. simpl. rewrite Hentry.
    cbn -[forOf]. rewrite forOf_all_none; [done|].
    intros x Hx. apply validateEntry_wellFormed. by eapply Forall_forall in Hall.
Qed.

End WebhookMore.

(** X1. [validateWebhookPayload] accepts a payload exactly when it carries the
    tag [whatsapp_business_account] and a non-empty array of entries, each
    with a truthy id and an array of changes whose [messages] changes have a
    value with the product tag [whatsapp]; every other payload, whatever its
    shape, gets [isValid = false] with a diagnostic. *)
Theorem X1_validation_characterised (payload : Js.value) :
  (WebhookShape.wellFormedPayload payload ↔
   WebhookService.validateWebhookPayload payload = Ok WebhookService.valid) ∧
  (WebhookService.validateWebhookPayload payload = Ok WebhookService.valid ∨
   ∃ diagnostic,
     WebhookService.validateWebhookPayload payload
     = Ok (WebhookService.invalid diagnostic)).
Proof.
  split.
  - symmetry. apply validateWebhookPayload_wellFormed.
  - destruct (validateWebhookPayload_total payload) as [v Hv].
    destruct (validateWebhookPayload_shape payload v Hv) as [->|[msg ->]]; eauto.
Qed.

Section Extraction.
Import Js WebhookService WebhookSpec WebhookShape.
Variable coerceGtZero : value → bool.

Lemma supported_event ty :
  existsb (isStr (Str ty)) supportedTypes = true →
  ty ∈ supportedTypes ∧
  (if isStr (Str ty) "text" then EvText
   else if isStr (Str ty) "image" then EvImage
   else if isStr (Str ty) "video" then EvVideo
   else if isStr (Str ty) "audio" then EvAudio
   else if isStr (Str ty) "document" then EvDocument
   else if isStr (Str ty) "location" then EvLocation
   else if isStr (Str ty) "contact" then EvContact
   else EvText) = eventOf ty.
Proof.
  intros H. split.
  - apply existsb_exists in H as (x & Hx & Hty). apply isStr_true in Hty as [= ->].
    by apply list_elem_of_In.
  - unfold eventOf. simpl in *. repeat case_bool_decide; try done.
Qed.

(** What [processIncomingMessage] hands on. *)
Lemma processIncomingMessage_some m r :
  processIncomingMessage m = Ok (Some r) →
  ∃ ty, processable m ty ∧ r = handedOn m ty.
Proof.
  unfold processIncomingMessage, determineEventType, isProcessableMessage,
    shouldAutoRespond, E.catch.
  destruct m as [| |b|n|s|l|fs]; cbn -[existsb]; try done;
    try (repeat case_decide; simpl; done).
  destruct (truthy (assoc "from" fs)) eqn:Hfrom; cbn -[existsb]; [|done].
  destruct (assoc "type" fs) as [| | | |ty| |] eqn:Hty; cbn -[existsb]; try done.
  destruct (existsb (isStr (Str ty)) supportedTypes) eqn:Hsup; [|done].
  destruct (supported_event ty Hsup) as [Hin Hev].
  cbn [negb]. cbv iota.
  destruct (bool_decide (ty = "text")) eqn:Htext.
  - apply bool_decide_eq_true in Htext as ->.
    destruct (assoc "text" fs) as [| |b|n|s|l|tfs] eqn:Htxt; simpl; try done;
      try (repeat case_decide; simpl; done).
    destruct (assoc "body" tfs) as [| | | |body| |] eqn:Hbody; simpl; try done.
    destruct (bool_decide (JsString.trim body = EmptyString)) eqn:Hblank; simpl; [done|].
    apply bool_decide_eq_false in Hblank.
    intros [= Hr]. destruct Hr. exists "text". split; [|reflexivity].
    unfold processable. simpl. rewrite Hty, Htxt. repeat split; eauto.
    intros _. exists (Obj tfs), body. simpl. rewrite Hbody.
    split; [reflexivity|]. split; [reflexivity|exact Hblank].
  - simpl. destruct (bool_decide (ty = "audio")) eqn:Haudio; simpl;
      intros Heq; exists ty; (split;
        [unfold processable; simpl; rewrite Hty; repeat split; eauto; intros ->; done
        |unfold handedOn; rewrite <- Hev; simpl; rewrite Htext, Haudio; simpl;
         congruence]).
Qed.

Lemma processChange_some change r :
  processChange coerceGtZero change = Ok (Some r) →
  ∃ m, m ∈ changeMessages change ∧ processIncomingMessage m = Ok (Some r).
Proof.
  unfold processChange, changeMessages.
  destruct (get change "field") as [f|e]; simpl; [|done].
  destruct (isStr f "messages"); simpl; [|done].
  destruct (get change "value") as [v|e]; simpl; [|done].
  destruct (get v "messages") as [ms|e]; simpl; [|done].
  destruct (get v "statuses") as [st|e]; simpl; [|done].
  destruct (truthy ms); [|done].
  destruct (get ms "length") as [len|e]; simpl; [|done].
  destruct (gtZero coerceGtZero len); [|done].
  destruct ms as [| | | |s|l|fs]; simpl; try done.
  - intros H. apply forOf_some_inv in H as (x & Hx & Hr).
    apply elem_of_chars in Hx as [c ->].
    by apply processIncomingMessage_not_object in Hr.
  - intros H. by apply forOf_some_inv in H.
Qed.

Lemma processWebhookEntry_some entry r :
  processWebhookEntry coerceGtZero entry = Ok (Some r) →
  ∃ m, m ∈ entryMessages entry ∧ processIncomingMessage m = Ok (Some r).
Proof.
  unfold processWebhookEntry, E.catch, entryMessages.
  destruct (E.bind (get entry "changes") _) as [[r'|]|e] eqn:Hbody.
  - intros [= ->].
    destruct (get entry "changes") as [cv|e]; simpl in *; [|done].
    destruct cv as [| | | |s|l|fs]; simpl in *; try done.
    + apply forOf_some_inv in Hbody as (x & Hx & Hr).
      apply elem_of_chars in Hx as [c ->]. unfold processChange in Hr. simpl in Hr.
      repeat case_decide; done.
    + apply forOf_some_inv in Hbody as (c & Hc & Hr).
      apply processChange_some in Hr as (m & Hm & Hr).
      exists m. split; [|done].
      apply list_elem_of_In, in_flat_map. exists c. split; by apply list_elem_of_In.
  - done.
  - destruct (get entry "id"); simpl; done.
Qed.

Lemma processWebhookPayload_some payload r m :
  processWebhookPayload coerceGtZero payload = Ok r →
  message r = Some m →
  m ∈ payloadMessages payload ∧ processIncomingMessage m = Ok (Some r).
Proof.
  unfold processWebhookPayload, E.catch.
  destruct (validateWebhookPayload_total payload) as [v Hv]. rewrite Hv. simpl.
  destruct (isValid v) eqn:Hvalid; simpl; [|by intros [= <-]].
  destruct (validateWebhookPayload_valid payload v Hv Hvalid) as (l & Hentry & _).
  rewrite Hentry. simpl.
  destruct (forOf (processWebhookEntry coerceGtZero) l) as [[r'|]|e] eqn:Hfor; simpl.
  - intros [= ->] Hm.
    apply forOf_some_inv in Hfor as (entry & Hin & Hr).
    apply processWebhookEntry_some in Hr as (m' & Hm' & Hr).
    destruct (processIncomingMessage_some m' r Hr) as (ty & _ & ->).
    simpl in Hm. injection Hm as ->. split; [|done].
    unfold payloadMessages. rewrite Hentry. simpl.
    apply list_elem_of_In, in_flat_map. exists entry. split; by apply list_elem_of_In.
  - by intros [= <-].
  - destruct (stringifyForLog payload); simpl; [by intros [= <-]|done].
Qed.

End Extraction.

(** X2. When [processWebhookPayload] returns a message, the message is one of
    those the payload carries, it has a sender and a supported type, a text
    message has a body that is not blank, the event type is the type of the
    message, and [shouldRespond] is true exactly for text and audio. *)
Theorem X2_extracted_message_processable (coerceGtZero : Js.value → bool)
    (payload : Js.value) (result : WebhookService.WebhookProcessingResult)
    (m : Js.value) :
  WebhookService.processWebhookPayload coerceGtZero payload = Ok result →
  WebhookService.message result = Some m →
  m ∈ WebhookSpec.payloadMessages payload ∧
  ∃ ty, WebhookShape.processable m ty ∧ result = WebhookShape.handedOn m ty.
Proof.
  intros Hres Hm.
  destruct (processWebhookPayload_some coerceGtZero payload result m Hres Hm) as [Hin Hr].
  split; [done|]. by apply processIncomingMessage_some.
Qed.

Lemma X2_extracted_message_witness :
  ∃ m ty,
    m ∈ WebhookSpec.payloadMessages WebhookShape.helloDelivery ∧
    WebhookShape.processable m ty ∧
    WebhookService.processWebhookPayload (λ _, false) WebhookShape.helloDelivery
    = Ok (WebhookShape.handedOn m ty).
Proof.
  destruct (WebhookService.processWebhookPayload (λ _, false) WebhookShape.helloDelivery)
    as [r|e] eqn:Hr; [|vm_compute in Hr; discriminate].
  destruct (WebhookService.message r) as [m|] eqn:Hm;
    [|vm_compute in Hr; injection Hr as <-; discriminate].
  destruct (X2_extracted_message_processable (λ _, false) WebhookShape.helloDelivery r m Hr Hm)
    as (Hin & ty & Hproc & ->).
  exists m, ty. done.
Defined.

Section PostRoute.
Import Js WebhookService WebhookSpec WebhookShape.
Variable coerceGtZero : value → bool.

Lemma forOf_total {A B} (f : A → Res (option B)) l :
  (∀ x, x ∈ l → ∃ o, f x = Ok o) → ∃ o, forOf f l = Ok o.
Proof.
  induction l as [|x l IH]; intros H; [by eexists|]. simpl.
  destruct (H x) as [[b|] ->]; [left| |]; simpl; [by eexists|].
  apply IH. intros y Hy. apply H. by right.
Qed.

Lemma processWebhookEntry_total entry :
  nullish entry = false → ∃ o, processWebhookEntry coerceGtZero entry = Ok o.
Proof.
  intros Hnn. unfold processWebhookEntry, E.catch.
  destruct (E.bind (get entry "changes") _) as [o|e]; [by eexists|].
  destruct entry; simpl in *; try done; by eexists.
Qed.

(** A payload that passes the validation is accepted. *)
Lemma processWebhookPayload_valid payload :
  validateWebhookPayload payload = Ok valid →
  ∃ r, processWebhookPayload coerceGtZero payload = Ok r ∧ success r = true.
Proof.
  intros Hv.
  destruct (validateWebhookPayload_valid payload valid Hv eq_refl) as (l & Hentry & Hnn).
  unfold processWebhookPayload, E.catch. rewrite Hv. simpl. rewrite Hentry. simpl.
  destruct (forOf_total (processWebhookEntry coerceGtZero) l) as [o Ho].
  { intros x Hx. apply processWebhookEntry_total. by eapply Forall_forall in Hnn. }
  rewrite Ho. simpl. destruct o as [r|]; [|by eexists].
  exists r. split; [done|].
  apply forOf_some_inv in Ho as (entry & _ & Hr).
  apply processWebhookEntry_some in Hr as (m & _ & Hr).
  by destruct (processIncomingMessage_some m r Hr) as (ty & _ & ->).
Qed.

Lemma processable_object m ty : processable m ty → ∃ fs, m = Obj fs.
Proof. intros (_ & Hty & _). by eapply get_str_is_object. Qed.

Lemma get_total v p : nullish v = false → ∃ x, get v p = Ok x.
Proof. destruct v; simpl; try done; intros _; try case_decide; by eexists. Qed.

Lemma getOpt_total v p : ∃ x, getOpt v p = Ok x.
Proof.
  unfold getOpt. destruct (nullish v) eqn:Hn; [by eexists|]. by apply get_total.
Qed.

(** What the handler reads before it looks at the result cannot throw for a
    body that is an object, and neither can the fields it logs. *)
Lemma postWebhook_unfold payload r :
  nullish payload = false →
  processWebhookPayload coerceGtZero payload = Ok r →
  (∀ m, message r = Some m → ∃ fs, m = Obj fs) →
  WebhookPost.postWebhook coerceGtZero payload
  = if negb (success r)
    then ({| WebhookPost.status := 400; WebhookPost.body := WebhookPost.PostError (error r) |},
          None)
    else ({| WebhookPost.status := 200; WebhookPost.body := WebhookPost.PostOk |},
          match shouldRespond r with Some true => message r | _ => None end).
Proof.
  intros Hnn Hr Hobj. unfold WebhookPost.postWebhook.
  destruct (get_total payload "object" Hnn) as [x1 ->].
  destruct (get_total payload "entry" Hnn) as [x2 ->]. cbn [E.bind].
  destruct (getOpt_total x2 "length") as [x3 ->]. cbn [E.bind].
  rewrite Hr. cbn [E.bind].
  destruct (getOpt_total (default Undefined (message r)) "type") as [x4 ->].
  destruct (getOpt_total (default Undefined (message r)) "id") as [x5 ->].
  cbn [E.bind]. destruct (success r); cbn [negb]; [|done].
  destruct (message r) as [m|]; [|by destruct (shouldRespond r) as [[]|]].
  destruct (Hobj m eq_refl) as [fs ->].
  by destruct (shouldRespond r) as [[]|].
Qed.

Lemma message_object payload r m :
  processWebhookPayload coerceGtZero payload = Ok r →
  message r = Some m → ∃ fs, m = Obj fs.
Proof.
  intros Hr Hm.
  destruct (processWebhookPayload_some coerceGtZero _ r m Hr Hm) as [_ Hinc].
  destruct (processIncomingMessage_some m r Hinc) as (ty & Hproc & _).
  by eapply processable_object.
Qed.

Lemma postWebhook_accepted payload r :
  nullish payload = false →
  processWebhookPayload coerceGtZero payload = Ok r →
  success r = true →
  WebhookPost.postWebhook coerceGtZero payload
  = ({| WebhookPost.status := 200; WebhookPost.body := WebhookPost.PostOk |},
     match shouldRespond r with Some true => message r | _ => None end).
Proof.
  intros Hnn Hr Hok.
  rewrite (postWebhook_unfold payload r Hnn Hr); [by rewrite Hok|].
  intros m. by apply message_object with payload.
Qed.

Lemma postWebhook_rejected payload r :
  nullish payload = false →
  processWebhookPayload coerceGtZero payload = Ok r →
  success r = false →
  WebhookPost.postWebhook coerceGtZero payload
  = ({| WebhookPost.status := 400; WebhookPost.body := WebhookPost.PostError (error r) |},
     None).
Proof.
  intros Hnn Hr Hok.
  rewrite (postWebhook_unfold payload r Hnn Hr); [by rewrite Hok|].
  intros m. by apply message_object with payload.
Qed.

End PostRoute.

(** X3. The POST route answers 200 with [{status: 'ok'}] exactly for the
    payloads that pass the validation, 400 with the diagnostic for every other
    body that is not [null] or [undefined], and 500 for those two. It hands a
    message to the agent only on a 200, and then the message is a text or
    audio message the payload carries, with a sender. *)
Theorem X3_post_route_status (coerceGtZero : Js.value → bool) (payload : Js.value) :
  let answer := WebhookPost.postWebhook coerceGtZero payload in
  (Js.nullish payload = true →
   WebhookPost.status answer.1 = 500%Z ∧ answer.2 = None) ∧
  (WebhookShape.wellFormedPayload payload →
   answer.1 = {| WebhookPost.status := 200; WebhookPost.body := WebhookPost.PostOk |} ∧
   ∀ m, answer.2 = Some m →
        m ∈ WebhookSpec.payloadMessages payload ∧
        ∃ ty, WebhookShape.processable m ty ∧ (ty = "text" ∨ ty = "audio")) ∧
  (Js.nullish payload = false → ¬ WebhookShape.wellFormedPayload payload →
   answer.2 = None ∧
   ∃ diagnostic,
     answer.1 = {| WebhookPost.status := 400;
                   WebhookPost.body := WebhookPost.PostError (Some diagnostic) |}).
Proof.
  intros answer. subst answer. split; [|split].
  - intros Hnull. by destruct payload.
  - intros Hwf.
    assert (Js.nullish payload = false) as Hnn.
    { destruct Hwf as [Htag _]. by destruct payload. }
    apply validateWebhookPayload_wellFormed in Hwf.
    destruct (processWebhookPayload_valid coerceGtZero payload Hwf) as (r & Hr & Hok).
    rewrite (postWebhook_accepted coerceGtZero payload r Hnn Hr Hok). simpl.
    split; [done|]. intros m Hm.
    destruct (WebhookService.shouldRespond r) as [[]|] eqn:Hresp; try done.
    destruct (processWebhookPayload_some coerceGtZero payload r m Hr Hm) as [Hin Hinc].
    split; [done|].
    destruct (processIncomingMessage_some m r Hinc) as (ty & Hproc & ->).
    exists ty. split; [done|]. simpl in Hresp. injection Hresp as Hresp.
    apply orb_true_iff in Hresp as [H|H]; apply bool_decide_eq_true in H; auto.
  - intros Hnn Hbad.
    destruct (validateWebhookPayload_total payload) as [v Hv].
    destruct (validateWebhookPayload_shape payload v Hv) as [->|[msg ->]].
    { exfalso. by apply Hbad, validateWebhookPayload_wellFormed. }
    pose proof (processWebhookPayload_invalid coerceGtZero payload msg Hv) as Hr.
    rewrite (postWebhook_rejected coerceGtZero payload _ Hnn Hr eq_refl). simpl. eauto.
Qed.

(** ** The store *)

Section StoreMore.
Variable env : Env.

Lemma missingFields_test conv ty content :
  bool_decide (conv = EmptyString) || bool_decide (ty = EmptyString)
  || bool_decide (content = EmptyString) = true ↔ missingFields conv ty content.
Proof.
  unfold missingFields. rewrite !orb_true_iff, !bool_decide_eq_true. tauto.
Qed.

Lemma missingFields_test_false conv ty content :
  ¬ missingFields conv ty content →
  bool_decide (conv = EmptyString) || bool_decide (ty = EmptyString)
  || bool_decide (content = EmptyString) = false.
Proof.
  intros H. apply not_true_is_false. by rewrite missingFields_test.
Qed.

Lemma storedRows_none w id :
  storedRows w id = 0 → existsb (Db.hasWhatsappId id) (Db.messages (db w)) = false.
Proof.
  unfold storedRows, Db.rowsWithWhatsappId.
  induction (Db.messages (db w)) as [|m l IH]; [done|]. simpl.
  unfold Db.hasWhatsappId at 1. case_bool_decide as Hm.
  - by rewrite filter_cons_True.
  - rewrite filter_cons_False by done. exact IH.
Qed.

Lemma trim_blank_userId userId :
  bool_decide (userId = EmptyString) || bool_decide (JsString.trim userId = EmptyString)
  = bool_decide (JsString.trim userId = EmptyString).
Proof.
  case_bool_decide as H1; [|done]. subst. by rewrite bool_decide_eq_true_2.
Qed.

End StoreMore.

(** X4. [MessageRepository.saveMessage] with an empty conversation id, message
    type or content throws its own error before any query and leaves the world
    as it was; with the three of them present it always reaches the pool. *)
Theorem X4_saveMessage_required_fields (env : Env) (w : World)
    (conversationId : string) (direction : Db.Direction) (messageType content : string)
    (whatsappMessageId : option string) (timestamp : option Z) :
  (missingFields conversationId messageType content →
   MessageRepository.saveMessage env conversationId direction messageType content
     whatsappMessageId timestamp w
   = (Throw (newError "Datos requeridos faltantes para guardar mensaje"), w)) ∧
  (¬ missingFields conversationId messageType content →
   ∃ k, trace (MessageRepository.saveMessage env conversationId direction messageType
                 content whatsappMessageId timestamp w).2
        = replicate (S k) EvQuery ++ trace w).
Proof.
  split.
  - intros Hmiss. apply missingFields_test in Hmiss.
    unfold MessageRepository.saveMessage. unfold_monad. by rewrite Hmiss.
  - intros Hok. apply missingFields_test_false in Hok.
    unfold MessageRepository.saveMessage,
      ConversationRepository.updateConversationTimestamp, UserRepository.first.
    unfold_monad. rewrite Hok.
    match goal with
    | |- context [Client.executeQuery env ?q w] =>
        destruct (executeQuery_cases env q w) as [(e & _ & ->)|[_ ->]];
        [by exists 0|destruct (q (db w)) as [[rows|e] d1]; simpl; [|by exists 0]]
    end.
    destruct rows as [|r rows]; [by exists 0|].
    match goal with
    | |- context [Client.executeQuery env ?q ?w1] =>
        destruct (executeQuery_cases env q w1) as [(e & _ & ->)|[_ ->]]
    end; by exists 1.
Qed.

(** X5. [MessageRepository.saveMessage] is not atomic: when the insert is
    accepted and the pool fails the update of the conversation timestamp that
    follows, the caller gets that failure although the row is stored. *)
Theorem X5_saveMessage_not_atomic (env : Env) (w : World) (e : Exn)
    (conversationId : string) (direction : Db.Direction) (messageType content : string)
    (whatsappMessageId : string) (timestamp : option Z) :
  ¬ missingFields conversationId messageType content →
  Db.conversationExists (db w) conversationId = true →
  storedRows w whatsappMessageId = 0 →
  poolFault env (length (trace w)) = None →
  poolFault env (S (length (trace w))) = Some e →
  ∃ w', MessageRepository.saveMessage env conversationId direction messageType content
          (Some whatsappMessageId) timestamp w = (Throw e, w') ∧
        storedRows w' whatsappMessageId = 1.
Proof.
  intros Hok Hconv Hfresh Hfirst Hsecond.
  apply missingFields_test_false in Hok. apply storedRows_none in Hfresh.
  unfold MessageRepository.saveMessage,
    ConversationRepository.updateConversationTimestamp, UserRepository.first.
  unfold_monad. rewrite Hok.
  unfold Client.executeQuery at 1. rewrite Hfirst.
  unfold Db.insertMessage. rewrite Hfresh, Hconv. simpl.
  unfold Client.executeQuery. simpl. rewrite Hsecond.
  eexists. split; [reflexivity|].
  unfold storedRows, Db.rowsWithWhatsappId. simpl.
  rewrite filter_app, (filter_whatsapp_none _ _ Hfresh). simpl.
  by rewrite filter_cons_True.
Qed.

Lemma X5_saveMessage_not_atomic_witness :
  ∃ w', MessageRepository.saveMessage (failingAt 1) "uuid-1" Db.incoming "text" "hola"
          (Some "wamid.X") None anaWorld
        = (Throw (PgError "57P01" "terminating connection"), w') ∧
        storedRows w' "wamid.X" = 1.
Proof.
  apply (X5_saveMessage_not_atomic (failingAt 1) anaWorld).
  - unfold missingFields. intros [H|[H|H]]; discriminate H.
  - reflexivity.
  - reflexivity.
  - reflexivity.
  - reflexivity.
Defined.

(** X6. [SessionRepository.saveAgentState] refuses a blank user id and a state
    with a blank session id with a [ValidationError], before any query. With
    the store available the error passes through [AgentMemory.saveAgentState]
    unchanged, and the node [finalizeResponse] answers it by naming the
    [error] node. *)
Theorem X6_blank_ids_refused (env : Env) (w : World) (userId : string)
    (agentState : Types.AgentState) :
  JsString.trim userId = EmptyString ∨
  JsString.trim (Types.session_id agentState) = EmptyString →
  ∃ msg,
    SessionRepository.saveAgentState env userId agentState w
    = (Throw (newValidationError msg), w) ∧
    (isDatabaseAvailable w = true →
     AgentMemory.saveAgentState env userId agentState w
     = (Throw (newValidationError msg), w) ∧
     (userId = Types.user_id (Types.context agentState) →
      WhatsAppAgent.finalizeResponse env agentState w
      = (Ok (Types.withNode agentState "error"), w))).
Proof.
  intros Hblank.
  assert (∃ msg, SessionRepository.saveAgentState env userId agentState w
                 = (Throw (newValidationError msg), w)) as [msg Hsave].
  { unfold SessionRepository.saveAgentState, SessionRepository.validateAgentState.
    rewrite trim_blank_userId. unfold_monad.
    case_bool_decide as Huser; [by eexists|].
    destruct Hblank as [?|Hsession]; [done|].
    rewrite bool_decide_eq_true_2 by done. by eexists. }
  exists msg. split; [done|]. intros Hflag.
  assert (AgentMemory.saveAgentState env userId agentState w
          = (Throw (newValidationError msg), w)) as Hmem.
  { unfold AgentMemory.saveAgentState. unfold_monad. rewrite Hflag. simpl.
    by rewrite Hsave. }
  split; [done|]. intros ->.
  unfold WhatsAppAgent.finalizeResponse. unfold_monad. by rewrite Hmem.
Qed.

Lemma X6_blank_ids_witness :
  ∃ msg,
    SessionRepository.saveAgentState quietEnv "  " (calcState 2 "uuid-1" "  ") anaWorld
    = (Throw (newValidationError msg), anaWorld) ∧
    (isDatabaseAvailable anaWorld = true →
     AgentMemory.saveAgentState quietEnv "  " (calcState 2 "uuid-1" "  ") anaWorld
     = (Throw (newValidationError msg), anaWorld) ∧
     ("  " = Types.user_id (Types.context (calcState 2 "uuid-1" "  ")) →
      WhatsAppAgent.finalizeResponse quietEnv (calcState 2 "uuid-1" "  ") anaWorld
      = (Ok (Types.withNode (calcState 2 "uuid-1" "  ") "error"), anaWorld))).
Proof.
  apply (X6_blank_ids_refused quietEnv anaWorld "  " (calcState 2 "uuid-1" "  ")).
  left. reflexivity.
Defined.

Section Lookup.
Variable env : Env.

(** The row a successful [MessageRepository.saveMessage] stored. *)
Lemma saveMessage_row conv dir ty content id ts w mid w' :
  MessageRepository.saveMessage env conv dir ty content (Some id) ts w = (Ok mid, w') →
  Db.rowsWithWhatsappId (db w') id
  = [{| Db.m_id := mid; Db.m_conversation_id := conv; Db.m_direction := dir;
        Db.m_message_type := ty; Db.m_content := content;
        Db.m_whatsapp_message_id := Some id;
        Db.m_timestamp := default (now w) ts |}].
Proof.
  unfold MessageRepository.saveMessage,
    ConversationRepository.updateConversationTimestamp, UserRepository.first.
  unfold_monad.
  destruct (bool_decide (conv = EmptyString) || bool_decide (ty = EmptyString)
            || bool_decide (content = EmptyString)); [done|].
  destruct (executeQuery_cases env
              (Db.insertMessage conv dir ty content (Some id) (default (now w) ts)) w)
    as [(e & _ & ->)|[_ ->]]; [done|].
  unfold Db.insertMessage.
  destruct (existsb (Db.hasWhatsappId id) (Db.messages (db w))) eqn:Hfresh; [done|].
  destruct (negb (Db.conversationExists (db w) conv)); [done|]. simpl.
  match goal with
  | |- context [Client.executeQuery env ?q ?w1] =>
      destruct (executeQuery_cases env q w1) as [(e & _ & ->)|[_ ->]]
  end; [done|].
  simpl. intros [= <- <-]. unfold Db.rowsWithWhatsappId. simpl.
  rewrite filter_app, (filter_whatsapp_none _ _ Hfresh). simpl.
  by rewrite filter_cons_True.
Qed.

Lemma getMessageByWhatsAppId_run id w :
  poolFault env (length (trace w)) = None →
  RepositoryMore.getMessageByWhatsAppId env id w
  = (Ok (head (Db.rowsWithWhatsappId (db w) id)), logged EvQuery w).
Proof.
  intros Hpool. unfold RepositoryMore.getMessageByWhatsAppId. unfold_monad.
  destruct (executeQuery_cases env (DbMore.selectMessageByWhatsAppId id) w)
    as [(e & He & _)|[_ ->]]; [congruence|].
  simpl. unfold logged. by destruct w.
Qed.

End Lookup.

(** X7. A message stored by [MessageRepository.saveMessage] under a provider
    id is the one [getMessageByWhatsAppId] finds for that id, with the fields
    it was saved with; the timestamp is the one given, or the time of the call.
    A provider id that was never stored gives [null]. *)
Theorem X7_saved_message_found (env : Env) (w w1 : World) (conversationId : string)
    (direction : Db.Direction) (messageType content whatsappMessageId : string)
    (timestamp : option Z) (messageId : string) :
  MessageRepository.saveMessage env conversationId direction messageType content
    (Some whatsappMessageId) timestamp w = (Ok messageId, w1) →
  poolFault env (length (trace w1)) = None →
  RepositoryMore.getMessageByWhatsAppId env whatsappMessageId w1
  = (Ok (Some {| Db.m_id := messageId; Db.m_conversation_id := conversationId;
                 Db.m_direction := direction; Db.m_message_type := messageType;
                 Db.m_content := content;
                 Db.m_whatsapp_message_id := Some whatsappMessageId;
                 Db.m_timestamp := default (now w) timestamp |}),
     logged EvQuery w1) ∧
  ∀ other, storedRows w1 other = 0 →
           RepositoryMore.getMessageByWhatsAppId env other w1 = (Ok None, logged EvQuery w1).
Proof.
  intros Hsave Hpool. split.
  - rewrite getMessageByWhatsAppId_run by done.
    by rewrite (saveMessage_row env _ _ _ _ _ _ _ _ _ Hsave).
  - intros other Hnone. rewrite getMessageByWhatsAppId_run by done.
    unfold storedRows in Hnone.
    by destruct (Db.rowsWithWhatsappId (db w1) other).
Qed.

Lemma X7_saved_message_witness :
  let w1 := (MessageRepository.saveMessage quietEnv "uuid-1" Db.incoming "text" "hola"
               (Some "wamid.X") None anaWorld).2 in
  RepositoryMore.getMessageByWhatsAppId quietEnv "wamid.X" w1
  = (Ok (Some {| Db.m_id := "uuid-2"; Db.m_conversation_id := "uuid-1";
                 Db.m_direction := Db.incoming; Db.m_message_type := "text";
                 Db.m_content := "hola"; Db.m_whatsapp_message_id := Some "wamid.X";
                 Db.m_timestamp := 2 |}),
     logged EvQuery w1) ∧
  ∀ other, storedRows w1 other = 0 →
           RepositoryMore.getMessageByWhatsAppId quietEnv other w1
           = (Ok None, logged EvQuery w1).
Proof.
  intros w1.
  apply (X7_saved_message_found quietEnv anaWorld w1 "uuid-1" Db.incoming "text" "hola"
           "wamid.X" None "uuid-2").
  - vm_compute. reflexivity.
  - reflexivity.
Defined.

Section Sessions.
Variable env : Env.

(** What a successful [SessionRepository.saveAgentState] did. *)
Lemma sessionSave_ok userId state w sid w1 :
  SessionRepository.saveAgentState env userId state w = (Ok sid, w1) →
  ∃ row, Db.sessions (db w1) = <[userId := row]> (Db.sessions (db w)) ∧
         Db.s_agent_state row = state ∧
         Db.s_expires_at row = Db.sessions (db w) !! userId ≫= Db.s_expires_at ∧
         now w1 = now w ∧ isDatabaseAvailable w1 = isDatabaseAvailable w.
Proof.
  unfold SessionRepository.saveAgentState, SessionRepository.validateAgentState,
    UserRepository.first.
  unfold_monad.
  destruct (bool_decide (userId = EmptyString)
            || bool_decide (JsString.trim userId = EmptyString)); [done|].
  destruct (bool_decide (JsString.trim (Types.session_id state) = EmptyString)); [done|].
  destruct (executeQuery_cases env (Db.upsertSession (now w) userId state) w)
    as [(e & _ & ->)|[_ ->]]; [done|].
  unfold Db.upsertSession.
  destruct (Db.sessions (db w) !! userId) as [s|] eqn:Hs; simpl.
  - intros [= <- <-]. simpl. eexists. split; [reflexivity|]. done.
  - destruct (negb (Db.userIdExists (db w) userId)); simpl; [done|].
    intros [= <- <-]. simpl. eexists. split; [reflexivity|]. done.
Qed.

Lemma loadAgentState_at userId w :
  isDatabaseAvailable w = true →
  poolFault env (length (trace w)) = None →
  AgentMemory.loadAgentState env userId w
  = (Ok (match Db.sessions (db w) !! userId with
         | Some s => if bool_decide (DbMore.expired (now w) s) then None
                     else Some (Db.s_agent_state s)
         | None => None
         end), logged EvQuery w).
Proof.
  intros Hflag Hpool.
  unfold AgentMemory.loadAgentState, SessionRepository.getAgentState. unfold_monad.
  rewrite Hflag. simpl.
  destruct (executeQuery_cases env (Db.selectAgentState (now w) userId) w)
    as [(e & He & _)|[_ ->]]; [congruence|].
  simpl. unfold logged. do 2 f_equal.
  destruct (Db.sessions (db w) !! userId) as [s|]; [|done].
  case_bool_decide as Hexp; unfold DbMore.expired in Hexp;
    destruct (Db.s_expires_at s) as [e|]; try done;
    destruct (Z.ltb_spec (now w) e); try done; lia.
Qed.

End Sessions.

(** X8. After [AgentMemory.saveAgentState] succeeded with the store available,
    the state is stored under the user, and [loadAgentState] gives it back,
    unless the session of the user carried an expiry that has passed: saving
    keeps the expiry, so the state just saved is not found. *)
Theorem X8_state_round_trip (env : Env) (w w1 : World) (userId : string)
    (agentState : Types.AgentState) :
  isDatabaseAvailable w = true →
  AgentMemory.saveAgentState env userId agentState w = (Ok (), w1) →
  poolFault env (length (trace w1)) = None →
  storedState w1 userId = Some agentState ∧
  AgentMemory.loadAgentState env userId w1
  = (Ok (if sessionExpired w userId then None else Some agentState), logged EvQuery w1).
Proof.
  intros Hflag Hsave Hpool.
  unfold AgentMemory.saveAgentState in Hsave. unfold_monad. rewrite Hflag in Hsave.
  simpl in Hsave.
  destruct (SessionRepository.saveAgentState env userId agentState w)
    as [[sid|e] w'] eqn:Hrepo; [|done].
  injection Hsave as <-.
  apply sessionSave_ok in Hrepo as (row & Hsessions & Hstate & Hexp & Hnow & Hflag').
  split.
  - unfold storedState. by rewrite Hsessions, lookup_insert_eq, <- Hstate.
  - rewrite loadAgentState_at by congruence.
    rewrite Hsessions, lookup_insert_eq, Hstate. f_equal. f_equal.
    unfold sessionExpired. rewrite Hnow.
    destruct (Db.sessions (db w) !! userId) as [s|]; simpl in *.
    + rewrite (bool_decide_ext (DbMore.expired (now w) row) (DbMore.expired (now w) s));
        [done|]. unfold DbMore.expired. by rewrite Hexp.
    + rewrite bool_decide_eq_false_2; [done|]. unfold DbMore.expired.
      rewrite Hexp. tauto.
Qed.

Lemma X8_state_round_trip_witness :
  let w1 := (AgentMemory.saveAgentState quietEnv "uuid-0" (calcState 2 "uuid-1" "uuid-0")
               staleWorld).2 in
  storedState w1 "uuid-0" = Some (calcState 2 "uuid-1" "uuid-0") ∧
  AgentMemory.loadAgentState quietEnv "uuid-0" w1
  = (Ok (if sessionExpired staleWorld "uuid-0" then None
         else Some (calcState 2 "uuid-1" "uuid-0")), logged EvQuery w1).
Proof.
  intros w1.
  apply (X8_state_round_trip quietEnv staleWorld w1 "uuid-0").
  - reflexivity.
  - vm_compute. reflexivity.
  - reflexivity.
Defined.

(** X9. [WhatsAppAgent.cleanupExpiredSessions] never throws and always reports
    0: without the store it does nothing, a failure of the pool is swallowed,
    and the DELETE has no RETURNING clause, so the count of the rows it
    returns is 0 even when sessions were deleted. When the statement runs, it
    removes exactly the sessions whose expiry has passed. *)
Theorem X9_cleanup_reports_nothing (env : Env) (w : World) :
  ∃ w', WhatsAppAgentMore.cleanupExpiredSessions env w = (Ok 0, w') ∧
        (isDatabaseAvailable w = false → w' = w) ∧
        (isDatabaseAvailable w = true → poolFault env (length (trace w)) = None →
         ∀ userId, Db.sessions (db w') !! userId
                   = if sessionExpired w userId then None
                     else Db.sessions (db w) !! userId).
Proof.
  unfold WhatsAppAgentMore.cleanupExpiredSessions, AgentMemoryMore.cleanupExpiredSessions,
    RepositoryMore.cleanupExpiredSessions.
  unfold_monad.
  destruct (isDatabaseAvailable w) eqn:Hflag; simpl.
  - destruct (executeQuery_cases env (DbMore.deleteExpiredSessions (now w)) w)
      as [(e & He & ->)|[He ->]]; simpl.
    + eexists. split; [reflexivity|]. split; [done|]. congruence.
    + eexists. split; [reflexivity|]. split; [done|]. intros _ _ userId. simpl.
      rewrite map_lookup_filter. unfold sessionExpired.
      destruct (Db.sessions (db w) !! userId) as [s|]; simpl; [|done].
      case_bool_decide as Hexp.
      * by rewrite option_guard_False by (simpl; tauto).
      * by rewrite option_guard_True.
  - exists w. done.
Qed.

(** X10. The row [UserRepository.upsertUser] returns is the one
    [getUserByWaId] finds for that WhatsApp id afterwards. It carries the id and
    the phone number given; a user that existed keeps its row id and its
    creation time; the rows of all other users are as they were. *)
Theorem X10_user_round_trip (env : Env) (w w1 : World) (waId phoneNumber : string)
    (profileName : Types.OptStr) (u : Db.User) :
  UserRepository.upsertUser env waId phoneNumber profileName w = (Ok u, w1) →
  poolFault env (length (trace w1)) = None →
  UserRepository.getUserByWaId env waId w1 = (Ok (Some u), logged EvQuery w1) ∧
  Db.u_wa_id u = waId ∧ Db.u_phone_number u = phoneNumber ∧
  (∀ old, Db.users (db w) !! waId = Some old →
          Db.u_id u = Db.u_id old ∧ Db.u_created_at u = Db.u_created_at old) ∧
  (∀ other, other ≠ waId → Db.users (db w1) !! other = Db.users (db w) !! other).
Proof.
  intros Hupsert Hpool.
  assert (Db.users (db w1) = <[waId := u]> (Db.users (db w)) ∧
          Db.u_wa_id u = waId ∧ Db.u_phone_number u = phoneNumber ∧
          (∀ old, Db.users (db w) !! waId = Some old →
                  Db.u_id u = Db.u_id old ∧ Db.u_created_at u = Db.u_created_at old))
    as (Husers & Hwa & Hphone & Hold).
  { revert Hupsert. unfold UserRepository.upsertUser, UserRepository.first. unfold_monad.
    destruct (executeQuery_cases env
                (Db.upsertUser (now w) waId phoneNumber (Types.toSqlParam profileName)) w)
      as [(e & _ & ->)|[_ ->]]; [done|].
    unfold Db.upsertUser. destruct (Db.users (db w) !! waId) as [old|]; simpl;
      intros [= <- <-]; simpl; repeat split; try done; congruence. }
  split; [|split; [done|split; [done|split; [done|]]]].
  - unfold UserRepository.getUserByWaId. unfold_monad.
    destruct (executeQuery_cases env (Db.selectUserByWaId waId) w1)
      as [(e & He & _)|[_ ->]]; [congruence|].
    simpl. by rewrite Husers, lookup_insert_eq.
  - intros other Hother. rewrite Husers. by rewrite lookup_insert_ne.
Qed.

Lemma X10_user_round_trip_witness :
  let r := UserRepository.upsertUser quietEnv "573001112233" "573001112233"
             (Types.OStr "Ana M.") anaWorld in
  ∃ u, r.1 = Ok u ∧
       UserRepository.getUserByWaId quietEnv "573001112233" r.2
       = (Ok (Some u), logged EvQuery r.2) ∧
       Db.u_id u = "uuid-0".
Proof.
  intros r.
  exists {| Db.u_id := "uuid-0"; Db.u_wa_id := "573001112233";
            Db.u_phone_number := "573001112233"; Db.u_profile_name := Some "Ana M.";
            Db.u_created_at := 1; Db.u_updated_at := 2 |}.
  split; [vm_compute; reflexivity|].
  destruct (X10_user_round_trip quietEnv anaWorld r.2 "573001112233" "573001112233"
              (Types.OStr "Ana M.")
              {| Db.u_id := "uuid-0"; Db.u_wa_id := "573001112233";
                 Db.u_phone_number := "573001112233"; Db.u_profile_name := Some "Ana M.";
                 Db.u_created_at := 1; Db.u_updated_at := 2 |}) as (Hget & _).
  - vm_compute. reflexivity.
  - reflexivity.
  - split; [exact Hget|reflexivity].
Defined.

Section Conversations.
Variable env : Env.

Lemma mostRecent_None l : Db.mostRecent l = None → l = [].
Proof.
  destruct l as [|c l]; [done|]. simpl.
  destruct (Db.mostRecent l) as [c'|]; [|done].
  by destruct (Db.c_updated_at c <? Db.c_updated_at c')%Z.
Qed.

(** What a successful [getOrCreateConversation] did: it found the latest
    conversation of the user, or there was none and it appended one. *)
Lemma getOrCreateConversation_ok userId title w c w1 :
  getOrCreateConversation env userId title w = (Ok c, w1) →
  ∃ row, Db.c_id row = c ∧ Db.c_user_id row = userId ∧
         Db.mostRecent (filter (λ c, Db.c_user_id c = userId) (Db.conversations (db w1)))
         = Some row ∧
         (Db.conversations (db w1) = Db.conversations (db w) ∨
          filter (λ c, Db.c_user_id c = userId) (Db.conversations (db w)) = [] ∧
          Db.conversations (db w1) = Db.conversations (db w) ++ [row]).
Proof.
  unfold getOrCreateConversation, ConversationRepository.getUserConversations,
    ConversationRepository.createConversation, UserRepository.first.
  unfold_monad.
  destruct (executeQuery_cases env (Db.selectLatestConversation userId) w)
    as [(e & _ & ->)|[_ ->]]; [done|].
  simpl.
  destruct (Db.mostRecent (filter (λ c, Db.c_user_id c = userId) (Db.conversations (db w))))
    as [c0|] eqn:Hlatest; simpl.
  - intros [= <- <-]. simpl. exists c0. split; [done|]. split; [|by auto].
    assert (c0 ∈ filter (λ c, Db.c_user_id c = userId) (Db.conversations (db w))) as Hin.
    { clear -Hlatest. revert c0 Hlatest.
      induction (filter _ _) as [|c l IH]; [done|]. simpl. intros c0.
      destruct (Db.mostRecent l) as [c'|].
      - destruct (Db.c_updated_at c <? Db.c_updated_at c')%Z; intros [= <-];
          [right; by apply IH|by left].
      - intros [= <-]. by left. }
    by apply list_elem_of_filter in Hin as [? _].
  - apply mostRecent_None in Hlatest.
    match goal with
    | |- context [Client.executeQuery env ?q ?w1] =>
        destruct (executeQuery_cases env q w1) as [(e & _ & ->)|[_ ->]]
    end; [done|].
    unfold Db.insertConversation. simpl.
    destruct (negb (Db.userIdExists (db w) userId)); simpl; [done|].
    intros [= <- <-]. simpl.
    exists {| Db.c_id := Db.gen_random_uuid (db w); Db.c_user_id := userId;
              Db.c_title := title; Db.c_created_at := now w;
              Db.c_updated_at := now w |}.
    split; [reflexivity|]. split; [reflexivity|].
    rewrite filter_app, Hlatest. simpl. rewrite filter_cons_True by done.
    split; [done|]. right. done.
Qed.

End Conversations.

(** X11. [getOrCreateConversation] is idempotent: after a call that returned
    a conversation id, a further call for the same user returns the same id
    and creates nothing, whatever title it is given. The conversation it
    returns belongs to the user: either it was there, or the user had none
    and exactly one was appended. *)
Theorem X11_conversation_idempotent (env : Env) (w w1 : World) (userId : string)
    (title title' : option string) (conversationId : string) :
  getOrCreateConversation env userId title w = (Ok conversationId, w1) →
  poolFault env (length (trace w1)) = None →
  getOrCreateConversation env userId title' w1 = (Ok conversationId, logged EvQuery w1) ∧
  ∃ row, Db.c_id row = conversationId ∧ Db.c_user_id row = userId ∧
         row ∈ Db.conversations (db w1) ∧
         (Db.conversations (db w1) = Db.conversations (db w) ∨
          Db.conversations (db w1) = Db.conversations (db w) ++ [row]).
Proof.
  intros Hfirst Hpool.
  apply getOrCreateConversation_ok in Hfirst
    as (row & Hid & Huser & Hlatest & Hconvs).
  split.
  - unfold getOrCreateConversation, ConversationRepository.getUserConversations.
    unfold_monad.
    destruct (executeQuery_cases env (Db.selectLatestConversation userId) w1)
      as [(e & He & _)|[_ ->]]; [congruence|].
    simpl. rewrite Hlatest. simpl. by rewrite Hid.
  - exists row. split; [done|]. split; [done|]. split; [|tauto].
    destruct Hconvs as [Hsame|[_ ->]]; [|set_solver].
    clear -Hlatest.
    assert (∀ l, Db.mostRecent l = Some row → row ∈ l) as Hin.
    { induction l as [|c l IH]; [done|]. simpl.
      destruct (Db.mostRecent l) as [c'|].
      - destruct (Db.c_updated_at c <? Db.c_updated_at c')%Z; intros [= <-];
          [right; by apply IH|by left].
      - intros [= <-]. by left. }
    apply Hin in Hlatest. by apply list_elem_of_filter in Hlatest as [_ ?].
Qed.

Lemma X11_conversation_idempotent_witness :
  let w1 := (getOrCreateConversation quietEnv "uuid-0" (Some "WhatsApp Conversation")
               anaWorld).2 in
  getOrCreateConversation quietEnv "uuid-0" None w1 = (Ok "uuid-1", logged EvQuery w1).
Proof.
  intros w1.
  apply (X11_conversation_idempotent quietEnv anaWorld w1 "uuid-0"
           (Some "WhatsApp Conversation") None "uuid-1").
  - vm_compute. reflexivity.
  - reflexivity.
Defined.

(** ** The agent state in memory *)

(** X12. [AgentMemory.getRecentMessages] gives the roles and contents of a
    suffix of the turns of the state: for a positive limit the last [limit]
    turns (all of them when there are fewer); for the limit 0 every turn, not
    none, since [slice(-0)] starts at the first element; for a negative limit
    the turns after the first [-limit]. *)
Theorem X12_recent_messages (agentState : Types.AgentState) (limit : Z) :
  let all := (λ msg, (Types.role msg, Types.content msg)) <$> Types.messages agentState in
  let recent := AgentMemoryMore.getRecentMessages agentState limit in
  recent `suffix_of` all ∧
  ((0 < limit)%Z →
   recent = drop (length all - Z.to_nat limit) all ∧
   length recent = Z.to_nat limit `min` length all) ∧
  ((limit ≤ 0)%Z → recent = drop (Z.to_nat (- limit)) all).
Proof.
  intros all recent. subst all recent. unfold AgentMemoryMore.getRecentMessages.
  cbv zeta. rewrite fmap_drop. split; [apply suffix_drop|].
  unfold AgentMemoryMore.sliceStart. rewrite length_fmap.
  split; intros Hlimit.
  - destruct (Z.ltb_spec (- limit) 0); [|lia].
    replace (Z.to_nat (Z.max (Z.of_nat (length (Types.messages agentState)) + - limit) 0))
      with (length (Types.messages agentState) - Z.to_nat limit) by lia.
    split; [done|]. rewrite length_drop, length_fmap. lia.
  - destruct (Z.ltb_spec (- limit) 0); [lia|].
    destruct (decide (Z.to_nat (- limit) ≤ length (Types.messages agentState))).
    + f_equal. lia.
    + rewrite !drop_ge; [done| |]; rewrite ?length_fmap; lia.
Qed.

Section Clear.
Variable env : Env.
Hypothesis Hnofault : ∀ n, poolFault env n = None.

Lemma selectAgentState_visible w userId state :
  storedState w userId = Some state →
  sessionExpired w userId = false →
  (Db.selectAgentState (now w) userId (db w)).1 = Ok [state].
Proof using Type.
  unfold storedState, sessionExpired, Db.selectAgentState. simpl.
  destruct (Db.sessions (db w) !! userId) as [s|]; simpl; [|done].
  intros [= <-] Hlive. apply bool_decide_eq_false in Hlive.
  unfold DbMore.expired in Hlive.
  destruct (Db.s_expires_at s) as [e|]; [|done].
  destruct (Z.ltb_spec (now w) e); [done|]. by destruct Hlive.
Qed.

Lemma clearMemory_unknown waId w :
  Db.users (db w) !! waId = None →
  WhatsAppAgentMore.clearMemory env waId w = (Ok (), logged EvQuery w).
Proof using Hnofault.
  intros Hu. unfold WhatsAppAgentMore.clearMemory, UserRepository.getUserByWaId.
  unfold_monad. rewrite (executeQuery_run env Hnofault). simpl. rewrite Hu. simpl.
  unfold logged. done.
Qed.

Lemma clearMemory_known waId w u state :
  isDatabaseAvailable w = true →
  Db.users (db w) !! waId = Some u →
  storedState w (Db.u_id u) = Some state →
  sessionExpired w (Db.u_id u) = false →
  JsString.trim (Db.u_id u) ≠ EmptyString →
  JsString.trim (Types.session_id state) ≠ EmptyString →
  ∃ w', WhatsAppAgentMore.clearMemory env waId w = (Ok (), w') ∧
        storedState w' (Db.u_id u)
        = Some (AgentMemoryMore.clearAgentState (now w) state) ∧
        Db.messages (db w') = Db.messages (db w) ∧
        Db.conversations (db w') = Db.conversations (db w) ∧
        trace w' = replicate 3 EvQuery ++ trace w.
Proof using Hnofault.
  intros Hflag Hu Hstate Hlive Huid Hsid.
  pose proof (selectAgentState_visible w (Db.u_id u) state Hstate Hlive) as Hsel.
  unfold WhatsAppAgentMore.clearMemory, UserRepository.getUserByWaId,
    AgentMemory.loadAgentState, SessionRepository.getAgentState,
    AgentMemory.saveAgentState, SessionRepository.saveAgentState,
    SessionRepository.validateAgentState, UserRepository.first.
  unfold_monad. rewrite (executeQuery_run env Hnofault). simpl. rewrite Hu. simpl.
  rewrite Hflag. simpl. rewrite (executeQuery_run env Hnofault). simpl.
  unfold Db.selectAgentState in Hsel. simpl in Hsel. injection Hsel as Hsel.
  rewrite Hsel. simpl.
  rewrite trim_blank_userId.
  rewrite (bool_decide_eq_false_2 _ Huid), (bool_decide_eq_false_2 _ Hsid).
  rewrite (executeQuery_run env Hnofault). simpl.
  unfold storedState in Hstate. unfold Db.upsertSession. simpl.
  destruct (Db.sessions (db w) !! Db.u_id u) as [s|]; [|done]. simpl.
  eexists. split; [reflexivity|]. unfold storedState. simpl.
  by rewrite lookup_insert_eq.
Qed.

End Clear.

(** X13. [WhatsAppAgent.clearMemory], with the store available and a pool
    that does not fail. For an unknown WhatsApp id it looks the user up and
    writes nothing. For a user with a stored state that has not expired it
    stores the cleared state: no turns, the node [start], the same session id
    and context with the time of clearing; the stored messages and
    conversations of the user are left as they are. *)
Theorem X13_clear_memory (env : Env) (w : World) (waId : string) :
  (∀ n, poolFault env n = None) →
  isDatabaseAvailable w = true →
  (Db.users (db w) !! waId = None →
   WhatsAppAgentMore.clearMemory env waId w = (Ok (), logged EvQuery w)) ∧
  (∀ u state,
     Db.users (db w) !! waId = Some u →
     storedState w (Db.u_id u) = Some state →
     sessionExpired w (Db.u_id u) = false →
     JsString.trim (Db.u_id u) ≠ EmptyString →
     JsString.trim (Types.session_id state) ≠ EmptyString →
     ∃ w', WhatsAppAgentMore.clearMemory env waId w = (Ok (), w') ∧
           storedState w' (Db.u_id u)
           = Some {| Types.messages := [];
                     Types.session_id := Types.session_id state;
                     Types.context :=
                       (Types.context (AgentMemoryMore.clearAgentState (now w) state));
                     Types.current_node := Some "start" |} ∧
           Types.cleared_at
             (Types.context (AgentMemoryMore.clearAgentState (now w) state))
           = Some (now w) ∧
           Db.messages (db w') = Db.messages (db w) ∧
           Db.conversations (db w') = Db.conversations (db w) ∧
           trace w' = replicate 3 EvQuery ++ trace w).
Proof.
  intros Hnofault Hflag. split.
  - by apply clearMemory_unknown.
  - intros u state Hu Hstate Hlive Huid Hsid.
    destruct (clearMemory_known env Hnofault waId w u state Hflag Hu Hstate Hlive Huid Hsid)
      as (w' & Hrun & Hstored & Hmsgs & Hconvs & Htrace).
    exists w'. repeat split; done.
Qed.

Lemma X13_clear_memory_witness :
  ∃ w', WhatsAppAgentMore.clearMemory quietEnv "573001112233" sessionWorld = (Ok (), w') ∧
        (Types.messages <$> storedState w' "uuid-0") = Some [].
Proof.
  destruct (X13_clear_memory quietEnv sessionWorld "573001112233") as [_ Hknown].
  - reflexivity.
  - reflexivity.
  - destruct (Hknown ana (calcState 1 "uuid-1" "uuid-0"))
      as (w' & Hrun & Hstored & _); try reflexivity; try (vm_compute; discriminate).
    exists w'. split; [exact Hrun|].
    change (storedState w' "uuid-0") with (storedState w' (Db.u_id ana)).
    rewrite Hstored. reflexivity.
Defined.

(** ** The tools *)

Section StockTools.
Import Types Tools.
Variable env : Env.

Lemma insideProcess_refl w : insideProcess w w.
Proof using Type. by unfold insideProcess. Qed.

Lemma TimeTool_contained input w :
  ∃ answer w', execute (TimeTool env) input w = (Ok answer, w') ∧
               answer ≠ EmptyString ∧ insideProcess w w'.
Proof using Type.
  simpl. unfold_monad. destruct (toLocaleString env (now w)) as [s|e];
    eexists _, _; (split; [reflexivity|]); split; try done; apply insideProcess_refl.
Qed.

Lemma WebSearchTool_contained input w :
  ∃ answer w', execute WebSearchTool input w = (Ok answer, w') ∧
               answer ≠ EmptyString ∧ insideProcess w w'.
Proof using Type.
  simpl. unfold_monad. destruct input as [[]|]; simpl;
    try (eexists _, _; (split; [reflexivity|]); split; [done|apply insideProcess_refl]).
  case_bool_decide;
    [eexists _, _; (split; [reflexivity|]); split; [done|apply insideProcess_refl]|].
  repeat match goal with
         | |- context [if JsString.includes ?a ?b then _ else _] =>
             destruct (JsString.includes a b)
         end;
    eexists _, _; (split; [reflexivity|]); split; try done; apply insideProcess_refl.
Qed.

Lemma CalculatorTool_contained input w :
  ∃ answer w', execute (CalculatorTool env) input w = (Ok answer, w') ∧
               answer ≠ EmptyString ∧ insideProcess w w'.
Proof using Type.
  simpl. unfold_monad. destruct input as [[]|]; simpl;
    try (eexists _, _; (split; [reflexivity|]); split; [done|apply insideProcess_refl]).
  case_bool_decide;
    [eexists _, _; (split; [reflexivity|]); split; [done|apply insideProcess_refl]|].
  destruct (negb (allowedChars expression));
    [eexists _, _; (split; [reflexivity|]); split; [done|apply insideProcess_refl]|].
  destruct (safeEval env expression);
    eexists _, _; (split; [reflexivity|]); split; try done; apply insideProcess_refl.
Qed.

Lemma MemoryTool_contained input w :
  ∃ answer w', execute MemoryTool input w = (Ok answer, w') ∧
               answer ≠ EmptyString ∧ insideProcess w w'.
Proof using Type.
  simpl. unfold_monad. destruct input as [[]|]; simpl;
    try (eexists _, _; (split; [reflexivity|]); split; [done|apply insideProcess_refl]).
  destruct (bool_decide (key = EmptyString) || bool_decide (userId = EmptyString));
    eexists _, _; (split; [reflexivity|]); split; try done; apply insideProcess_refl.
Qed.

Lemma courtesy_pick type (n : nat) :
  ∃ answer, courtesyResponses type !! (n `mod` length (courtesyResponses type))
            = Some answer ∧ answer ≠ EmptyString.
Proof using Type.
  assert (length (courtesyResponses type) = 3) as -> by by destruct type.
  pose proof (Nat.mod_upper_bound n 3) as Hlt.
  destruct (n `mod` 3) as [|[|[|k]]]; [| | |lia];
    destruct type; simpl; eexists; split; done.
Qed.

Lemma CourtesyTool_contained input w :
  ∃ answer w', execute CourtesyTool input w = (Ok answer, w') ∧
               answer ≠ EmptyString ∧ insideProcess w w'.
Proof using Type.
  simpl. unfold_monad. destruct input as [[]|]; simpl;
    try (eexists _, _; (split; [reflexivity|]); split; [done|apply insideProcess_refl]).
  destruct (courtesy_pick type (hd 0 (entropy w))) as (answer & -> & Hanswer).
  simpl. eexists _, _. split; [reflexivity|]. split; [done|]. by unfold insideProcess.
Qed.

Lemma stock_tool_inside tool input w :
  tool ∈ AVAILABLE_TOOLS env →
  ∃ answer w', execute tool input w = (Ok answer, w') ∧
               answer ≠ EmptyString ∧ insideProcess w w'.
Proof using Type.
  unfold AVAILABLE_TOOLS. rewrite !elem_of_cons, elem_of_nil.
  intros [->|[->|[->|[->|[->|[]]]]]].
  - apply TimeTool_contained.
  - apply WebSearchTool_contained.
  - apply CalculatorTool_contained.
  - apply MemoryTool_contained.
  - apply CourtesyTool_contained.
Qed.

End StockTools.

(** X14. Every tool of [AVAILABLE_TOOLS], on every input (also [undefined]
    and an object of another tool) and in every world, returns a text that is
    not empty and never throws; it leaves the database, the list of calls, the
    availability flag and the clock as they were. *)
Theorem X14_stock_tools_contained (env : Env) :
  Forall
    (λ tool, ∀ input w,
       ∃ answer w', Tools.execute tool input w = (Ok answer, w') ∧
                    answer ≠ EmptyString ∧ insideProcess w w')
    (Tools.AVAILABLE_TOOLS env).
Proof.
  apply Forall_forall. intros tool Htool input w.
  exact (stock_tool_inside env tool input w Htool).
Qed.

(** X15. The memory tool and [getMemory] form a round trip: after
    [execute({key, value, userId})] with a key and a user id that are not empty,
    [getMemory(userId, key)] is the value. The slot is named by the
    concatenation [userId_key] alone: every pair of a user and a key with the
    same concatenation reads the value just stored, and every other pair reads
    what it read before. *)
Theorem X15_memory_round_trip (w : World) (key value userId : string) :
  key ≠ EmptyString → userId ≠ EmptyString →
  ∃ answer w',
    Tools.execute Tools.MemoryTool (Some (Types.InputRemember key value userId)) w
    = (Ok answer, w') ∧
    MemoryToolMore.getMemory userId key w' = Some value ∧
    ∀ otherUser otherKey,
      MemoryToolMore.getMemory otherUser otherKey w'
      = if decide (otherUser +:+ "_" +:+ otherKey = userId +:+ "_" +:+ key)
        then Some value
        else MemoryToolMore.getMemory otherUser otherKey w.
Proof.
  intros Hkey Huser. simpl. unfold_monad. unfold Tools.memorySet.
  rewrite (bool_decide_eq_false_2 _ Hkey), (bool_decide_eq_false_2 _ Huser). simpl.
  eexists _, _. split; [reflexivity|]. unfold MemoryToolMore.getMemory. simpl.
  split; [by rewrite lookup_insert_eq|].
  intros otherUser otherKey. case_decide as Hslot.
  - by rewrite Hslot, lookup_insert_eq.
  - by rewrite lookup_insert_ne.
Qed.

Lemma X15_memory_round_trip_witness :
  ∃ answer w',
    Tools.execute Tools.MemoryTool (Some (Types.InputRemember "c" "42" "a_b")) degradedWorld
    = (Ok answer, w') ∧
    MemoryToolMore.getMemory "a_b" "c" w' = Some "42" ∧
    MemoryToolMore.getMemory "a" "b_c" w' = Some "42".
Proof.
  destruct (X15_memory_round_trip degradedWorld "c" "42" "a_b")
    as (answer & w' & Hrun & Hget & Hall); [done|done|].
  exists answer, w'. split; [exact Hrun|]. split; [exact Hget|].
  rewrite Hall. reflexivity.
Defined.

Section Prefix.
Import JsString.

Lemma rev_app_snoc s acc c :
  (∃ y, acc = y +:+ String c EmptyString) →
  ∃ y, String.rev_app s acc = y +:+ String c EmptyString.
Proof.
  revert acc. induction s as [|a s IH]; intros acc [y ->]; simpl; [eauto|].
  apply IH. by exists (String a y).
Qed.

Lemma trimStart_snoc y c :
  Ascii.is_space c = false →
  ∃ y', trimStart (y +:+ String c EmptyString) = y' +:+ String c EmptyString.
Proof.
  intros Hc. induction y as [|a y IH]; simpl.
  - rewrite Hc. by exists EmptyString.
  - destruct (Ascii.is_space a); [exact IH|]. by exists (String a y).
Qed.

Lemma rev_app_last y c acc :
  String.rev_app (y +:+ String c EmptyString) acc = String c (String.rev_app y acc).
Proof.
  revert acc. induction y as [|a y IH]; intros acc; simpl; [done|]. by rewrite IH.
Qed.

(** [trim] keeps a first character that is not whitespace. *)
Lemma trim_head c s :
  Ascii.is_space c = false → ∃ s', trim (String c s) = String c s'.
Proof.
  intros Hc. unfold trim, trimEnd, String.rev. simpl. rewrite Hc. simpl.
  destruct (rev_app_snoc s (String c EmptyString) c) as [y ->];
    [by exists EmptyString|].
  destruct (trimStart_snoc y c Hc) as [y' ->].
  rewrite rev_app_last. eauto.
Qed.

Lemma startsWith_app p s : startsWith (p +:+ s) p = true.
Proof. induction p as [|a p IH]; simpl; [by destruct s|]. by rewrite decide_True. Qed.

Lemma includes_startsWith s p : startsWith s p = true → includes s p = true.
Proof. intros H. destruct s; simpl in *; by rewrite H. Qed.

End Prefix.

Section Calcular.
Import Types Tools WhatsAppAgent.
Variable env : Env.

(** The expression extracted from a text that starts with [calcular]
    starts with the letter [r]: the alternation [calcula|calcular] of the
    pattern takes its first alternative. *)
Lemma calcular_input rest userId :
  ∃ s, extractToolInput ("calcular" +:+ rest) "calculator" userId
       = InputExpression (String "r" s).
Proof using Type.
  unfold extractToolInput. simpl.
  destruct (trim_head "r" rest) as [s Hs]; [done|].
  exists s. by rewrite <- Hs.
Qed.

Lemma calculator_letter s w :
  execute (CalculatorTool env) (Some (InputExpression (String "r" s))) w
  = (Ok notAllowedAnswer, w).
Proof using Type. done. Qed.

End Calcular.

(** X16. A text that starts with [calcular] (in any case) and names neither
    the time nor a search is never computed: [processMessageWithLogic] selects
    the calculator, the pattern [/^(calcula|calcular)/i] removes only
    [calcula], the expression starts with the letter [r], and the answer is
    the message about characters that are not allowed. *)
Theorem X16_calcular_never_computes (env : Env) (agentState : Types.AgentState)
    (messageContent rest : string) (w : World) :
  JsString.toLowerCase messageContent = "calcular" +:+ rest →
  WhatsAppAgent.somePattern ("calcular" +:+ rest) ["hora"; "tiempo"; "fecha"] = false →
  WhatsAppAgent.somePattern ("calcular" +:+ rest)
    ["buscar"; "busca"; "investigar"; "noticias"] = false →
  WhatsAppAgent.processMessageWithLogic env (Tools.AVAILABLE_TOOLS env) agentState
    messageContent w
  = (Ok notAllowedAnswer, logged (EvToolExecute "calculator") w).
Proof.
  intros Hlower Htime Hsearch.
  unfold WhatsAppAgent.processMessageWithLogic. rewrite Hlower.
  unfold WhatsAppAgent.logicPatterns. cbn [WhatsAppAgent.tryTools].
  rewrite Htime, Hsearch.
  assert (WhatsAppAgent.somePattern ("calcular" +:+ rest)
            ["calcular"; "suma"; "resta"; "multiplica"; "divide"; "+"; "-"; "*"; "/"]
          = true) as ->.
  { unfold WhatsAppAgent.somePattern. cbn [existsb].
    by rewrite (includes_startsWith _ _ (startsWith_app "calcular" rest)). }
  change (Tools.getToolByName (Tools.AVAILABLE_TOOLS env) (Some "calculator"))
    with (Some (Tools.CalculatorTool env)).
  destruct (calcular_input rest (Types.user_id (Types.context agentState))) as [s ->].
  unfold M.bind, M.catch, M.log, M.ret.
  cbn [Tools.name Tools.CalculatorTool]. rewrite calculator_letter. done.
Qed.

Lemma X16_calcular_witness :
  WhatsAppAgent.processMessageWithLogic quietEnv (Tools.AVAILABLE_TOOLS quietEnv)
    (calcState 2 "uuid-1" "uuid-0") "Calcular 2+2" anaWorld
  = (Ok notAllowedAnswer, logged (EvToolExecute "calculator") anaWorld).
Proof.
  apply (X16_calcular_never_computes quietEnv (calcState 2 "uuid-1" "uuid-0")
           "Calcular 2+2" " 2+2" anaWorld); reflexivity.
Defined.

(** ** The turn *)

(** X17. [processVoiceMessage] is [processTextMessage]: the method it wraps
    never throws, so neither of its two apologies for voice messages is ever
    returned, and a transcription is answered, and stored, exactly as the same
    text would be. *)
Theorem X17_voice_is_text (env : Env) (registry : list Tools.AgentTool)
    (waId transcription : string) (waMessageId : option string)
    (profileName : Types.OptStr) (w : World) :
  WhatsAppAgentMore.processVoiceMessage env registry waId transcription waMessageId
    profileName w
  = WhatsAppAgent.processTextMessage env registry waId transcription waMessageId
      profileName w.
Proof.
  unfold WhatsAppAgentMore.processVoiceMessage, M.catch.
  by destruct (processTextMessage_total env registry waId transcription waMessageId
                 profileName w) as (response & w' & ->).
Qed.

Section Growth.
Variable env : Env.

Lemma unique_same_messages d d' :
  Db.messages d' = Db.messages d → uniqueProviderIds d → uniqueProviderIds d'.
Proof using Type.
  intros Hm Hu id. specialize (Hu id). unfold Db.rowsWithWhatsappId in *.
  by rewrite Hm.
Qed.

Lemma dbGrows_same d d' :
  Db.users d' = Db.users d → Db.conversations d' = Db.conversations d →
  Db.messages d' = Db.messages d → dbGrows d d'.
Proof using Type.
  intros Hu Hc Hm. unfold dbGrows. rewrite Hu, Hc, Hm.
  split; [eauto|]. split; [done|]. split; [done|]. by apply unique_same_messages.
Qed.

#[local] Instance storeGrows_preorder : PreOrder storeGrows.
Proof using Type.
  split.
  - intros w. by apply dbGrows_same.
  - intros w1 w2 w3 (Hu1 & Hc1 & Hm1 & Hq1) (Hu2 & Hc2 & Hm2 & Hq2).
    split; [|split; [by etrans|split; [by etrans|auto]]].
    intros waId u Hu. destruct (Hu1 _ _ Hu) as (u' & Hu' & Hid).
    destruct (Hu2 _ _ Hu') as (u'' & Hu'' & Hid'). exists u''. split; [done|congruence].
Qed.

Lemma insideProcess_grows w w' : insideProcess w w' → storeGrows w w'.
Proof using Type. intros (Hdb & _). unfold storeGrows. rewrite Hdb. by apply dbGrows_same. Qed.

Lemma executeQuery_grows {A} (q : Db.Statement A) :
  (∀ d, dbGrows d (q d).2) → keeps storeGrows (Client.executeQuery env q).
Proof using Type.
  intros Hq w.
  destruct (executeQuery_cases env q w) as [(e & _ & ->)|[_ ->]]; simpl.
  - by apply dbGrows_same.
  - apply Hq.
Qed.

Lemma upsertUser_grows t waId phone profile d :
  dbGrows d (Db.upsertUser t waId phone profile d).2.
Proof using Type.
  unfold Db.upsertUser. destruct (Db.users d !! waId) as [old|] eqn:Hold; simpl.
  - split; [|split; [done|split; [done|by apply unique_same_messages]]].
    simpl. intros waId' u Hu. destruct (decide (waId' = waId)) as [->|Hne].
    + rewrite lookup_insert_eq. eexists. split; [done|]. simpl. congruence.
    + rewrite lookup_insert_ne by done. eauto.
  - split; [|split; [done|split; [done|by apply unique_same_messages]]].
    simpl. intros waId' u Hu. destruct (decide (waId' = waId)) as [->|Hne].
    + congruence.
    + rewrite lookup_insert_ne by done. eauto.
Qed.

Lemma insertConversation_grows t userId title d :
  dbGrows d (Db.insertConversation t userId title d).2.
Proof using Type.
  unfold Db.insertConversation. destruct (negb (Db.userIdExists d userId)); simpl.
  - by apply dbGrows_same.
  - split; [eauto|]. split; [|split; [done|by apply unique_same_messages]].
    simpl. rewrite fmap_app. by apply prefix_app_r.
Qed.

Lemma upsertSession_grows t userId state d :
  dbGrows d (Db.upsertSession t userId state d).2.
Proof using Type.
  unfold Db.upsertSession. destruct (Db.sessions d !! userId); simpl;
    [by apply dbGrows_same|].
  destruct (negb (Db.userIdExists d userId)); simpl; by apply dbGrows_same.
Qed.

Lemma touchConversation_grows t conversationId d :
  dbGrows d (Db.touchConversation t conversationId d).2.
Proof using Type.
  unfold Db.touchConversation. simpl.
  split; [eauto|]. split; [|split; [done|by apply unique_same_messages]].
  simpl. rewrite <- list_fmap_compose.
  erewrite list_fmap_ext; [done|]. intros i c _. simpl. by case_bool_decide.
Qed.

Lemma insertMessage_grows conv dir ty content id ts d :
  dbGrows d (Db.insertMessage conv dir ty content id ts d).2.
Proof using Type.
  unfold Db.insertMessage.
  destruct (match id with
            | Some id' => existsb (Db.hasWhatsappId id') (Db.messages d)
            | None => false
            end) eqn:Hfresh; simpl; [by apply dbGrows_same|].
  destruct (negb (Db.conversationExists d conv)); simpl; [by apply dbGrows_same|].
  split; [eauto|]. split; [done|]. split; [by apply prefix_app_r|].
  intros Hu other. specialize (Hu other). unfold Db.rowsWithWhatsappId in *. simpl.
  rewrite filter_app, length_app.
  destruct (decide (id = Some other)) as [->|Hne].
  - rewrite (filter_whatsapp_none _ _ Hfresh). simpl.
    rewrite filter_cons_True by done. simpl. lia.
  - rewrite filter_cons_False by done. simpl. lia.
Qed.

Lemma first_grows {A} (rows : list A) : keeps storeGrows (UserRepository.first rows).
Proof using Type. destruct rows; keeps_rules. Qed.

Lemma getUserByWaId_grows waId : keeps storeGrows (UserRepository.getUserByWaId env waId).
Proof using Type.
  unfold UserRepository.getUserByWaId. keeps_rules.
  apply executeQuery_grows. intros d. by apply dbGrows_same.
Qed.

Lemma upsertUser_keeps_grows waId phone profile :
  keeps storeGrows (UserRepository.upsertUser env waId phone profile).
Proof using Type.
  unfold UserRepository.upsertUser. keeps_rules; [|apply first_grows].
  apply executeQuery_grows. intros d. apply upsertUser_grows.
Qed.

Lemma loadAgentState_grows userId :
  keeps storeGrows (AgentMemory.loadAgentState env userId).
Proof using Type.
  unfold AgentMemory.loadAgentState, SessionRepository.getAgentState. keeps_rules.
  apply executeQuery_grows. intros d. by apply dbGrows_same.
Qed.

Lemma getOrCreateConversation_grows userId title :
  keeps storeGrows (AgentMemory.getOrCreateConversation env userId title).
Proof using Type.
  unfold AgentMemory.getOrCreateConversation, getOrCreateConversation,
    ConversationRepository.getUserConversations. keeps_rules.
  - apply executeQuery_grows. intros d. by apply dbGrows_same.
  - match goal with |- keeps _ (match ?l with _ => _ end) => destruct l end;
      unfold ConversationRepository.createConversation; keeps_rules;
      [|apply first_grows].
    apply executeQuery_grows. intros d. apply insertConversation_grows.
Qed.

Lemma saveAgentState_grows userId state :
  keeps storeGrows (AgentMemory.saveAgentState env userId state).
Proof using Type.
  unfold AgentMemory.saveAgentState, SessionRepository.saveAgentState,
    SessionRepository.validateAgentState. keeps_rules; [|apply first_grows].
  apply executeQuery_grows. intros d. apply upsertSession_grows.
Qed.

Lemma saveMessage_grows conv dir ty content id ts :
  keeps storeGrows (AgentMemory.saveMessage env conv dir ty content id ts).
Proof using Type.
  unfold AgentMemory.saveMessage, MessageRepository.saveMessage,
    ConversationRepository.updateConversationTimestamp. keeps_rules.
  - apply executeQuery_grows. intros d. apply insertMessage_grows.
  - apply first_grows.
  - apply executeQuery_grows. intros d. apply touchConversation_grows.
Qed.

Variable registry : list Tools.AgentTool.
Hypothesis Hregistry :
  ∀ tool input, tool ∈ registry → keeps storeGrows (Tools.execute tool input).

Lemma getToolByName_elem n tool :
  Tools.getToolByName registry n = Some tool → tool ∈ registry.
Proof using Type.
  destruct n as [n|]; [|done]. simpl. intros H.
  apply find_some in H as [H _]. by apply list_elem_of_In.
Qed.

Lemma tryTools_grows entries content userId :
  keeps storeGrows (WhatsAppAgent.tryTools registry entries content userId).
Proof using Hregistry.
  induction entries as [|[toolName patterns] entries IH]; cbn [WhatsAppAgent.tryTools];
    [keeps_rules|].
  kif; [|exact IH].
  destruct (Tools.getToolByName registry (Some toolName)) as [tool|] eqn:Htool;
    [|exact IH].
  apply getToolByName_elem in Htool.
  kcatch; [|keeps_rules]. kbind; [|intros _].
  { intros w. by apply dbGrows_same. }
  kbind; [by apply Hregistry|keeps_rules].
Qed.

Lemma generate_grows prompt :
  keeps storeGrows (OpenAIService.generateResponse env prompt).
Proof using Type.
  unfold OpenAIService.generateResponse. kcatch; [|keeps_rules].
  kbind; [intros w; by apply dbGrows_same|intros _].
  intros w. by apply dbGrows_same.
Qed.

Lemma processMessageWithLogic_grows state content :
  keeps storeGrows (WhatsAppAgent.processMessageWithLogic env registry state content).
Proof using Hregistry.
  unfold WhatsAppAgent.processMessageWithLogic.
  kbind; [apply tryTools_grows|intros [result|]]; [keeps_rules|].
  kcatch; [|keeps_rules]. kbind; [|intros _].
  { unfold OpenAIService.getOpenAIService. kif; keeps_rules. }
  kbind; [apply generate_grows|keeps_rules].
Qed.

Lemma processTextMessage_grows waId content waMessageId profileName :
  keeps storeGrows
    (WhatsAppAgent.processTextMessage env registry waId content waMessageId profileName).
Proof using Hregistry.
  unfold WhatsAppAgent.processTextMessage.
  kcatch; [|keeps_rules].
  kif; [keeps_rules|]. kif; [keeps_rules|].
  kbind; [apply getUserByWaId_grows|intros found].
  kbind; [|intros usr].
  { destruct found; [keeps_rules|apply upsertUser_keeps_grows]. }
  kbind; [apply loadAgentState_grows|intros loaded].
  kbind; [|intros agentState].
  { destruct loaded; [keeps_rules|].
    kbind; [apply getOrCreateConversation_grows|keeps_rules]. }
  kbind; [keeps_rules|intros t].
  kif; [keeps_rules|].
  kbind; [|intros response].
  { kcatch; [|keeps_rules].
    kbind; [apply processMessageWithLogic_grows|keeps_rules]. }
  kbind; [keeps_rules|intros t'].
  kbind; [|intros _].
  { kcatch; [apply saveAgentState_grows|keeps_rules]. }
  kbind; [|intros _].
  { kcatch; [|keeps_rules]. kbind; [apply saveMessage_grows|keeps_rules]. }
  kbind; [|keeps_rules].
  kcatch; [|keeps_rules]. kbind; [apply saveMessage_grows|keeps_rules].
Qed.

End Growth.

(** X18. A turn through [processTextMessage] with the tools of the program
    never deletes from the store, whatever the pool, the model and the input
    do: every user is still there under the same row id, conversations and
    stored messages are only appended, and if no two stored messages shared a
    provider id before the turn, none do after it. *)
Theorem X18_turn_never_deletes (env : Env) (waId messageContent : string)
    (waMessageId : option string) (profileName : Types.OptStr) (w : World) :
  dbGrows (db w)
    (db (WhatsAppAgent.processTextMessage env (Tools.AVAILABLE_TOOLS env) waId
           messageContent waMessageId profileName w).2).
Proof.
  apply (processTextMessage_grows env (Tools.AVAILABLE_TOOLS env)).
  intros tool input Htool w0.
  destruct (stock_tool_inside env tool input w0 Htool) as (answer & w' & -> & _ & Hin).
  by apply insideProcess_grows.
Qed.

(** ** The nodes *)

Ltac node_done :=
  eexists _, _; split; [reflexivity|]; simpl;
  repeat split; try done; try (by apply prefix_app_r); try (rewrite length_app; simpl; lia);
  try lia; eexists; (split; [reflexivity|]); set_solver.

Section Nodes.
Import Types WhatsAppAgent.
Variable env : Env.
Variable registry : list Tools.AgentTool.

Lemma processInput_steps : stepsTo processInput ["analyze"; "error"].
Proof using Type.
  intros state w. unfold processInput. unfold_monad.
  destruct (last (messages state)) as [lastMessage|]; [|node_done].
  case_bool_decide; node_done.
Qed.

Lemma analyzeIntent_steps : stepsTo analyzeIntent ["use_tool"; "respond"].
Proof using Type.
  intros state w. unfold analyzeIntent. unfold_monad.
  destruct (lastUserMessage state) as [m|]; [|node_done].
  destruct (find _ analyzePatterns) as [[toolName patterns]|]; node_done.
Qed.

Lemma useTool_steps : stepsTo (useTool registry) ["finalize"].
Proof using Type.
  intros state w. unfold useTool. unfold_monad.
  destruct (Tools.getToolByName registry (selected_tool (context state))) as [tool|];
    [|node_done].
  destruct (Tools.execute tool (tool_input (context state)) _) as [[toolResult|e] w1];
    node_done.
Qed.

Lemma generateResponse_steps : stepsTo (generateResponse env) ["finalize"].
Proof using Type.
  intros state w. unfold generateResponse, OpenAIService.getOpenAIService,
    OpenAIService.generateResponse. unfold_monad.
  destruct (apiKeyConfigured env); [|node_done].
  destruct (modelInvoke env _) as [aiResponse|e]; node_done.
Qed.

Lemma finalizeResponse_steps : stepsTo (finalizeResponse env) [END; "error"].
Proof using Type.
  intros state w. unfold finalizeResponse. unfold_monad.
  destruct (AgentMemory.saveAgentState env (user_id (context state)) state w)
    as [[[]|e] w1]; node_done.
Qed.

Lemma handleError_steps : stepsTo handleError [END].
Proof using Type. intros state w. unfold handleError. unfold_monad. node_done. Qed.

End Nodes.

(** X19. Every node of the agent is total, whatever the tools, the pool and
    the model do: it never throws, keeps the session id and the user id of the
    state, appends at most one turn to it, and names its successor among the
    edges of the graph: [processInput] the analysis or the error node,
    [analyzeIntent] the tool or the generation node (never the error node),
    [useTool] and [generateResponse] the final node also when the tool or the
    model fails, [finalizeResponse] the end or the error node, and
    [handleError] the end. *)
Theorem X19_nodes_total (env : Env) (registry : list Tools.AgentTool) :
  stepsTo WhatsAppAgent.processInput ["analyze"; "error"] ∧
  stepsTo WhatsAppAgent.analyzeIntent ["use_tool"; "respond"] ∧
  stepsTo (WhatsAppAgent.useTool registry) ["finalize"] ∧
  stepsTo (WhatsAppAgent.generateResponse env) ["finalize"] ∧
  stepsTo (WhatsAppAgent.finalizeResponse env) [WhatsAppAgent.END; "error"] ∧
  stepsTo WhatsAppAgent.handleError [WhatsAppAgent.END].
Proof.
  split; [apply processInput_steps|]. split; [apply analyzeIntent_steps|].
  split; [apply useTool_steps|]. split; [apply generateResponse_steps|].
  split; [apply finalizeResponse_steps|apply handleError_steps].
Qed.

Section Generation.
Import Types WhatsAppAgent.
Variable env : Env.
Variable registry : list Tools.AgentTool.



End Generation.



(** X21. [OpenAIService.isAvailable] answers [true] whatever the model does:
    [generateResponse] catches every failure of the call and returns a canned
    reply, so the [catch] of the probe is never entered. *)
Theorem X21_isAvailable_always_true (env : Env) (w : World) :
  OpenAIServiceMore.isAvailable env w = (Ok true, logged (EvModelInvoke "test") w).
Proof.
  unfold OpenAIServiceMore.isAvailable, OpenAIService.generateResponse. unfold_monad.
  by destruct (modelInvoke env "test").
Qed.

Section Selection.
Import Types Tools WhatsAppAgent.
Variable env : Env.


End Selection.



Section AllMemory.
Import JsString.





End AllMemory.




(** X25. [SessionRepository.setSessionExpiry] and the readers of the expiry.
    With the store available and a pool that does not fail, after the expiry of
    the session of a user is set, [loadAgentState] finds the state of the user
    exactly when the expiry is later than the present time, and when it is not,
    [cleanupExpiredSessions] deletes the session. *)
Theorem X25_session_expiry (env : Env) (w : World) (userId : string) (s : Db.Session)
    (expiresAt : Z) :
  (∀ n, poolFault env n = None) →
  isDatabaseAvailable w = true →
  Db.sessions (db w) !! userId = Some s →
  ∃ w1,
    RepositoryMore.setSessionExpiry env (Db.s_id s) expiresAt w = (Ok (), w1) ∧
    AgentMemory.loadAgentState env userId w1
    = (Ok (if bool_decide (expiresAt ≤ now w)%Z then None else Some (Db.s_agent_state s)),
       logged EvQuery w1) ∧
    ((expiresAt ≤ now w)%Z →
     Db.sessions (db (AgentMemoryMore.cleanupExpiredSessions env w1).2) !! userId = None).
Proof.
  intros Hnofault Hflag Hs.
  unfold RepositoryMore.setSessionExpiry. unfold_monad.
  rewrite (executeQuery_run env Hnofault). simpl.
  eexists. split; [reflexivity|].
  match goal with
  | |- AgentMemory.loadAgentState env userId ?after = _ ∧ _ => set (w1 := after)
  end.
  assert (Db.sessions (db w1) !! userId
          = Some {| Db.s_id := Db.s_id s; Db.s_user_id := Db.s_user_id s;
                    Db.s_agent_state := Db.s_agent_state s;
                    Db.s_updated_at := Db.s_updated_at s;
                    Db.s_expires_at := Some expiresAt |}) as Hrow.
  { subst w1. simpl. rewrite lookup_fmap, Hs. simpl.
    by rewrite bool_decide_eq_true_2. }
  split.
  - rewrite loadAgentState_at by (subst w1; simpl; auto).
    rewrite Hrow. do 2 f_equal.
  - intros Hpast.
    unfold AgentMemoryMore.cleanupExpiredSessions, RepositoryMore.cleanupExpiredSessions.
    unfold_monad. replace (isDatabaseAvailable w1) with true by done. simpl.
    rewrite (executeQuery_run env Hnofault). simpl.
    rewrite map_lookup_filter, lookup_fmap, Hs. simpl.
    rewrite bool_decide_eq_true_2 by done.
    rewrite option_guard_False; [done|]. simpl. intros Hlive. apply Hlive.
    unfold DbMore.expired. simpl. done.
Qed.

Lemma X25_session_expiry_witness :
  ∃ w1,
    RepositoryMore.setSessionExpiry quietEnv "uuid-2" 2 sessionWorld = (Ok (), w1) ∧
    AgentMemory.loadAgentState quietEnv "uuid-0" w1 = (Ok None, logged EvQuery w1).
Proof.
  destruct (X25_session_expiry quietEnv sessionWorld "uuid-0"
              {| Db.s_id := "uuid-2"; Db.s_user_id := "uuid-0";
                 Db.s_agent_state := calcState 1 "uuid-1" "uuid-0";
                 Db.s_updated_at := 1; Db.s_expires_at := None |} 2)
    as (w1 & Hset & Hload & _); try reflexivity.
  exists w1. split; [exact Hset|exact Hload].
Defined.
